(** * SharkTalent backend: projects, proposals and their authorization

    A shallow embedding of [backend/models.py], [backend/auth.py] and
    [backend/routes.py], and the properties of the proposal lifecycle and of
    the ownership checks proved over it.

    Modelling conventions.
    - A request body is the value [request.get_json()] returns: a decoded
      JSON value ([json]), or nothing when the body is absent or malformed,
      in which case [get_json] raises.
    - Python floats are IEEE binary64 values ([spec_float] at precision 53).
    - The tables are finite maps from the integer primary key to the row.
    - The SQLAlchemy session is a pending view of the tables next to the
      committed one; [db.session.commit()] publishes the pending view, and
      what is still pending when the request ends is discarded.
    - The store is taken to be strictly typed: a column accepts values of its
      declared type ([None] too when it is nullable) and any other value is a
      statement error, which reaches the handler's [except] clause. The
      store does not fail otherwise: a commit goes through.
    - What the Python runtime and the external services compute from strings
      (number parsing, password hashing, token issuance, date formatting) is
      the interface [Runtime]. *)

From Stdlib Require Import ZArith String List Bool.
From Stdlib Require Import Floats.SpecFloat.
From stdpp Require Import base option list gmap strings sorting.

Set Warnings "-register-all".
Local Open Scope Z_scope.
Local Open Scope string_scope.

(** ** Decoded JSON values and the Python operations the handlers apply *)

Inductive json : Type :=
| JNull
| JBool (b : bool)
| JInt (z : Z)
| JFloat (f : spec_float)
| JStr (s : string)
| JArr (l : list json)
| JObj (l : list (string * json)).

(** Python exceptions: the class and the text [str(e)] yields. *)
Inductive exn : Type := Exn (cls : string) (text : string).

Definition str_exn (e : exn) : string := let 'Exn _ text := e in text.

Definition AttributeError := Exn "AttributeError".
Definition TypeError := Exn "TypeError".
Definition ValueError := Exn "ValueError".
Definition OverflowError := Exn "OverflowError".
Definition KeyError := Exn "KeyError".
Definition StatementError := Exn "StatementError".
Definition NotFound := Exn "NotFound" "404 Not Found".
Definition BadRequest := Exn "BadRequest" "400 Bad Request".

(** Code that returns or raises and does not touch the session. *)
Definition E (A : Type) : Type := (A + exn)%type.

Definition and_then {A B} (r : E A) (k : A -> E B) : E B :=
  match r with
  | inl a => k a
  | inr e => inr e
  end.

Notation "'attempt' x <- r ; k" := (and_then r (fun x => k))
  (at level 10, x name, r at level 100, k at level 200, only parsing).

(** [bool(x)]: what [not x] tests. *)
Definition truthy (x : json) : bool :=
  match x with
  | JNull => false
  | JBool b => b
  | JInt z => negb (Z.eqb z 0)
  | JFloat (S754_zero _) => false
  | JFloat _ => true
  | JStr s => negb (String.eqb s "")
  | JArr [] => false
  | JArr _ => true
  | JObj [] => false
  | JObj _ => true
  end.

(** The dict built from the pairs of a JSON object keeps, for a repeated
    key, the last value. *)
Fixpoint assoc (k : string) (l : list (string * json)) : option json :=
  match l with
  | [] => None
  | (k', v) :: l' =>
      match assoc k l' with
      | Some v' => Some v'
      | None => if String.eqb k k' then Some v else None
      end
  end.

(** [data.get(k)] *)
Definition dict_get (data : json) (k : string) : E json :=
  match data with
  | JObj l => inl (default JNull (assoc k l))
  | _ => inr (AttributeError "object has no attribute 'get'")
  end.

(** [k in data] *)
Definition py_in (k : string) (data : json) : E bool :=
  match data with
  | JObj l => inl (bool_decide (is_Some (assoc k l)))
  | JArr l =>
      inl (existsb (fun x => match x with JStr s => String.eqb s k | _ => false end) l)
  | JStr s => inl (bool_decide (is_Some (index 0 k s)))
  | _ => inr (TypeError "argument is not iterable")
  end.

(** [data[k]] *)
Definition getitem (data : json) (k : string) : E json :=
  match data with
  | JObj l =>
      match assoc k l with
      | Some v => inl v
      | None => inr (KeyError k)
      end
  | _ => inr (TypeError "indices must be integers")
  end.

Definition binary64_of_Z (z : Z) : spec_float := binary_normalize 53 1024 z 0 false.

Definition Z_of_binary64 (f : spec_float) : E Z :=
  match f with
  | S754_zero _ => inl 0
  | S754_infinity _ => inr (OverflowError "cannot convert float infinity to integer")
  | S754_nan => inr (ValueError "cannot convert float NaN to integer")
  | S754_finite s m e =>
      let a := if decide (0 <= e) then Z.pos m * 2 ^ e else Z.pos m / 2 ^ (- e) in
      inl (if s then - a else a)
  end.

(** The part of the runtime and of the external services that is not in the
    repository. *)
Class Runtime : Type := {
  (** [float(s)] on a string; [None] is [ValueError] *)
  float_of_str : string -> option spec_float;
  (** [int(s)] on a string; [None] is [ValueError] *)
  int_of_str : string -> option Z;
  (** [bcrypt.hashpw(password, salt)] *)
  hashpw : string -> string -> string;
  (** [bcrypt.checkpw(password, hash)] *)
  checkpw : string -> string -> bool;
  (** [create_access_token(identity=...)] *)
  create_access_token : Z -> string;
  (** [datetime.isoformat()] *)
  isoformat : Z -> string;
}.

Section Conversions.
Context `{Runtime}.

(** [float(x)] *)
Definition py_float (x : json) : E spec_float :=
  match x with
  | JBool b => inl (binary64_of_Z (Z.b2z b))
  | JInt z =>
      match binary64_of_Z z with
      | S754_infinity _ => inr (OverflowError "int too large to convert to float")
      | f => inl f
      end
  | JFloat f => inl f
  | JStr s =>
      match float_of_str s with
      | Some f => inl f
      | None => inr (ValueError "could not convert string to float")
      end
  | _ => inr (TypeError "float() argument must be a string or a real number")
  end.

(** [int(x)] *)
Definition py_int (x : json) : E Z :=
  match x with
  | JBool b => inl (Z.b2z b)
  | JInt z => inl z
  | JFloat f => Z_of_binary64 f
  | JStr s =>
      match int_of_str s with
      | Some z => inl z
      | None => inr (ValueError "invalid literal for int() with base 10")
      end
  | _ => inr (TypeError "int() argument must be a string or a real number")
  end.
End Conversions.

(** Values bound to the columns of the store. *)
Definition db_int (x : json) : E Z :=
  match x with
  | JInt z => inl z
  | JBool b => inl (Z.b2z b)
  | _ => inr (StatementError "integer column")
  end.

Definition db_float (x : json) : E spec_float :=
  match x with
  | JFloat f => inl f
  | JInt z => inl (binary64_of_Z z)
  | JBool b => inl (binary64_of_Z (Z.b2z b))
  | _ => inr (StatementError "float column")
  end.

Definition db_str (x : json) : E string :=
  match x with
  | JStr s => inl s
  | _ => inr (StatementError "string column")
  end.

Definition db_str_null (x : json) : E (option string) :=
  match x with
  | JNull => inl None
  | JStr s => inl (Some s)
  | _ => inr (StatementError "string column")
  end.

(** ** models.py *)

Module User.
Record t : Type := mk {
  email : string;
  password : string;
  first_name : string;
  last_name : string;
  role : string;
  created_at : Z;
}.
Definition set_email (v : string) (u : t) : t :=
  mk v (password u) (first_name u) (last_name u) (role u) (created_at u).
Definition with_password (v : string) (u : t) : t :=
  mk (email u) v (first_name u) (last_name u) (role u) (created_at u).
Definition set_first_name (v : string) (u : t) : t :=
  mk (email u) (password u) v (last_name u) (role u) (created_at u).
Definition set_last_name (v : string) (u : t) : t :=
  mk (email u) (password u) (first_name u) v (role u) (created_at u).
End User.

Module Project.
Record t : Type := mk {
  title : string;
  description : string;
  budget : spec_float;
  skills_required : option string;
  status : option string;
  client_id : Z;
  created_at : Z;
}.
Definition set_title (v : string) (p : t) : t :=
  mk v (description p) (budget p) (skills_required p) (status p) (client_id p) (created_at p).
Definition set_description (v : string) (p : t) : t :=
  mk (title p) v (budget p) (skills_required p) (status p) (client_id p) (created_at p).
Definition set_budget (v : spec_float) (p : t) : t :=
  mk (title p) (description p) v (skills_required p) (status p) (client_id p) (created_at p).
Definition set_skills_required (v : option string) (p : t) : t :=
  mk (title p) (description p) (budget p) v (status p) (client_id p) (created_at p).
Definition set_status (v : option string) (p : t) : t :=
  mk (title p) (description p) (budget p) (skills_required p) v (client_id p) (created_at p).
End Project.

Module Proposal.
Record t : Type := mk {
  cover_letter : string;
  bid_amount : spec_float;
  timeline_days : Z;
  status : string;
  freelancer_id : Z;
  project_id : Z;
  submitted_at : Z;
}.
Definition set_status (v : string) (p : t) : t :=
  mk (cover_letter p) (bid_amount p) (timeline_days p) v
     (freelancer_id p) (project_id p) (submitted_at p).
End Proposal.

(** The three tables, keyed by [id]. *)
Record DB : Type := mkDB {
  users : gmap Z User.t;
  projects : gmap Z Project.t;
  proposals : gmap Z Proposal.t;
}.

Definition set_users (f : gmap Z User.t -> gmap Z User.t) (d : DB) : DB :=
  mkDB (f (users d)) (projects d) (proposals d).
Definition set_projects (f : gmap Z Project.t -> gmap Z Project.t) (d : DB) : DB :=
  mkDB (users d) (f (projects d)) (proposals d).
Definition set_proposals (f : gmap Z Proposal.t -> gmap Z Proposal.t) (d : DB) : DB :=
  mkDB (users d) (projects d) (f (proposals d)).

(** The key an integer primary key column gives a new row: one more than
    the largest key of the table (SQLite's rule; the properties below only
    use that the key is not taken). *)
Definition next_id {A} (m : gmap Z A) : Z :=
  1 + foldr Z.max 0 (fst <$> map_to_list m).

(** ** The session and the request boundary *)

(** [committed] is what the store holds, [pending] what the session of the
    running request sees, [log] the states committed so far by the request. *)
Record World : Type := mkWorld {
  committed : DB;
  pending : DB;
  log : list DB;
}.

(** Handler code: it reads and writes the session and returns or raises. *)
Definition M (A : Type) : Type := World -> E A * World.

Definition ret {A} (a : A) : M A := fun w => (inl a, w).

Definition bind {A B} (m : M A) (k : A -> M B) : M B :=
  fun w =>
    match m w with
    | (inl a, w') => k a w'
    | (inr e, w') => (inr e, w')
    end.

Notation "'do' x <- m ; k" := (bind m (fun x => k))
  (at level 10, x name, m at level 100, k at level 200, only parsing).
Notation "'exec' m ; k" := (bind m (fun _ => k))
  (at level 10, m at level 100, k at level 200, only parsing).

Definition raise {A} (e : exn) : M A := fun w => (inr e, w).

Definition lift {A} (r : E A) : M A := fun w => (r, w).

(** A query of the session. *)
Definition query {A} (f : DB -> A) : M A := fun w => (inl (f (pending w)), w).

(** A change staged in the session. *)
Definition stage (f : DB -> DB) : M unit :=
  fun w => (inl tt, mkWorld (committed w) (f (pending w)) (log w)).

(** [db.session.commit()] *)
Definition commit : M unit :=
  fun w => (inl tt, mkWorld (pending w) (pending w) (log w ++ [pending w])).

(** [try: body except Exception as e: handler(e)] *)
Definition try_except {A} (body : M A) (handler : exn -> M A) : M A :=
  fun w =>
    match body w with
    | (inr e, w') => handler e w'
    | r => r
    end.

(** A response: the JSON payload and the HTTP status code. *)
Definition Resp : Type := json * Z.

Definition jsonify_message (s : string) : json := JObj [("message", JStr s)].

(** One request: the handler runs on a session opened on the committed
    store; when it ends, what it left uncommitted is dropped. An exception
    no handler caught is the framework's 500. *)
Definition run_request (h : M Resp) (db : DB) : Resp * DB :=
  match h (mkWorld db db []) with
  | (inl r, w) => (r, committed w)
  | (inr _, w) => ((jsonify_message "Internal Server Error", 500), committed w)
  end.

(** The states a request committed, in order. *)
Definition commits_of (h : M Resp) (db : DB) : list DB :=
  log (snd (h (mkWorld db db []))).

(** What a request brings besides its route and body: the identity its
    bearer token verifies to (none without a valid token), the time, and the
    salt drawn when a password is hashed. *)
Record Env : Type := mkEnv {
  identity : option Z;
  now : Z;
  salt : string;
}.

(** The query string, after [request.args.get(..., type=int)]: a parameter
    that is absent or does not convert is [None]. *)
Record Args : Type := mkArgs {
  arg_status : option string;
  arg_page : option Z;
  arg_per_page : option Z;
}.

(** [request.get_json()] *)
Definition get_json (body : option json) : M json :=
  match body with
  | Some data => ret data
  | None => raise BadRequest
  end.

(** [Model.query.get_or_404(id)] *)
Definition get_or_404 {A} (row : option A) : M A :=
  match row with
  | Some r => ret r
  | None => raise NotFound
  end.

(** Reading an attribute of an object a relationship or a query returned,
    which is [None] when there is no row. *)
Definition attr {A} (obj : option A) : M A :=
  match obj with
  | Some r => ret r
  | None => raise (AttributeError "'NoneType' object has no attribute")
  end.

(** [for field in required_fields: if not data.get(field): return ...]:
    the first field that is missing or falsy. *)
Fixpoint first_missing (data : json) (required_fields : list string) : E (option string) :=
  match required_fields with
  | [] => inl None
  | field :: rest =>
      attempt v <- dict_get data field;
      if truthy v then first_missing data rest else inl (Some field)
  end.

(** [query.order_by(key.desc())] *)
Definition desc {A} (key : A -> Z) (a b : A) : Prop := key b <= key a.

#[global] Instance desc_dec {A} (key : A -> Z) : RelDecision (desc key) :=
  fun a b => Z_le_dec (key b) (key a).

Definition order_by_desc {A} (key : A -> Z) (l : list A) : list A :=
  merge_sort (desc key) l.

(** [query.paginate(page=page, per_page=per_page, error_out=False)]: the
    items of the page. Without [error_out], Flask-SQLAlchemy takes a page
    below 1 for page 1 and a page size below 1 for 20. *)
Definition paginate {A} (page per_page : Z) (l : list A) : list A :=
  let page := if decide (page < 1) then 1 else page in
  let per_page := if decide (per_page < 1) then 20 else per_page in
  take (Z.to_nat per_page) (drop (Z.to_nat ((page - 1) * per_page)) l).

Definition page_count (per_page total : Z) : Z :=
  let per_page := if decide (per_page < 1) then 20 else per_page in
  (total + per_page - 1) / per_page.

Definition paginated_payload (name : string) (items : list json) (total : Z)
    (page per_page : Z) : json :=
  JObj [(name, JArr items); ("total", JInt total);
        ("pages", JInt (page_count per_page total)); ("current_page", JInt page)].

(** [db.session.add(row)] for each table: the row gets the next key. *)
Definition add_user (u : User.t) : M Z :=
  do i <- query (fun db => next_id (users db));
  exec stage (set_users (insert i u));
  ret i.

Definition add_project (p : Project.t) : M Z :=
  do i <- query (fun db => next_id (projects db));
  exec stage (set_projects (insert i p));
  ret i.

Definition add_proposal (p : Proposal.t) : M Z :=
  do i <- query (fun db => next_id (proposals db));
  exec stage (set_proposals (insert i p));
  ret i.

(** ** auth.py: the decorators *)

(** [@jwt_required()]: without a valid token the extension answers itself
    and the view is not called. *)
Definition jwt_required (env : Env) (f : Z -> M Resp) : M Resp :=
  match identity env with
  | Some current_user_id => f current_user_id
  | None => ret (JObj [("msg", JStr "Missing Authorization Header")], 401)
  end.

(** [@role_required(required_role)]: the handler gets the user row (with
    its id) only when the role is the required one. *)
Definition role_required (required_role : string) (f : Z * User.t -> M Resp)
    (env : Env) : M Resp :=
  jwt_required env (fun current_user_id =>
    do user <- query (fun db => users db !! current_user_id);
    match user with
    | Some u =>
        if decide (User.role u <> required_role)
        then ret (jsonify_message ("Access denied. " ++ required_role ++ " role required."), 403)
        else f (current_user_id, u)
    | None =>
        ret (jsonify_message ("Access denied. " ++ required_role ++ " role required."), 403)
    end).

(** A loop that builds a list, one element per row. *)
Fixpoint for_each {A B} (f : A -> M B) (l : list A) : M (list B) :=
  match l with
  | [] => ret []
  | x :: l' =>
      do y <- f x;
      do ys <- for_each f l';
      ret (y :: ys)
  end.

Definition json_of_option_str (s : option string) : json :=
  match s with
  | Some s => JStr s
  | None => JNull
  end.

(** [f"{user.first_name} {user.last_name}"] *)
Definition display_name (u : User.t) : string :=
  User.first_name u ++ " " ++ User.last_name u.

(** ** routes.py: projects *)

Section Routes.
Context `{Runtime}.

Definition project_fields (project_id : Z) (project : Project.t) : list (string * json) :=
  [("id", JInt project_id);
   ("title", JStr (Project.title project));
   ("description", JStr (Project.description project));
   ("budget", JFloat (Project.budget project));
   ("skills_required", json_of_option_str (Project.skills_required project));
   ("status", json_of_option_str (Project.status project))].

(** The entry of a project in [get_projects] and [get_project]. *)
Definition project_entry (row : Z * Project.t) : M json :=
  let '(project_id, project) := row in
  do client <- query (fun db => users db !! Project.client_id project);
  do client <- attr client;
  ret (JObj (project_fields project_id project ++
             [("client_id", JInt (Project.client_id project));
              ("created_at", JStr (isoformat (Project.created_at project)));
              ("client_name", JStr (display_name client))])).

Definition get_projects (env : Env) (args : Args) : M Resp :=
  jwt_required env (fun _ =>
    try_except
      (let status := default "open" (arg_status args) in
       let page := default 1 (arg_page args) in
       let per_page := default 10 (arg_per_page args) in
       do rows <- query (fun db => map_to_list (projects db));
       let rows :=
         if String.eqb status "" then rows
         else filter (fun row => Project.status row.2 = Some status) rows in
       let items :=
         paginate page per_page (order_by_desc (fun row => Project.created_at row.2) rows) in
       do project_list <- for_each project_entry items;
       ret (paginated_payload "projects" project_list (Z.of_nat (length rows))
              page per_page, 200))
      (fun e => ret (jsonify_message ("Error fetching projects: " ++ str_exn e), 500))).

Definition get_project (env : Env) (project_id : Z) : M Resp :=
  jwt_required env (fun _ =>
    try_except
      (do project <- query (fun db => projects db !! project_id);
       do project <- get_or_404 project;
       do entry <- project_entry (project_id, project);
       ret (entry, 200))
      (fun e => ret (jsonify_message ("Error fetching project: " ++ str_exn e), 500))).

(** The body of [create_project], which [role_required] calls with the
    client's row. *)
Definition create_project_body (env : Env) (body : option json)
    (client_user : Z * User.t) : M Resp :=
  try_except
    (do data <- get_json body;
     do missing <-
       lift (first_missing data ["title"; "description"; "budget"; "skills_required"]);
     match missing with
     | Some field => ret (jsonify_message (field ++ " is required"), 400)
     | None =>
         do title <- lift (getitem data "title");
         do description <- lift (getitem data "description");
         do budget <- lift (getitem data "budget");
         do budget <- lift (py_float budget);
         do skills_required <- lift (getitem data "skills_required");
         do title <- lift (db_str title);
         do description <- lift (db_str description);
         do skills_required <- lift (db_str_null skills_required);
         do project_id <-
           add_project (Project.mk title description budget skills_required
                          (Some "open") client_user.1 (now env));
         exec commit;
         ret (JObj [("message", JStr "Project created successfully");
                    ("project_id", JInt project_id)], 201)
     end)
    (fun e => ret (jsonify_message ("Error creating project: " ++ str_exn e), 500)).

Definition create_project (env : Env) (body : option json) : M Resp :=
  jwt_required env (fun _ =>
    role_required "client" (create_project_body env body) env).

(** The check [update_project], [delete_project] and
    [get_project_proposals] share: the caller owns the project or is an
    admin. [true] is access denied. *)
Definition owner_or_admin_denied (project : Project.t) (current_user_id : Z) : M bool :=
  if decide (Project.client_id project <> current_user_id) then
    do user <- query (fun db => users db !! current_user_id);
    do user <- attr user;
    ret (bool_decide (User.role user <> "admin"))
  else ret false.

(** [setattr(project, field, value)] on the updatable fields. *)
Definition setattr_project (field : string) (value : json) (project : Project.t)
    : E Project.t :=
  if String.eqb field "title" then
    attempt v <- db_str value; inl (Project.set_title v project)
  else if String.eqb field "description" then
    attempt v <- db_str value; inl (Project.set_description v project)
  else if String.eqb field "budget" then
    attempt v <- db_float value; inl (Project.set_budget v project)
  else if String.eqb field "skills_required" then
    attempt v <- db_str_null value; inl (Project.set_skills_required v project)
  else if String.eqb field "status" then
    attempt v <- db_str_null value; inl (Project.set_status v project)
  else inl project.

(** [for field in updatable_fields: if field in data: setattr(...)] *)
Fixpoint update_fields (data : json) (updatable_fields : list string)
    (project : Project.t) : E Project.t :=
  match updatable_fields with
  | [] => inl project
  | field :: rest =>
      attempt present <- py_in field data;
      if (present : bool) then
        attempt value <- getitem data field;
        attempt project <- setattr_project field value project;
        update_fields data rest project
      else update_fields data rest project
  end.

Definition update_project (env : Env) (project_id : Z) (body : option json) : M Resp :=
  jwt_required env (fun current_user_id =>
    try_except
      (do project <- query (fun db => projects db !! project_id);
       do project <- get_or_404 project;
       do denied <- owner_or_admin_denied project current_user_id;
       if (denied : bool) then ret (jsonify_message "Access denied", 403)
       else
         do data <- get_json body;
         do project <-
           lift (update_fields data
                   ["title"; "description"; "budget"; "skills_required"; "status"]
                   project);
         exec stage (set_projects (insert project_id project));
         exec commit;
         ret (jsonify_message "Project updated successfully", 200))
      (fun e => ret (jsonify_message ("Error updating project: " ++ str_exn e), 500))).

Definition delete_project (env : Env) (project_id : Z) : M Resp :=
  jwt_required env (fun current_user_id =>
    try_except
      (do project <- query (fun db => projects db !! project_id);
       do project <- get_or_404 project;
       do denied <- owner_or_admin_denied project current_user_id;
       if (denied : bool) then ret (jsonify_message "Access denied", 403)
       else
         exec stage (set_proposals
                       (filter (fun row => Proposal.project_id row.2 <> project_id)));
         exec stage (set_projects (delete project_id));
         exec commit;
         ret (jsonify_message "Project deleted successfully", 200))
      (fun e => ret (jsonify_message ("Error deleting project: " ++ str_exn e), 500))).

(** [Proposal.query.filter_by(project_id=project.id).count()] *)
Definition proposal_count (db : DB) (project_id : Z) : Z :=
  Z.of_nat (size (filter (fun row : Z * Proposal.t => Proposal.project_id row.2 = project_id)
                    (proposals db))).

Definition get_my_projects_body (env : Env) (args : Args)
    (client_user : Z * User.t) : M Resp :=
  try_except
    (let page := default 1 (arg_page args) in
     let per_page := default 10 (arg_per_page args) in
     do rows <- query (fun db =>
       filter (fun row => Project.client_id row.2 = client_user.1)
         (map_to_list (projects db)));
     let items :=
       paginate page per_page (order_by_desc (fun row => Project.created_at row.2) rows) in
     do project_list <- for_each (fun row : Z * Project.t =>
         do count <- query (fun db => proposal_count db row.1);
         ret (JObj (project_fields row.1 row.2 ++
                    [("created_at", JStr (isoformat (Project.created_at row.2)));
                     ("proposal_count", JInt count)]))) items;
     ret (paginated_payload "projects" project_list (Z.of_nat (length rows))
            page per_page, 200))
    (fun e => ret (jsonify_message ("Error fetching your projects: " ++ str_exn e), 500)).

Definition get_my_projects (env : Env) (args : Args) : M Resp :=
  jwt_required env (fun _ =>
    role_required "client" (get_my_projects_body env args) env).

(** ** routes.py: proposals *)

(** [Proposal.query.filter_by(freelancer_id=..., project_id=...).count()] *)
Definition existing_proposals (db : DB) (freelancer_id project_id : Z) : Z :=
  Z.of_nat (size (filter (fun row : Z * Proposal.t =>
                            Proposal.freelancer_id row.2 = freelancer_id /\
                            Proposal.project_id row.2 = project_id)
                    (proposals db))).

Definition create_proposal_body (env : Env) (body : option json)
    (freelancer_user : Z * User.t) : M Resp :=
  try_except
    (do data <- get_json body;
     do missing <-
       lift (first_missing data
               ["project_id"; "cover_letter"; "bid_amount"; "timeline_days"]);
     match missing with
     | Some field => ret (jsonify_message (field ++ " is required"), 400)
     | None =>
         do project_id <- lift (getitem data "project_id");
         do project_id <- lift (db_int project_id);
         do project <- query (fun db => projects db !! project_id);
         match project with
         | None => ret (jsonify_message "Project not found", 404)
         | Some project =>
             if decide (Project.status project <> Some "open") then
               ret (jsonify_message "Project is not accepting proposals", 400)
             else
               do existing <- query (fun db =>
                 existing_proposals db freelancer_user.1 project_id);
               if decide (existing >= 3) then
                 ret (jsonify_message
                        "Proposal limit reached (3 proposals per project)", 400)
               else
                 do cover_letter <- lift (getitem data "cover_letter");
                 do bid_amount <- lift (getitem data "bid_amount");
                 do bid_amount <- lift (py_float bid_amount);
                 do timeline_days <- lift (getitem data "timeline_days");
                 do timeline_days <- lift (py_int timeline_days);
                 do cover_letter <- lift (db_str cover_letter);
                 do proposal_id <-
                   add_proposal (Proposal.mk cover_letter bid_amount timeline_days
                                   "pending" freelancer_user.1 project_id (now env));
                 exec commit;
                 ret (JObj [("message", JStr "Proposal submitted successfully");
                            ("proposal_id", JInt proposal_id)], 201)
         end
     end)
    (fun e => ret (jsonify_message ("Error submitting proposal: " ++ str_exn e), 500)).

Definition create_proposal (env : Env) (body : option json) : M Resp :=
  jwt_required env (fun _ =>
    role_required "freelancer" (create_proposal_body env body) env).

Definition proposal_fields (proposal_id : Z) (proposal : Proposal.t)
    : list (string * json) :=
  [("id", JInt proposal_id);
   ("cover_letter", JStr (Proposal.cover_letter proposal));
   ("bid_amount", JFloat (Proposal.bid_amount proposal));
   ("timeline_days", JInt (Proposal.timeline_days proposal));
   ("status", JStr (Proposal.status proposal));
   ("submitted_at", JStr (isoformat (Proposal.submitted_at proposal)))].

(** The [freelancer] object of an entry. *)
Definition freelancer_entry (proposal : Proposal.t) : M json :=
  do freelancer <- query (fun db => users db !! Proposal.freelancer_id proposal);
  do freelancer <- attr freelancer;
  ret (JObj [("id", JInt (Proposal.freelancer_id proposal));
             ("name", JStr (display_name freelancer));
             ("email", JStr (User.email freelancer))]).

Definition get_project_proposals (env : Env) (project_id : Z) : M Resp :=
  jwt_required env (fun current_user_id =>
    try_except
      (do project <- query (fun db => projects db !! project_id);
       do project <- get_or_404 project;
       do denied <- owner_or_admin_denied project current_user_id;
       if (denied : bool) then ret (jsonify_message "Access denied", 403)
       else
         do rows <- query (fun db =>
           order_by_desc (fun row => Proposal.submitted_at row.2)
             (filter (fun row => Proposal.project_id row.2 = project_id)
                (map_to_list (proposals db))));
         do proposal_list <- for_each (fun row : Z * Proposal.t =>
             do freelancer <- freelancer_entry row.2;
             ret (JObj (proposal_fields row.1 row.2 ++ [("freelancer", freelancer)])))
           rows;
         ret (JObj [("proposals", JArr proposal_list)], 200))
      (fun e => ret (jsonify_message ("Error fetching proposals: " ++ str_exn e), 500))).

(** The rows of the page [get_my_proposals] serializes. *)
Definition my_proposals_page (db : DB) (freelancer_id : Z) (args : Args)
    : list (Z * Proposal.t) :=
  paginate (default 1 (arg_page args)) (default 10 (arg_per_page args))
    (order_by_desc (fun row => Proposal.submitted_at row.2)
       (filter (fun row => Proposal.freelancer_id row.2 = freelancer_id)
          (map_to_list (proposals db)))).

(** An entry of [get_my_proposals]: the proposal and a snapshot of its
    project. *)
Definition my_proposal_entry (row : Z * Proposal.t) : M json :=
  let '(proposal_id, proposal) := row in
  do project <- query (fun db => projects db !! Proposal.project_id proposal);
  do project <- attr project;
  do client <- query (fun db => users db !! Project.client_id project);
  do client <- attr client;
  ret (JObj (proposal_fields proposal_id proposal ++
             [("project",
               JObj [("id", JInt (Proposal.project_id proposal));
                     ("title", JStr (Project.title project));
                     ("budget", JFloat (Project.budget project));
                     ("status", json_of_option_str (Project.status project));
                     ("client_name", JStr (display_name client))])])).

Definition get_my_proposals_body (env : Env) (args : Args)
    (freelancer_user : Z * User.t) : M Resp :=
  try_except
    (let page := default 1 (arg_page args) in
     let per_page := default 10 (arg_per_page args) in
     do items <- query (fun db => my_proposals_page db freelancer_user.1 args);
     do total <- query (fun db =>
       length (filter (fun row : Z * Proposal.t =>
                         Proposal.freelancer_id row.2 = freelancer_user.1)
                 (map_to_list (proposals db))));
     do proposal_list <- for_each my_proposal_entry items;
     ret (paginated_payload "proposals" proposal_list (Z.of_nat total) page per_page, 200))
    (fun e => ret (jsonify_message ("Error fetching your proposals: " ++ str_exn e), 500)).

Definition get_my_proposals (env : Env) (args : Args) : M Resp :=
  jwt_required env (fun _ =>
    role_required "freelancer" (get_my_proposals_body env args) env).

(** The text [Status must be 'accepted' or 'rejected'], with double quotes
    around the two words. *)
Definition invalid_status_message : string :=
  let q := String (Ascii.ascii_of_nat 34) EmptyString in
  "Status must be " ++ q ++ "accepted" ++ q ++ " or " ++ q ++ "rejected" ++ q.

(** [Proposal.query.filter(Proposal.project_id == project.id,
    Proposal.id != proposal_id).update({'status': 'rejected'})] *)
Definition reject_others (project_id proposal_id : Z)
    (m : gmap Z Proposal.t) : gmap Z Proposal.t :=
  map_imap (fun i p =>
    Some (if decide (Proposal.project_id p = project_id /\ i <> proposal_id)
          then Proposal.set_status "rejected" p else p)) m.

Definition update_proposal_status (env : Env) (proposal_id : Z) (body : option json)
    : M Resp :=
  jwt_required env (fun current_user_id =>
    try_except
      (do proposal <- query (fun db => proposals db !! proposal_id);
       do proposal <- get_or_404 proposal;
       do project <- query (fun db => projects db !! Proposal.project_id proposal);
       do project <- attr project;
       if decide (Project.client_id project <> current_user_id) then
         ret (jsonify_message "Access denied", 403)
       else
         do data <- get_json body;
         do new_status <- lift (dict_get data "status");
         match new_status with
         | JStr new_status =>
             if String.eqb new_status "accepted" || String.eqb new_status "rejected" then
               exec stage (set_proposals
                             (insert proposal_id (Proposal.set_status new_status proposal)));
               exec (if String.eqb new_status "accepted" then
                       exec stage (set_proposals
                                     (reject_others (Proposal.project_id proposal)
                                        proposal_id));
                       stage (set_projects
                                (insert (Proposal.project_id proposal)
                                   (Project.set_status (Some "in_progress") project)))
                     else ret tt);
               exec commit;
               ret (jsonify_message ("Proposal " ++ new_status ++ " successfully"), 200)
             else ret (jsonify_message invalid_status_message, 400)
         | _ => ret (jsonify_message invalid_status_message, 400)
         end)
      (fun e =>
         ret (jsonify_message ("Error updating proposal status: " ++ str_exn e), 500))).

Definition get_proposal (env : Env) (proposal_id : Z) : M Resp :=
  jwt_required env (fun current_user_id =>
    try_except
      (do proposal <- query (fun db => proposals db !! proposal_id);
       do proposal <- get_or_404 proposal;
       do user <- query (fun db => users db !! current_user_id);
       do project <- query (fun db => projects db !! Proposal.project_id proposal);
       do has_access <-
         (if decide (Proposal.freelancer_id proposal = current_user_id) then ret true
          else
            do project <- attr project;
            if decide (Project.client_id project = current_user_id) then ret true
            else
              do user <- attr user;
              ret (bool_decide (User.role user = "admin")));
       if negb has_access then ret (jsonify_message "Access denied", 403)
       else
         do freelancer <- freelancer_entry proposal;
         do project <- attr project;
         ret (JObj (proposal_fields proposal_id proposal ++
                    [("freelancer", freelancer);
                     ("project",
                      JObj [("id", JInt (Proposal.project_id proposal));
                            ("title", JStr (Project.title project));
                            ("description", JStr (Project.description project));
                            ("budget", JFloat (Project.budget project))])]), 200))
      (fun e => ret (jsonify_message ("Error fetching proposal: " ++ str_exn e), 500))).

(** ** auth.py: accounts *)

(** [User.query.filter_by(email=email).first()] *)
Definition user_by_email (db : DB) (email : string) : option (Z * User.t) :=
  head (filter (fun row : Z * User.t => User.email row.2 = email)
          (map_to_list (users db))).

(** [{'id': ..., 'email': ..., 'first_name': ..., 'last_name': ..., 'role': ...}] *)
Definition user_fields (user_id : Z) (user : User.t) : list (string * json) :=
  [("id", JInt user_id);
   ("email", JStr (User.email user));
   ("first_name", JStr (User.first_name user));
   ("last_name", JStr (User.last_name user));
   ("role", JStr (User.role user))].

(** [User.set_password] and [User.check_password] of models.py, on the
    encoded password. *)
Definition set_password (user : User.t) (password salt : string) : User.t :=
  User.with_password (hashpw password salt) user.

Definition check_password (user : User.t) (password : string) : bool :=
  checkpw password (User.password user).

(** [password.encode('utf-8')]: the password has to be a string. *)
Definition encode (password : json) : E string :=
  match password with
  | JStr s => inl s
  | _ => inr (AttributeError "object has no attribute 'encode'")
  end.

(** [for field in required_fields: if field not in data or not data[field]] *)
Fixpoint first_absent (data : json) (required_fields : list string) : E (option string) :=
  match required_fields with
  | [] => inl None
  | field :: rest =>
      attempt present <- py_in field data;
      if (present : bool) then
        attempt v <- getitem data field;
        if truthy v then first_absent data rest else inl (Some field)
      else inl (Some field)
  end.

Definition is_role (x : json) : bool :=
  match x with
  | JStr s => String.eqb s "client" || String.eqb s "freelancer" || String.eqb s "admin"
  | _ => false
  end.

Definition register (env : Env) (body : option json) : M Resp :=
  try_except
    (do data <- get_json body;
     do missing <-
       lift (first_absent data ["email"; "password"; "first_name"; "last_name"; "role"]);
     match missing with
     | Some field => ret (jsonify_message (field ++ " is required"), 400)
     | None =>
         do role <- lift (getitem data "role");
         if negb (is_role role) then
           ret (jsonify_message "Role must be client, freelancer, or admin", 400)
         else
           do email <- lift (getitem data "email");
           do email <- lift (db_str email);
           do existing <- query (fun db => user_by_email db email);
           if bool_decide (is_Some existing) then
             ret (jsonify_message "User already exists with this email", 400)
           else
             do first_name <- lift (getitem data "first_name");
             do last_name <- lift (getitem data "last_name");
             do password <- lift (getitem data "password");
             do password <- lift (encode password);
             do first_name <- lift (db_str first_name);
             do last_name <- lift (db_str last_name);
             do role <- lift (db_str role);
             let user :=
               set_password (User.mk email "" first_name last_name role (now env))
                 password (salt env) in
             do user_id <- add_user user;
             exec commit;
             ret (JObj [("message", JStr "User registered successfully");
                        ("access_token", JStr (create_access_token user_id));
                        ("user", JObj (user_fields user_id user))], 201)
     end)
    (fun e => ret (jsonify_message ("Registration failed: " ++ str_exn e), 500)).

Definition login (env : Env) (body : option json) : M Resp :=
  try_except
    (do data <- get_json body;
     do email <- lift (dict_get data "email");
     do password <-
       (if truthy email then lift (dict_get data "password") else ret JNull);
     if negb (truthy email) || negb (truthy password) then
       ret (jsonify_message "Email and password are required", 400)
     else
       do email <- lift (db_str email);
       do user <- query (fun db => user_by_email db email);
       match user with
       | Some (user_id, user) =>
           do password <- lift (encode password);
           if check_password user password then
             ret (JObj [("message", JStr "Login successful");
                        ("access_token", JStr (create_access_token user_id));
                        ("user", JObj (user_fields user_id user))], 200)
           else ret (jsonify_message "Invalid email or password", 401)
       | None => ret (jsonify_message "Invalid email or password", 401)
       end)
    (fun e => ret (jsonify_message ("Login failed: " ++ str_exn e), 500)).

Definition get_profile (env : Env) : M Resp :=
  jwt_required env (fun current_user_id =>
    try_except
      (do user <- query (fun db => users db !! current_user_id);
       match user with
       | None => ret (jsonify_message "User not found", 404)
       | Some user =>
           ret (JObj [("user",
                       JObj (user_fields current_user_id user ++
                             [("created_at", JStr (isoformat (User.created_at user)))]))],
                200)
       end)
      (fun e => ret (jsonify_message ("Failed to get profile: " ++ str_exn e), 500))).

(** [if field in data: user.field = data[field]] for the two names. *)
Definition update_name (data : json) (field : string)
    (set : string -> User.t -> User.t) (user : User.t) : E User.t :=
  attempt present <- py_in field data;
  if (present : bool) then
    attempt value <- getitem data field;
    attempt value <- db_str value;
    inl (set value user)
  else inl user.

Definition update_profile (env : Env) (body : option json) : M Resp :=
  jwt_required env (fun current_user_id =>
    try_except
      (do user <- query (fun db => users db !! current_user_id);
       match user with
       | None => ret (jsonify_message "User not found", 404)
       | Some user =>
           do data <- get_json body;
           do user <- lift (update_name data "first_name" User.set_first_name user);
           do user <- lift (update_name data "last_name" User.set_last_name user);
           do present <- lift (py_in "email" data);
           do user <-
             (if (present : bool) then
                do email <- lift (getitem data "email");
                do email <- lift (db_str email);
                do existing <- query (fun db => user_by_email db email);
                match existing with
                | Some (existing_id, _) =>
                    if decide (existing_id <> current_user_id) then ret None
                    else ret (Some (User.set_email email user))
                | None => ret (Some (User.set_email email user))
                end
              else ret (Some user));
           match user with
           | None => ret (jsonify_message "Email already taken", 400)
           | Some user =>
               exec stage (set_users (insert current_user_id user));
               exec commit;
               ret (JObj [("message", JStr "Profile updated successfully");
                          ("user", JObj (user_fields current_user_id user))], 200)
           end
       end)
      (fun e => ret (jsonify_message ("Failed to update profile: " ++ str_exn e), 500))).

Definition change_password (env : Env) (body : option json) : M Resp :=
  jwt_required env (fun current_user_id =>
    try_except
      (do user <- query (fun db => users db !! current_user_id);
       match user with
       | None => ret (jsonify_message "User not found", 404)
       | Some user =>
           do data <- get_json body;
           do current_password <- lift (dict_get data "current_password");
           do new_password <-
             (if truthy current_password then lift (dict_get data "new_password")
              else ret JNull);
           if negb (truthy current_password) || negb (truthy new_password) then
             ret (jsonify_message "Current password and new password are required", 400)
           else
             do current_password <- lift (encode current_password);
             if negb (check_password user current_password) then
               ret (jsonify_message "Current password is incorrect", 400)
             else
               do new_password <- lift (encode new_password);
               exec stage (set_users
                             (insert current_user_id
                                (set_password user new_password (salt env))));
               exec commit;
               ret (jsonify_message "Password changed successfully", 200)
       end)
      (fun e => ret (jsonify_message ("Failed to change password: " ++ str_exn e), 500))).

Definition verify_token (env : Env) : M Resp :=
  jwt_required env (fun current_user_id =>
    try_except
      (do user <- query (fun db => users db !! current_user_id);
       match user with
       | None => ret (jsonify_message "Invalid token", 401)
       | Some user =>
           ret (JObj [("valid", JBool true);
                      ("user", JObj (user_fields current_user_id user))], 200)
       end)
      (fun e => ret (JObj [("valid", JBool false); ("message", JStr (str_exn e))], 401))).

(** app.py *)
Definition health_check : M Resp :=
  ret (JObj [("status", JStr "healthy");
             ("message", JStr "SharkTalent API is Functional!")], 200).

(** ** The API: one request to the store *)

Inductive Request : Type :=
| Register (body : option json)
| Login (body : option json)
| GetProfile
| UpdateProfile (body : option json)
| ChangePassword (body : option json)
| VerifyToken
| GetProjects (args : Args)
| GetProject (project_id : Z)
| CreateProject (body : option json)
| UpdateProject (project_id : Z) (body : option json)
| DeleteProject (project_id : Z)
| GetMyProjects (args : Args)
| CreateProposal (body : option json)
| GetProjectProposals (project_id : Z)
| GetMyProposals (args : Args)
| UpdateProposalStatus (proposal_id : Z) (body : option json)
| GetProposal (proposal_id : Z)
| HealthCheck.

Definition dispatch (env : Env) (r : Request) : M Resp :=
  match r with
  | Register body => register env body
  | Login body => login env body
  | GetProfile => get_profile env
  | UpdateProfile body => update_profile env body
  | ChangePassword body => change_password env body
  | VerifyToken => verify_token env
  | GetProjects args => get_projects env args
  | GetProject project_id => get_project env project_id
  | CreateProject body => create_project env body
  | UpdateProject project_id body => update_project env project_id body
  | DeleteProject project_id => delete_project env project_id
  | GetMyProjects args => get_my_projects env args
  | CreateProposal body => create_proposal env body
  | GetProjectProposals project_id => get_project_proposals env project_id
  | GetMyProposals args => get_my_proposals env args
  | UpdateProposalStatus proposal_id body => update_proposal_status env proposal_id body
  | GetProposal proposal_id => get_proposal env proposal_id
  | HealthCheck => health_check
  end.

(** The response to a request and the store after it. *)
Definition serve (env : Env) (r : Request) (db : DB) : Resp * DB :=
  run_request (dispatch env r) db.

End Routes.

(** ** A small marketplace to run the handlers on *)

Module Demo.

(** A runtime in which no string converts to a number; the requests below
    send numbers as JSON numbers. *)
#[local] Instance runtime : Runtime := {|
  float_of_str := fun _ => None;
  int_of_str := fun _ => None;
  hashpw := fun password salt => salt ++ password;
  checkpw := fun password hash => bool_decide (is_Some (index 0 password hash));
  create_access_token := fun _ => "token";
  isoformat := fun _ => "1970-01-01T00:00:00";
|}.

Definition client : User.t := User.mk "ann@example.com" "h1" "Ann" "Lee" "client" 0.
Definition freelancer : User.t := User.mk "bob@example.com" "h2" "Bob" "Ray" "freelancer" 0.
Definition admin : User.t := User.mk "eve@example.com" "h3" "Eve" "Fox" "admin" 0.
Definition other_freelancer : User.t :=
  User.mk "dan@example.com" "h4" "Dan" "Kay" "freelancer" 0.

(** Users 1 (client), 2 (freelancer), 3 (admin), 4 (freelancer). *)
Definition people : gmap Z User.t :=
  <[1 := client]> (<[2 := freelancer]> (<[3 := admin]> (<[4 := other_freelancer]> ∅))).

Definition build_api : Project.t :=
  Project.mk "Build API" "A REST API" (binary64_of_Z 500) (Some "python") (Some "open") 1 10.

Definition bid (status : string) (freelancer_id : Z) (at_time : Z) : Proposal.t :=
  Proposal.mk "I can do it" (binary64_of_Z 400) 7 status freelancer_id 1 at_time.

(** Project 1 of client 1, without proposals. *)
Definition fresh : DB := mkDB people (<[1 := build_api]> ∅) ∅.

(** Project 1 with three pending proposals: 1 and 2 of freelancer 2, 3 of
    freelancer 4. *)
Definition bidding : DB :=
  mkDB people (<[1 := build_api]> ∅)
    (<[1 := bid "pending" 2 11]> (<[2 := bid "pending" 2 12]> (<[3 := bid "pending" 4 13]> ∅))).


Definition as_user (user_id : Z) : Env := mkEnv (Some user_id) 20 "salt".

Definition status_body (status : string) : option json :=
  Some (JObj [("status", JStr status)]).

Definition proposal_data : json :=
  JObj [("project_id", JInt 1); ("cover_letter", JStr "I can do it");
        ("bid_amount", JInt 400); ("timeline_days", JInt 7)].

Definition project_body (budget : json) : option json :=
  Some (JObj [("title", JStr "Build API"); ("description", JStr "A REST API");
              ("budget", budget); ("skills_required", JStr "python")]).

Definition no_args : Args := mkArgs None None None.

(** A request without a valid token. *)
Definition anonymous : Env := mkEnv None 20 "salt".

(** The body of a registration, which is also one of a login. *)
Definition registration : json :=
  JObj [("email", JStr "zoe@example.com"); ("password", JStr "secret");
        ("first_name", JStr "Zoe"); ("last_name", JStr "Ney");
        ("role", JStr "freelancer")].

(** A profile update that asks for the email of user 2 and a new name. *)
Definition profile_body : json :=
  JObj [("first_name", JStr "Anna"); ("email", JStr "bob@example.com")].

(** The client changes the password h1 into h9. *)
Definition password_body : json :=
  JObj [("current_password", JStr "h1"); ("new_password", JStr "h9")].

(** A project body without a budget to speak of. *)
Definition free_project : json :=
  JObj [("title", JStr "Build API"); ("description", JStr "A REST API");
        ("budget", JInt 0); ("skills_required", JStr "python")].

End Demo.


(** * Properties *)

Section Properties.
Context `{Runtime}.

(** ** The vocabulary of the statements *)

(** The answer of [role_required] to a caller without the role. *)
Definition access_denied (required_role : string) : Resp :=
  (jsonify_message ("Access denied. " ++ required_role ++ " role required."), 403).

(** The session a request starts with. *)
Definition fresh_session (db : DB) : World := mkWorld db db [].

(** The answer of the ownership checks. *)
Definition denied : Resp := (jsonify_message "Access denied", 403).

(** A required field is there and truthy. *)
Definition present (data : json) (field : string) : Prop :=
  exists v, dict_get data field = inl v /\ truthy v = true.


(** The caller holds the role. *)
Definition caller_has_role (env : Env) (db : DB) (role : string) : Prop :=
  exists current_user_id user,
    identity env = Some current_user_id /\
    users db !! current_user_id = Some user /\
    User.role user = role.

(** [required_fields] of [create_proposal]. *)
Definition proposal_required_fields : list string :=
  ["project_id"; "cover_letter"; "bid_amount"; "timeline_days"].

(** The body of a well-formed submission for the project: the required
    fields are there, the letter is a string and the amounts convert. *)
Definition proposal_data (data : json) (project_id : Z) (cover_letter : string)
    (bid_amount : spec_float) (timeline_days : Z) : Prop :=
  Forall (present data) proposal_required_fields /\
  getitem data "project_id" = inl (JInt project_id) /\
  getitem data "cover_letter" = inl (JStr cover_letter) /\
  (exists x, getitem data "bid_amount" = inl x /\ py_float x = inl bid_amount) /\
  (exists x, getitem data "timeline_days" = inl x /\ py_int x = inl timeline_days).

(** The answer of [create_proposal] when the proposal is in. *)
Definition submitted (proposal_id : Z) : Resp :=
  (JObj [("message", JStr "Proposal submitted successfully");
         ("proposal_id", JInt proposal_id)], 201).


(** [required_fields] of [create_project]. *)
Definition project_required_fields : list string :=
  ["title"; "description"; "budget"; "skills_required"].

(** The answer of [create_project] when the project is in. *)
Definition created (project_id : Z) : Resp :=
  (JObj [("message", JStr "Project created successfully");
         ("project_id", JInt project_id)], 201).


(** The store after [delete_project]: the proposals of the project are gone
    and so is the project. *)
Definition deleted (project_id : Z) (db : DB) : DB :=
  set_projects (delete project_id)
    (set_proposals (filter (fun row => Proposal.project_id row.2 <> project_id)) db).

(** [preserves R m]: the session [m] ends in is related by [R] to the one it
    started in, whether [m] returns or raises. *)
Definition preserves {A} (R : World -> World -> Prop) (m : M A) : Prop :=
  forall w, R w (m w).2.

(** An entry of the list is the proposal's own fields and the snapshot of
    its project. *)
Definition entry_of (row : Z * Proposal.t) (entry : json) : Prop :=
  exists snapshot,
    entry = JObj (proposal_fields row.1 row.2 ++ [("project", snapshot)]).

(** The store after an accepted [update_proposal_status]. *)
Definition accepted_store (proposal_id : Z) (proposal : Proposal.t) (project : Project.t)
    (db : DB) : DB :=
  set_projects
    (insert (Proposal.project_id proposal)
       (Project.set_status (Some "in_progress") project))
    (set_proposals (reject_others (Proposal.project_id proposal) proposal_id)
       (set_proposals (insert proposal_id (Proposal.set_status "accepted" proposal)) db)).

(** The store after a rejecting one. *)
Definition rejected_store (proposal_id : Z) (proposal : Proposal.t) (db : DB) : DB :=
  set_proposals (insert proposal_id (Proposal.set_status "rejected" proposal)) db.

(** The answer of [update_proposal_status] when the status is set. *)
Definition status_updated (new_status : string) : Resp :=
  (jsonify_message ("Proposal " ++ new_status ++ " successfully"), 200).

(** The call reached the update: the caller owns the project of the
    proposal and the body asks for [new_status]. *)
Definition owner_asks (env : Env) (db : DB) (proposal_id : Z) (body : option json)
    (proposal : Proposal.t) (project : Project.t) (new_status : string) : Prop :=
  exists current_user_id data,
    identity env = Some current_user_id /\
    proposals db !! proposal_id = Some proposal /\
    projects db !! Proposal.project_id proposal = Some project /\
    Project.client_id project = current_user_id /\
    body = Some data /\
    dict_get data "status" = inl (JStr new_status).

(** [keeps table]: the session's view of the table is as it was, and what is
    committed of it is what was committed or what the session saw. *)
Definition keeps {T} (table : DB -> T) (w w' : World) : Prop :=
  table (pending w') = table (pending w) /\
  (table (committed w') = table (committed w) \/
   table (committed w') = table (pending w)).

(** The requests that write to the table of projects. *)
Definition writes_projects (r : Request) : bool :=
  match r with
  | CreateProject _ | UpdateProject _ _ | DeleteProject _ | UpdateProposalStatus _ _ => true
  | _ => false
  end.

(** The caller may update or delete the project. *)
Definition owner_or_admin (db : DB) (project : Project.t) (current_user_id : Z) : Prop :=
  Project.client_id project = current_user_id \/
  (exists user, users db !! current_user_id = Some user /\ User.role user = "admin").

(** [updatable_fields] of [update_project]. *)
Definition updatable_fields : list string :=
  ["title"; "description"; "budget"; "skills_required"; "status"].

(** The status of proposal [i] after the owner set proposal [target], of
    project [target_project], to [new_status]. The status [i] had before
    plays no part for the target, nor for a sibling of an accepted one. *)
Definition status_after (new_status : string) (target target_project : Z)
    (i : Z) (p : Proposal.t) : string :=
  if decide (i = target) then new_status
  else if decide (new_status = "accepted" /\ Proposal.project_id p = target_project)
       then "rejected"
       else Proposal.status p.

(** The store after the owner's request. *)
Definition store_after (new_status : string) (target : Z) (proposal : Proposal.t)
    (project : Project.t) (db : DB) : DB :=
  if decide (new_status = "accepted") then accepted_store target proposal project db
  else rejected_store target proposal db.

(** The requests that write to the table of proposals. *)
Definition writes_proposals (r : Request) : bool :=
  match r with
  | CreateProposal _ | DeleteProject _ | UpdateProposalStatus _ _ => true
  | _ => false
  end.

(** ** The vocabulary of the further properties *)



(** The requests whose handler has no [db.session.commit()]. *)
Definition is_read (r : Request) : bool :=
  match r with
  | Login _ | GetProfile | VerifyToken | GetProjects _ | GetProject _ | GetMyProjects _
  | GetProjectProposals _ | GetMyProposals _ | GetProposal _ | HealthCheck => true
  | _ => false
  end.

(** No two users share an email. *)
Definition unique_emails (db : DB) : Prop :=
  forall i j u v,
    users db !! i = Some u -> users db !! j = Some v ->
    User.email u = User.email v -> i = j.

(** One of the three roles [register] accepts. *)
Definition valid_role (role : string) : Prop :=
  role = "client" \/ role = "freelancer" \/ role = "admin".

(** The requests that write to the table of users. *)
Definition writes_users (r : Request) : bool :=
  match r with
  | Register _ | UpdateProfile _ | ChangePassword _ => true
  | _ => false
  end.

(** A freelancer has at most three proposals on a project. *)
Definition within_limit (db : DB) : Prop :=
  forall freelancer_id project_id, existing_proposals db freelancer_id project_id <= 3.

(** Every row refers to rows that exist: a project to its client, a
    proposal to its freelancer and to its project. *)
Definition references_hold (db : DB) : Prop :=
  (forall i project,
     projects db !! i = Some project ->
     is_Some (users db !! Project.client_id project)) /\
  (forall i proposal,
     proposals db !! i = Some proposal ->
     is_Some (users db !! Proposal.freelancer_id proposal) /\
     is_Some (projects db !! Proposal.project_id proposal)).

(** The answer of [register] when the account is in. *)
Definition registered (user_id : Z) (user : User.t) : Resp :=
  (JObj [("message", JStr "User registered successfully");
         ("access_token", JStr (create_access_token user_id));
         ("user", JObj (user_fields user_id user))], 201).

(** The user a registration stores. *)
Definition registered_user (env : Env) (email password first_name last_name role : string)
    : User.t :=
  set_password (User.mk email "" first_name last_name role (now env)) password (salt env).

(** The answer of [login] when the credentials are right. *)
Definition logged_in (user_id : Z) (user : User.t) : Resp :=
  (JObj [("message", JStr "Login successful");
         ("access_token", JStr (create_access_token user_id));
         ("user", JObj (user_fields user_id user))], 200).

(** The answer of [login] to wrong credentials. *)
Definition invalid_credentials : Resp :=
  (jsonify_message "Invalid email or password", 401).

(** [required_fields] of [register]. *)
Definition register_required_fields : list string :=
  ["email"; "password"; "first_name"; "last_name"; "role"].

(** The body of a login or of a registration carries the email and the
    password as non-empty strings. *)
Definition credentials (data : json) (email password : string) : Prop :=
  dict_get data "email" = inl (JStr email) /\ email <> "" /\
  dict_get data "password" = inl (JStr password) /\ password <> "".

(** The rows [get_project_proposals] serializes: the proposals of the
    project, latest first. *)
Definition project_proposals (db : DB) (project_id : Z) : list (Z * Proposal.t) :=
  order_by_desc (fun row => Proposal.submitted_at row.2)
    (filter (fun row => Proposal.project_id row.2 = project_id)
       (map_to_list (proposals db))).

(** An entry of [get_project_proposals]: the proposal's own fields and its
    freelancer. *)
Definition listed_proposal (row : Z * Proposal.t) (entry : json) : Prop :=
  exists freelancer,
    entry = JObj (proposal_fields row.1 row.2 ++ [("freelancer", freelancer)]).

(** The status [get_projects] filters on: [open] unless the query string
    says otherwise. *)
Definition status_filter (args : Args) : string := default "open" (arg_status args).

(** The rows of the page [get_projects] serializes. *)
Definition listed_projects (db : DB) (args : Args) : list (Z * Project.t) :=
  paginate (default 1 (arg_page args)) (default 10 (arg_per_page args))
    (order_by_desc (fun row => Project.created_at row.2)
       (if String.eqb (status_filter args) "" then map_to_list (projects db)
        else filter (fun row => Project.status row.2 = Some (status_filter args))
               (map_to_list (projects db)))).

(** An entry of [get_projects]: the project's own fields and the name of
    its client. *)
Definition listed_project (row : Z * Project.t) (entry : json) : Prop :=
  exists client_name,
    entry = JObj (project_fields row.1 row.2 ++
                  [("client_id", JInt (Project.client_id row.2));
                   ("created_at", JStr (isoformat (Project.created_at row.2)));
                   ("client_name", client_name)]).



(** Who may see a proposal: its freelancer, the client of its project, an
    admin. *)
Definition may_see (proposal : Proposal.t) (project : Project.t) (user : User.t)
    (current_user_id : Z) : Prop :=
  Proposal.freelancer_id proposal = current_user_id \/
  Project.client_id project = current_user_id \/
  User.role user = "admin".

(** ** The role check *)

Lemma role_required_denies (required_role : string) (f : Z * User.t -> M Resp)
    (env : Env) (w : World) (current_user_id : Z) (user : User.t) :
  identity env = Some current_user_id ->
  users (pending w) !! current_user_id = Some user ->
  User.role user <> required_role ->
  role_required required_role f env w = (inl (access_denied required_role), w).
Proof.
  intros Hid Huser Hrole.
  unfold role_required, jwt_required, bind, query. rewrite Hid, Huser.
  destruct (decide (User.role user <> required_role)) as [_ | Hno]; [reflexivity | ].
  contradiction.
Qed.

Lemma role_required_admits (required_role : string) (f : Z * User.t -> M Resp)
    (env : Env) (w : World) (current_user_id : Z) (user : User.t) :
  identity env = Some current_user_id ->
  users (pending w) !! current_user_id = Some user ->
  User.role user = required_role ->
  role_required required_role f env w = f (current_user_id, user) w.
Proof.
  intros Hid Huser Hrole.
  unfold role_required, jwt_required, bind, query. rewrite Hid, Huser.
  destruct (decide (User.role user <> required_role)) as [Hno | _]; [ | reflexivity].
  contradiction.
Qed.

(** C10. [role_required] asks for the exact role. A caller whose role is not
    the required one, an admin included, gets 403 from [role_required]
    whatever the handler is, which is therefore not run, and the store is
    left as it was; so it is for create project and list my projects (role
    client) and for create proposal and list my proposals (role
    freelancer). *)
Theorem role_required_exact (required_role : string) (f : Z * User.t -> M Resp)
    (env : Env) (db : DB) (current_user_id : Z) (user : User.t) :
  identity env = Some current_user_id ->
  users db !! current_user_id = Some user ->
  User.role user <> required_role ->
  role_required required_role f env (fresh_session db)
    = (inl (access_denied required_role), fresh_session db) /\
  (required_role = "client" ->
   forall body args,
     serve env (CreateProject body) db = (access_denied "client", db) /\
     serve env (GetMyProjects args) db = (access_denied "client", db)) /\
  (required_role = "freelancer" ->
   forall body args,
     serve env (CreateProposal body) db = (access_denied "freelancer", db) /\
     serve env (GetMyProposals args) db = (access_denied "freelancer", db)).
Proof.
  intros Hid Huser Hrole. split; [ | split].
  - now apply role_required_denies with current_user_id user.
  - intros ->. intros body args.
    unfold serve, run_request, dispatch, create_project, get_my_projects, jwt_required.
    rewrite Hid.
    rewrite !(role_required_denies "client" _ env _ current_user_id user) by assumption.
    now split.
  - intros ->. intros body args.
    unfold serve, run_request, dispatch, create_proposal, get_my_proposals, jwt_required.
    rewrite Hid.
    rewrite !(role_required_denies "freelancer" _ env _ current_user_id user) by assumption.
    now split.
Qed.

(** ** Keys of new rows *)

Lemma foldr_max_ge (l : list Z) (k : Z) : k ∈ l -> k <= foldr Z.max 0 l.
Proof.
  induction l as [ | x l IH]; intros Hin.
  - inversion Hin.
  - apply elem_of_cons in Hin as [-> | Hin]; simpl; [lia | ].
    specialize (IH Hin). lia.
Qed.

Lemma next_id_fresh {A} (m : gmap Z A) : m !! next_id m = None.
Proof.
  destruct (m !! next_id m) as [a | ] eqn:Ha; [ | reflexivity].
  apply elem_of_map_to_list in Ha.
  assert (Hin : next_id m ∈ (fst <$> map_to_list m)).
  { apply list_elem_of_fmap. exists (next_id m, a). split; [reflexivity | exact Ha]. }
  apply foldr_max_ge in Hin. unfold next_id in Hin at 1. lia.
Qed.

(** ** Running a handler *)

#[local] Arguments first_missing : simpl never.
#[local] Arguments first_absent : simpl never.
#[local] Arguments update_fields : simpl never.

Ltac enter :=
  unfold serve, commits_of, run_request, dispatch, fresh_session.

Ltac step :=
  unfold jwt_required, try_except, bind, ret, raise, lift, query, stage, commit,
    get_or_404, attr, get_json, and_then; simpl.

(** ** Ownership of a proposal's project *)

(** C6. [update_proposal_status] called by anyone but the client who owns
    the proposal's project answers 403 and leaves the store as it was; the
    caller's role is not looked at, so an admin is refused too, whereas
    [delete_project] and [update_project] let an admin who does not own the
    project through. *)
Theorem set_status_owner_only (env : Env) (db : DB) (current_user_id proposal_id : Z)
    (body : option json) (proposal : Proposal.t) (project : Project.t) :
  identity env = Some current_user_id ->
  proposals db !! proposal_id = Some proposal ->
  projects db !! Proposal.project_id proposal = Some project ->
  Project.client_id project <> current_user_id ->
  serve env (UpdateProposalStatus proposal_id body) db = (denied, db) /\
  commits_of (dispatch env (UpdateProposalStatus proposal_id body)) db = [] /\
  (forall user,
     users db !! current_user_id = Some user ->
     User.role user = "admin" ->
     (serve env (DeleteProject (Proposal.project_id proposal)) db).1
       = (jsonify_message "Project deleted successfully", 200) /\
     forall body',
       (serve env (UpdateProject (Proposal.project_id proposal) body') db).1.2 <> 403).
Proof.
  intros Hid Hproposal Hproject Hother. split; [ | split].
  - enter. unfold update_proposal_status. step.
    rewrite Hid. simpl. rewrite Hproposal. simpl. rewrite Hproject. simpl.
    destruct (decide (Project.client_id project <> current_user_id)); [reflexivity | ].
    contradiction.
  - enter. unfold update_proposal_status. step.
    rewrite Hid. simpl. rewrite Hproposal. simpl. rewrite Hproject. simpl.
    destruct (decide (Project.client_id project <> current_user_id)); [reflexivity | ].
    contradiction.
  - intros user Huser Hadmin. split.
    + enter. unfold delete_project, owner_or_admin_denied. step.
      rewrite Hid. simpl. rewrite Hproject. simpl.
      destruct (decide (Project.client_id project <> current_user_id));
        [ | contradiction].
      simpl. rewrite Huser. simpl. rewrite Hadmin. reflexivity.
    + intros body'.
      enter. unfold update_project, owner_or_admin_denied. step.
      rewrite Hid. simpl. rewrite Hproject. simpl.
      destruct (decide (Project.client_id project <> current_user_id));
        [ | contradiction].
      simpl. rewrite Huser. simpl. rewrite Hadmin. simpl.
      destruct body' as [data | ]; simpl; [ | lia].
      destruct (update_fields data _ project); simpl; lia.
Qed.

(** ** Creating a proposal *)

Lemma first_missing_cons (data : json) (field : string) (rest : list string) :
  first_missing data (field :: rest)
    = and_then (dict_get data field)
        (fun v => if truthy v then first_missing data rest else inl (Some field)).
Proof. reflexivity. Qed.



Lemma existing_proposals_insert (db : DB) (proposal : Proposal.t) :
  existing_proposals
    (set_proposals (insert (next_id (proposals db)) proposal) db)
    (Proposal.freelancer_id proposal) (Proposal.project_id proposal)
  = existing_proposals db (Proposal.freelancer_id proposal) (Proposal.project_id proposal) + 1.
Proof.
  unfold existing_proposals. simpl.
  rewrite map_filter_insert_True by (simpl; split; reflexivity).
  rewrite map_size_insert_None.
  - lia.
  - apply map_lookup_filter_None_2. left. apply next_id_fresh.
Qed.




(** ** Creating a project *)

(** Every outcome of [create_project]: another answer than 201 and the
    store as it was, or 201 and one more project. *)
Lemma create_project_outcome (env : Env) (body : option json) (db : DB) :
  let out := serve env (CreateProject body) db in
  (out.1.2 <> 201 /\ out.2 = db) \/
  (exists current_user_id user data budget f title description skills_required,
     identity env = Some current_user_id /\
     users db !! current_user_id = Some user /\
     User.role user = "client" /\
     body = Some data /\
     first_missing data project_required_fields = inl None /\
     getitem data "budget" = inl budget /\
     py_float budget = inl f /\
     out = (created (next_id (projects db)),
            set_projects
              (insert (next_id (projects db))
                 (Project.mk title description f skills_required (Some "open")
                    current_user_id (now env))) db)).
Proof.
  intros out. subst out. enter.
  unfold create_project, role_required, jwt_required. step.
  destruct (identity env) as [current_user_id | ] eqn:Hid; simpl;
    [ | left; split; [lia | reflexivity] ].
  destruct (users db !! current_user_id) as [user | ] eqn:Huser; simpl;
    [ | left; split; [lia | reflexivity] ].
  destruct (decide (User.role user <> "client")) as [Hrole | Hrole]; simpl;
    [left; split; [lia | reflexivity] | ].
  apply dec_stable in Hrole.
  unfold create_project_body, add_project. step.
  destruct body as [data | ]; simpl; [ | left; split; [lia | reflexivity] ].
  destruct (first_missing data _) as [[field | ] | e] eqn:Hmissing; simpl;
    [left; split; [lia | reflexivity] | | left; split; [lia | reflexivity] ].
  destruct (getitem data "title") as [title | ]; simpl;
    [ | left; split; [lia | reflexivity] ].
  destruct (getitem data "description") as [description | ]; simpl;
    [ | left; split; [lia | reflexivity] ].
  destruct (getitem data "budget") as [budget | ] eqn:Hbudget; simpl;
    [ | left; split; [lia | reflexivity] ].
  destruct (py_float budget) as [f | ] eqn:Hfloat; simpl;
    [ | left; split; [lia | reflexivity] ].
  destruct (getitem data "skills_required") as [skills | ]; simpl;
    [ | left; split; [lia | reflexivity] ].
  destruct (db_str title) as [title' | ]; simpl;
    [ | left; split; [lia | reflexivity] ].
  destruct (db_str description) as [description' | ]; simpl;
    [ | left; split; [lia | reflexivity] ].
  destruct (db_str_null skills) as [skills' | ]; simpl;
    [ | left; split; [lia | reflexivity] ].
  right. exists current_user_id, user, data, budget, f, title', description', skills'.
  repeat split; assumption.
Qed.


(** ** Deleting a project *)

(** C8. [delete_project] called by the owning client or by an admin answers
    200 and commits once, a store in which the project is gone, no proposal
    refers to its id, and every other row is as before. *)
Theorem delete_project_cascades (env : Env) (db : DB) (current_user_id project_id : Z)
    (project : Project.t) :
  identity env = Some current_user_id ->
  projects db !! project_id = Some project ->
  Project.client_id project = current_user_id \/
  (exists user, users db !! current_user_id = Some user /\ User.role user = "admin") ->
  let out := serve env (DeleteProject project_id) db in
  out = ((jsonify_message "Project deleted successfully", 200), deleted project_id db) /\
  commits_of (dispatch env (DeleteProject project_id)) db = [deleted project_id db] /\
  projects out.2 !! project_id = None /\
  (forall i proposal,
     proposals out.2 !! i = Some proposal -> Proposal.project_id proposal <> project_id) /\
  proposal_count out.2 project_id = 0 /\
  (forall i proposal,
     proposals db !! i = Some proposal ->
     Proposal.project_id proposal <> project_id ->
     proposals out.2 !! i = Some proposal) /\
  (forall i, i <> project_id -> projects out.2 !! i = projects db !! i) /\
  users out.2 = users db.
Proof.
  intros Hid Hproject Hallowed out.
  assert (Hout : out = ((jsonify_message "Project deleted successfully", 200),
                        deleted project_id db) /\
                 commits_of (dispatch env (DeleteProject project_id)) db
                 = [deleted project_id db]).
  { subst out. enter. unfold delete_project, owner_or_admin_denied. step.
    rewrite Hid. simpl. rewrite Hproject. simpl.
    destruct (decide (Project.client_id project <> current_user_id)) as [Hother | _];
      simpl.
    - destruct Hallowed as [Hown | (user & Huser & Hadmin)]; [contradiction | ].
      rewrite Huser. simpl. rewrite Hadmin. simpl. split; reflexivity.
    - split; reflexivity. }
  destruct Hout as [Hout Hcommits]. rewrite Hout. simpl.
  split; [reflexivity | split; [exact Hcommits | ] ].
  split; [apply lookup_delete_eq | ].
  split.
  { intros i proposal Hi. apply map_lookup_filter_Some in Hi as [_ Hi]. exact Hi. }
  split.
  { unfold proposal_count. simpl.
    replace (filter _ (filter _ (proposals db))) with (∅ : gmap Z Proposal.t);
      [reflexivity | ].
    symmetry. apply map_empty. intros i.
    apply map_lookup_filter_None_2.
    destruct (filter _ (proposals db) !! i) as [proposal | ] eqn:Hi; [ | now left].
    right. intros proposal' [= <-].
    apply map_lookup_filter_Some in Hi as [_ Hi]. exact Hi. }
  split.
  { intros i proposal Hi Hother. apply map_lookup_filter_Some. split; assumption. }
  split; [ | reflexivity].
  intros i Hi. apply lookup_delete_ne. congruence.
Qed.

(** ** What a computation leaves invariant *)

Section Preserves.
Variable R : World -> World -> Prop.
Hypothesis R_refl : forall w, R w w.
Hypothesis R_trans : forall w1 w2 w3, R w1 w2 -> R w2 w3 -> R w1 w3.

Lemma preserves_ret {A} (a : A) : preserves R (ret a).
Proof. intros w. apply R_refl. Qed.

Lemma preserves_raise {A} (e : exn) : preserves R (@raise A e).
Proof. intros w. apply R_refl. Qed.

Lemma preserves_lift {A} (r : E A) : preserves R (lift r).
Proof. intros w. apply R_refl. Qed.

Lemma preserves_query {A} (f : DB -> A) : preserves R (query f).
Proof. intros w. apply R_refl. Qed.

Lemma preserves_attr {A} (obj : option A) : preserves R (attr obj).
Proof. destruct obj; intros w; apply R_refl. Qed.

Lemma preserves_get_or_404 {A} (row : option A) : preserves R (get_or_404 row).
Proof. destruct row; intros w; apply R_refl. Qed.

Lemma preserves_get_json (body : option json) : preserves R (get_json body).
Proof. destruct body; intros w; apply R_refl. Qed.

Lemma preserves_bind {A B} (m : M A) (k : A -> M B) :
  preserves R m -> (forall a, preserves R (k a)) -> preserves R (bind m k).
Proof.
  intros Hm Hk w. unfold bind. specialize (Hm w).
  destruct (m w) as [[a | e] w1]; simpl in *; [ | exact Hm].
  eapply R_trans; [exact Hm | apply Hk].
Qed.

Lemma preserves_try_except {A} (body : M A) (handler : exn -> M A) :
  preserves R body -> (forall e, preserves R (handler e)) ->
  preserves R (try_except body handler).
Proof.
  intros Hbody Hhandler w. unfold try_except. specialize (Hbody w).
  destruct (body w) as [[a | e] w1]; simpl in *; [exact Hbody | ].
  eapply R_trans; [exact Hbody | apply Hhandler].
Qed.

Lemma preserves_for_each {A B} (f : A -> M B) (l : list A) :
  (forall x, preserves R (f x)) -> preserves R (for_each f l).
Proof.
  intros Hf. induction l as [ | x l IH]; simpl.
  - apply preserves_ret.
  - apply preserves_bind; [apply Hf | intros y].
    apply preserves_bind; [exact IH | intros ys]. apply preserves_ret.
Qed.

Lemma preserves_jwt_required (env : Env) (f : Z -> M Resp) :
  (forall current_user_id, preserves R (f current_user_id)) ->
  preserves R (jwt_required env f).
Proof.
  intros Hf. unfold jwt_required. destruct (identity env); [apply Hf | apply preserves_ret].
Qed.

Lemma preserves_role_required (required_role : string) (f : Z * User.t -> M Resp)
    (env : Env) :
  (forall user, preserves R (f user)) ->
  preserves R (role_required required_role f env).
Proof.
  intros Hf. unfold role_required. apply preserves_jwt_required. intros current_user_id.
  apply preserves_bind; [apply preserves_query | intros [user | ] ].
  - destruct (decide _); [apply preserves_ret | apply Hf].
  - apply preserves_ret.
Qed.

End Preserves.

(** Walks through a handler with the lemmas above; [refl] and [trans] are
    the proofs that the relation is a preorder and [leaf] deals with the
    writes. *)
Ltac preserve_with refl trans leaf :=
  repeat first
    [ apply (preserves_ret _ refl)
    | apply (preserves_raise _ refl)
    | apply (preserves_lift _ refl)
    | apply (preserves_query _ refl)
    | apply (preserves_attr _ refl)
    | apply (preserves_get_or_404 _ refl)
    | apply (preserves_get_json _ refl)
    | apply (preserves_jwt_required _ refl); intros ?
    | apply (preserves_role_required _ refl trans); intros ?
    | apply (preserves_try_except _ trans); [ | intros ? ]
    | apply (preserves_for_each _ refl trans); intros ?
    | apply (preserves_bind _ trans); [ | intros ? ]
    | leaf
    | match goal with
      | |- preserves _ (match ?x with _ => _ end) => destruct x
      end ].

(** Computations that leave the session alone. *)
Lemma unchanged_trans (w1 w2 w3 : World) : w1 = w2 -> w2 = w3 -> w1 = w3.
Proof. congruence. Qed.

Ltac read_only :=
  preserve_with (@eq_refl World) unchanged_trans fail.

Lemma read_only_request (h : M Resp) (db : DB) :
  preserves eq h -> (run_request h db).2 = db /\ commits_of h db = [].
Proof.
  intros Hh. unfold run_request, commits_of. specialize (Hh (mkWorld db db [])).
  destruct (h (mkWorld db db [])) as [[r | e] w]; simpl in *; subst w; split; reflexivity.
Qed.

Lemma get_my_proposals_read_only (env : Env) (args : Args) :
  preserves eq (get_my_proposals env args).
Proof.
  unfold get_my_proposals, get_my_proposals_body, my_proposal_entry. read_only.
Qed.

(** ** Listing one's own proposals *)

Lemma paginate_elem_of {A} (page per_page : Z) (l : list A) (x : A) :
  x ∈ paginate page per_page l -> x ∈ l.
Proof.
  unfold paginate. intros Hx.
  eapply elem_of_sublist; [exact Hx | ].
  etransitivity; [apply sublist_take | apply sublist_drop].
Qed.

Lemma order_by_desc_elem_of {A} (key : A -> Z) (l : list A) (x : A) :
  x ∈ order_by_desc key l <-> x ∈ l.
Proof. unfold order_by_desc. now rewrite merge_sort_Permutation. Qed.

Lemma my_proposals_page_elem_of (db : DB) (freelancer_id : Z) (args : Args)
    (i : Z) (proposal : Proposal.t) :
  (i, proposal) ∈ my_proposals_page db freelancer_id args ->
  proposals db !! i = Some proposal /\ Proposal.freelancer_id proposal = freelancer_id.
Proof.
  unfold my_proposals_page. intros Hin.
  apply paginate_elem_of, order_by_desc_elem_of, list_elem_of_filter in Hin
    as [Hmine Hrow].
  apply elem_of_map_to_list in Hrow. split; assumption.
Qed.

(** What a loop returned, element by element. *)
Lemma for_each_returns {A B} (f : A -> M B) (l : list A) (w w' : World) (ys : list B) :
  for_each f l w = (inl ys, w') ->
  Forall2 (fun x y => exists w1 w2, f x w1 = (inl y, w2)) l ys.
Proof.
  revert w ys. induction l as [ | x l IH]; intros w ys; simpl.
  - unfold ret. intros Heq. inversion Heq; subst. constructor.
  - unfold bind at 1. destruct (f x w) as [[y | e] w1] eqn:Hfx; [ | discriminate].
    unfold bind at 1. destruct (for_each f l w1) as [[ys' | e] w2] eqn:Hrest;
      [ | discriminate].
    unfold ret. intros Heq. inversion Heq; subst.
    constructor; [eauto | eapply IH; eassumption].
Qed.

Lemma my_proposal_entry_returns (row : Z * Proposal.t) (w w' : World) (entry : json) :
  my_proposal_entry row w = (inl entry, w') -> entry_of row entry.
Proof.
  destruct row as [i proposal]. unfold my_proposal_entry. step.
  destruct (projects (pending w) !! _) as [project | ]; simpl; [ | discriminate].
  destruct (users (pending w) !! _) as [client | ]; simpl; [ | discriminate].
  intros Heq. inversion Heq; subst. eexists. reflexivity.
Qed.

(** C9. For a freelancer, every row of every page of [get_my_proposals] is
    a proposal of the store whose freelancer is the caller, a proposal of
    anyone else is on no page, and a 200 answer lists exactly the rows of
    the page, one entry each; the store is left as it was. *)
Theorem my_proposals_isolated (env : Env) (args : Args) (db : DB)
    (current_user_id : Z) (user : User.t) :
  identity env = Some current_user_id ->
  users db !! current_user_id = Some user ->
  User.role user = "freelancer" ->
  let out := serve env (GetMyProposals args) db in
  let page := my_proposals_page db current_user_id args in
  (forall i proposal,
     (i, proposal) ∈ page ->
     proposals db !! i = Some proposal /\
     Proposal.freelancer_id proposal = current_user_id) /\
  (forall i proposal,
     proposals db !! i = Some proposal ->
     Proposal.freelancer_id proposal <> current_user_id ->
     (i, proposal) ∉ page) /\
  (out.1.2 = 200 ->
   exists entries total,
     out.1.1 = paginated_payload "proposals" entries total
                 (default 1 (arg_page args)) (default 10 (arg_per_page args)) /\
     Forall2 entry_of page entries) /\
  out.2 = db.
Proof.
  intros Hid Huser Hrole out page. subst out page.
  split; [ | split; [ | split] ].
  - intros i proposal. apply my_proposals_page_elem_of.
  - intros i proposal _ Hother Hin.
    apply my_proposals_page_elem_of in Hin as [_ Hmine]. contradiction.
  - enter. unfold get_my_proposals, jwt_required. rewrite Hid.
    rewrite (role_required_admits "freelancer" _ env _ current_user_id user)
      by assumption.
    unfold get_my_proposals_body. step.
    destruct (for_each my_proposal_entry _ _) as [[entries | e] w] eqn:Hentries;
      simpl; [ | discriminate].
    intros _. eexists _, _. split; [reflexivity | ].
    apply for_each_returns in Hentries.
    eapply Forall2_impl; [exact Hentries | ].
    intros row entry (w1 & w2 & Hentry).
    eapply my_proposal_entry_returns. exact Hentry.
  - apply read_only_request, get_my_proposals_read_only.
Qed.

(** ** Accepting and rejecting a proposal *)

(** Every outcome of [update_proposal_status]: nothing committed and another
    answer than 200, or one commit, of the accepted or of the rejected
    store. *)
Lemma update_proposal_status_outcome (env : Env) (proposal_id : Z) (body : option json)
    (db : DB) :
  let out := serve env (UpdateProposalStatus proposal_id body) db in
  let commits := commits_of (dispatch env (UpdateProposalStatus proposal_id body)) db in
  (out.1.2 <> 200 /\ out.2 = db /\ commits = []) \/
  (exists proposal project,
     (owner_asks env db proposal_id body proposal project "accepted" /\
      out = (status_updated "accepted", accepted_store proposal_id proposal project db) /\
      commits = [accepted_store proposal_id proposal project db]) \/
     (owner_asks env db proposal_id body proposal project "rejected" /\
      out = (status_updated "rejected", rejected_store proposal_id proposal db) /\
      commits = [rejected_store proposal_id proposal db])).
Proof.
  intros out commits. subst out commits. enter. unfold update_proposal_status. step.
  destruct (identity env) as [current_user_id | ] eqn:Hid; simpl;
    [ | left; repeat split; lia].
  destruct (proposals db !! proposal_id) as [proposal | ] eqn:Hproposal; simpl;
    [ | left; repeat split; lia].
  destruct (projects db !! Proposal.project_id proposal) as [project | ] eqn:Hproject;
    simpl; [ | left; repeat split; lia].
  destruct (decide (Project.client_id project <> current_user_id)) as [Hother | Hown];
    simpl; [left; repeat split; lia | ].
  apply dec_stable in Hown.
  destruct body as [data | ]; simpl; [ | left; repeat split; lia].
  destruct (dict_get data "status") as [new_status | e] eqn:Hstatus; simpl;
    [ | left; repeat split; lia].
  destruct new_status as [ | | | | new_status | | ]; simpl;
    try (left; repeat split; lia).
  destruct (String.eqb_spec new_status "accepted") as [-> | Hna]; simpl.
  - right. exists proposal, project. left.
    split; [ | split; reflexivity].
    exists current_user_id, data. repeat split; assumption.
  - destruct (String.eqb_spec new_status "rejected") as [-> | Hnr]; simpl.
    + right. exists proposal, project. right.
      split; [ | split; reflexivity].
      exists current_user_id, data. repeat split; assumption.
    + left. repeat split; lia.
Qed.

Lemma reject_others_lookup (project_id proposal_id i : Z) (m : gmap Z Proposal.t) :
  reject_others project_id proposal_id m !! i
  = (fun p => if decide (Proposal.project_id p = project_id /\ i <> proposal_id)
              then Proposal.set_status "rejected" p else p) <$> m !! i.
Proof.
  unfold reject_others. rewrite map_lookup_imap. now destruct (m !! i).
Qed.

(** The accepted store, row by row. *)
Lemma accepted_store_rows (proposal_id : Z) (proposal : Proposal.t) (project : Project.t)
    (db : DB) :
  let db' := accepted_store proposal_id proposal project db in
  proposals db' !! proposal_id = Some (Proposal.set_status "accepted" proposal) /\
  (forall i other,
     i <> proposal_id ->
     proposals db !! i = Some other ->
     proposals db' !! i
     = Some (if decide (Proposal.project_id other = Proposal.project_id proposal)
             then Proposal.set_status "rejected" other else other)) /\
  (forall i, proposals db !! i = None -> i <> proposal_id -> proposals db' !! i = None) /\
  projects db' !! Proposal.project_id proposal
  = Some (Project.set_status (Some "in_progress") project) /\
  (forall i, i <> Proposal.project_id proposal -> projects db' !! i = projects db !! i) /\
  users db' = users db.
Proof.
  simpl. repeat split.
  - rewrite reject_others_lookup, lookup_insert_eq. simpl.
    destruct (decide _) as [[_ Hne] | _]; [contradiction | reflexivity].
  - intros i other Hi Hother.
    rewrite reject_others_lookup, lookup_insert_ne, Hother by congruence. simpl.
    destruct (decide (_ /\ _)) as [[Hp _] | Hno];
      destruct (decide (_ = _)) as [Hp' | Hp']; try reflexivity; try contradiction.
    contradiction Hno. split; assumption.
  - intros i Hnone Hi.
    rewrite reject_others_lookup, lookup_insert_ne, Hnone by congruence. reflexivity.
  - apply lookup_insert_eq.
  - intros i Hi. apply lookup_insert_ne. congruence.
Qed.

(** C1. When the client who owns project X asks to accept proposal P of X,
    the answer is 200 and the store after it has P accepted, every other
    proposal of X rejected and X in progress, the rest being as before. The
    request commits once, that store. And whatever the caller and the store,
    a request to accept commits either nothing, leaving the store as it
    was, or once, the store with the three changes together. *)
Theorem accept_is_atomic (env : Env) (db : DB) (current_user_id proposal_id : Z)
    (data : json) (proposal : Proposal.t) (project : Project.t) :
  identity env = Some current_user_id ->
  proposals db !! proposal_id = Some proposal ->
  projects db !! Proposal.project_id proposal = Some project ->
  Project.client_id project = current_user_id ->
  dict_get data "status" = inl (JStr "accepted") ->
  let request := UpdateProposalStatus proposal_id (Some data) in
  let out := serve env request db in
  out.1 = status_updated "accepted" /\
  Proposal.status <$> proposals out.2 !! proposal_id = Some "accepted" /\
  (forall i other,
     i <> proposal_id ->
     proposals db !! i = Some other ->
     Proposal.project_id other = Proposal.project_id proposal ->
     proposals out.2 !! i = Some (Proposal.set_status "rejected" other)) /\
  Project.status <$> projects out.2 !! Proposal.project_id proposal
  = Some (Some "in_progress") /\
  (forall i other,
     proposals db !! i = Some other ->
     Proposal.project_id other <> Proposal.project_id proposal ->
     proposals out.2 !! i = Some other) /\
  commits_of (dispatch env request) db = [out.2] /\
  (forall env' db' proposal_id' data',
     dict_get data' "status" = inl (JStr "accepted") ->
     let request' := UpdateProposalStatus proposal_id' (Some data') in
     let out' := serve env' request' db' in
     (out'.2 = db' /\ out'.1.2 <> 200 /\ commits_of (dispatch env' request') db' = []) \/
     (exists proposal' project',
        proposals db' !! proposal_id' = Some proposal' /\
        projects db' !! Proposal.project_id proposal' = Some project' /\
        out'.2 = accepted_store proposal_id' proposal' project' db' /\
        out'.1.2 = 200 /\
        commits_of (dispatch env' request') db' = [out'.2])).
Proof.
  intros Hid Hproposal Hproject Hown Hstatus request out.
  assert (Hout : out = (status_updated "accepted",
                        accepted_store proposal_id proposal project db) /\
                 commits_of (dispatch env request) db
                 = [accepted_store proposal_id proposal project db]).
  { subst out request. enter. unfold update_proposal_status. step.
    rewrite Hid. simpl. rewrite Hproposal. simpl. rewrite Hproject. simpl.
    destruct (decide (Project.client_id project <> current_user_id)); [contradiction | ].
    simpl. rewrite Hstatus. simpl. split; reflexivity. }
  destruct Hout as [Hout Hcommits].
  destruct (accepted_store_rows proposal_id proposal project db)
    as (Hp & Hothers & _ & Hx & _ & _).
  rewrite Hout. cbn [fst snd].
  split; [reflexivity | ].
  split; [now rewrite Hp | ].
  split.
  { intros i other Hi Hrow Hsame. rewrite (Hothers i other Hi Hrow).
    destruct (decide _); [reflexivity | contradiction]. }
  split; [now rewrite Hx | ].
  split.
  { intros i other Hrow Hdiff.
    assert (Hi : i <> proposal_id) by (intros ->; congruence).
    rewrite (Hothers i other Hi Hrow).
    destruct (decide _); [contradiction | reflexivity]. }
  split; [exact Hcommits | ].
  intros env' db' proposal_id' data' Hstatus'.
  pose proof (update_proposal_status_outcome env' proposal_id' (Some data') db')
    as Houtcome.
  cbv zeta in Houtcome.
  destruct Houtcome
    as [(Hcode & Hsame & Hnone)
       | (proposal' & project' & [(Hasks & Hout' & Hone) | (Hasks & _)])].
  - left. repeat split; assumption.
  - right. exists proposal', project'.
    destruct Hasks as (u & d & _ & Hp' & Hx' & _).
    rewrite Hout', Hone. repeat split; assumption.
  - destruct Hasks as (u & d & _ & _ & _ & _ & [= <-] & Hrej). congruence.
Qed.

(** ** Where a table can change *)

Lemma keeps_refl {T} (table : DB -> T) (w : World) : keeps table w w.
Proof. split; [reflexivity | now left]. Qed.

Lemma keeps_trans {T} (table : DB -> T) (w1 w2 w3 : World) :
  keeps table w1 w2 -> keeps table w2 w3 -> keeps table w1 w3.
Proof.
  intros [Hp12 Hc12] [Hp23 Hc23]. split; [congruence | ].
  destruct Hc23 as [Hc23 | Hc23]; [ | right; congruence].
  destruct Hc12 as [Hc12 | Hc12]; [left | right]; congruence.
Qed.

Lemma keeps_commit {T} (table : DB -> T) : preserves (keeps table) commit.
Proof. intros w. split; [reflexivity | now right]. Qed.

Lemma keeps_stage {T} (table : DB -> T) (f : DB -> DB) :
  (forall db, table (f db) = table db) -> preserves (keeps table) (stage f).
Proof. intros Hf w. split; [apply Hf | now left]. Qed.

Lemma keeps_request {T} (table : DB -> T) (h : M Resp) (db : DB) :
  preserves (keeps table) h -> table (run_request h db).2 = table db.
Proof.
  intros Hh. unfold run_request. destruct (Hh (mkWorld db db [])) as [_ Hc].
  destruct (h (mkWorld db db [])) as [[r | e] w]; simpl in *; destruct Hc; assumption.
Qed.

Ltac keeping table :=
  unfold add_user, add_project, add_proposal;
  preserve_with (keeps_refl table) (keeps_trans table)
    ltac:(first [ apply keeps_commit | apply keeps_stage; intros ?; reflexivity ]).

Lemma other_requests_keep_projects (env : Env) (r : Request) (db : DB) :
  writes_projects r = false -> projects (serve env r db).2 = projects db.
Proof.
  intros Hr. apply (keeps_request projects).
  destruct r; try discriminate Hr; simpl.
  - unfold register. keeping projects.
  - unfold login. keeping projects.
  - unfold get_profile. keeping projects.
  - unfold update_profile. keeping projects.
  - unfold change_password. keeping projects.
  - unfold verify_token. keeping projects.
  - unfold get_projects, project_entry. keeping projects.
  - unfold get_project, project_entry. keeping projects.
  - unfold get_my_projects, get_my_projects_body. keeping projects.
  - unfold create_proposal, create_proposal_body. keeping projects.
  - unfold get_project_proposals, owner_or_admin_denied, freelancer_entry.
    keeping projects.
  - unfold get_my_proposals, get_my_proposals_body, my_proposal_entry.
    keeping projects.
  - unfold get_proposal, freelancer_entry. keeping projects.
  - unfold health_check. keeping projects.
Qed.

(** Every outcome of [update_project]. *)
Lemma update_project_outcome (env : Env) (project_id : Z) (body : option json) (db : DB) :
  let out := serve env (UpdateProject project_id body) db in
  out.2 = db \/
  (exists current_user_id project data project',
     identity env = Some current_user_id /\
     projects db !! project_id = Some project /\
     owner_or_admin db project current_user_id /\
     body = Some data /\
     update_fields data updatable_fields project = inl project' /\
     out = ((jsonify_message "Project updated successfully", 200),
            set_projects (insert project_id project') db)).
Proof.
  intros out. subst out. enter. unfold update_project, owner_or_admin_denied. step.
  destruct (identity env) as [current_user_id | ] eqn:Hid; simpl; [ | now left].
  destruct (projects db !! project_id) as [project | ] eqn:Hproject; simpl;
    [ | now left].
  assert (Hallowed : owner_or_admin db project current_user_id \/
                     (if decide (Project.client_id project <> current_user_id)
                      then match users db !! current_user_id with
                           | Some user => User.role user <> "admin"
                           | None => True
                           end
                      else False)).
  { destruct (decide (Project.client_id project <> current_user_id)) as [Hother | Hown].
    - destruct (users db !! current_user_id) as [user | ] eqn:Huser; [ | now right].
      destruct (decide (User.role user = "admin")) as [Hadmin | Hno]; [ | now right].
      left. right. now exists user.
    - left. left. now apply dec_stable in Hown. }
  destruct (decide (Project.client_id project <> current_user_id)) as [Hother | Hown];
    simpl.
  - destruct (users db !! current_user_id) as [user | ] eqn:Huser; simpl; [ | now left].
    case_bool_decide; simpl; [now left | ].
    destruct Hallowed as [Hallowed | Hno]; [ | contradiction].
    destruct body as [data | ]; simpl; [ | now left].
    destruct (update_fields data _ project) as [project' | e] eqn:Hup; simpl;
      [ | now left].
    right. exists current_user_id, project, data, project'. repeat split; assumption.
  - destruct Hallowed as [Hallowed | Hno]; [ | contradiction].
    destruct body as [data | ]; simpl; [ | now left].
    destruct (update_fields data _ project) as [project' | e] eqn:Hup; simpl;
      [ | now left].
    right. exists current_user_id, project, data, project'. repeat split; assumption.
Qed.

(** Every outcome of [delete_project]. *)
Lemma delete_project_outcome (env : Env) (project_id : Z) (db : DB) :
  let out := serve env (DeleteProject project_id) db in
  out.2 = db \/ out.2 = deleted project_id db.
Proof.
  intros out. subst out. enter. unfold delete_project, owner_or_admin_denied. step.
  destruct (identity env) as [current_user_id | ]; simpl; [ | now left].
  destruct (projects db !! project_id) as [project | ]; simpl; [ | now left].
  destruct (decide (Project.client_id project <> current_user_id)); simpl.
  - destruct (users db !! current_user_id) as [user | ]; simpl; [ | now left].
    case_bool_decide; simpl; [now left | now right].
  - now right.
Qed.

Lemma setattr_project_status (field : string) (value : json) (project project' : Project.t) :
  setattr_project field value project = inl project' ->
  Project.status project' = Project.status project \/
  (field = "status" /\ db_str_null value = inl (Project.status project')).
Proof.
  unfold setattr_project, and_then.
  destruct (String.eqb_spec field "title");
    [destruct (db_str value); intros [= <-]; now left | ].
  destruct (String.eqb_spec field "description");
    [destruct (db_str value); intros [= <-]; now left | ].
  destruct (String.eqb_spec field "budget");
    [destruct (db_float value); intros [= <-]; now left | ].
  destruct (String.eqb_spec field "skills_required");
    [destruct (db_str_null value); intros [= <-]; now left | ].
  destruct (String.eqb_spec field "status");
    [destruct (db_str_null value); intros [= <-]; now right | ].
  intros [= <-]. now left.
Qed.

(** [update_fields] changes the status only when the body has the key
    [status], and then to the value it gives. *)
Lemma update_fields_status (data : json) (fields : list string)
    (project project' : Project.t) :
  update_fields data fields project = inl project' ->
  Project.status project' = Project.status project \/
  (py_in "status" data = inl true /\
   exists value,
     getitem data "status" = inl value /\
     db_str_null value = inl (Project.status project')).
Proof.
  revert project. induction fields as [ | field rest IH]; intros project.
  - intros [= <-]. now left.
  - change (update_fields data (field :: rest) project)
      with (and_then (py_in field data) (fun present : bool =>
              if present then
                and_then (getitem data field) (fun value =>
                  and_then (setattr_project field value project) (fun project =>
                    update_fields data rest project))
              else update_fields data rest project)).
    unfold and_then.
    destruct (py_in field data) as [[ | ] | e] eqn:Hin; [ | apply IH | discriminate].
    destruct (getitem data field) as [value | e] eqn:Hvalue; [ | discriminate].
    destruct (setattr_project field value project) as [project1 | e] eqn:Hset;
      [ | discriminate].
    intros Hrest. apply IH in Hrest as [Hsame | Hstatus]; [ | now right].
    apply setattr_project_status in Hset as [Hsame1 | [-> Hnew] ].
    + left. congruence.
    + right. split; [exact Hin | ]. exists value. split; [exact Hvalue | ].
      now rewrite Hsame.
Qed.

(** C3, as amended. A project is in progress after a request, and was not
    before it (it had another status or did not exist), only in two cases:
    the client who owns it accepted one of its proposals with
    [update_proposal_status], or [update_project] was called on it, by that
    client or by an admin, with a body whose [status] is [in_progress]. No
    other request does it, the creation of a project included. *)
Theorem in_progress_sources (env : Env) (request : Request) (db : DB) (project_id : Z) :
  Project.status <$> projects db !! project_id <> Some (Some "in_progress") ->
  Project.status <$> projects (serve env request db).2 !! project_id
    = Some (Some "in_progress") ->
  exists project,
    projects db !! project_id = Some project /\
    ((exists proposal_id body proposal,
        request = UpdateProposalStatus proposal_id body /\
        Proposal.project_id proposal = project_id /\
        owner_asks env db proposal_id body proposal project "accepted") \/
     (exists current_user_id data,
        request = UpdateProject project_id (Some data) /\
        identity env = Some current_user_id /\
        owner_or_admin db project current_user_id /\
        py_in "status" data = inl true /\
        getitem data "status" = inl (JStr "in_progress"))).
Proof.
  intros Hbefore Hafter.
  destruct (writes_projects request) eqn:Hwrites.
  - destruct request as
      [ | | | | | | | | body | target body | target | | | | | proposal_id body | | ];
      try discriminate Hwrites.
    + (* create_project *)
      destruct (create_project_outcome env body db)
        as [ [_ Hsame]
           | (u & user & data & budget & f & title & description & skills
              & _ & _ & _ & _ & _ & _ & _ & Hout) ].
      * rewrite Hsame in Hafter. contradiction.
      * rewrite Hout in Hafter. simpl in Hafter.
        destruct (decide (project_id = next_id (projects db))) as [-> | Hne].
        -- rewrite lookup_insert_eq in Hafter. simpl in Hafter. congruence.
        -- rewrite lookup_insert_ne in Hafter by congruence. contradiction.
    + (* update_project *)
      destruct (update_project_outcome env target body db)
        as [Hsame | (u & project & data & project' & Hid & Hproject & Hallowed & ->
                     & Hup & Hout)].
      * rewrite Hsame in Hafter. contradiction.
      * rewrite Hout in Hafter. simpl in Hafter.
        destruct (decide (project_id = target)) as [-> | Hne].
        -- rewrite lookup_insert_eq in Hafter. simpl in Hafter.
           exists project. split; [exact Hproject | right].
           apply update_fields_status in Hup as [Hstatus | (Hin & value & Hvalue & Hnew)].
           ++ rewrite Hproject in Hbefore. simpl in Hbefore. congruence.
           ++ exists u, data. repeat split; try assumption.
              rewrite Hvalue. f_equal.
              destruct value; simpl in Hnew; try discriminate; congruence.
        -- rewrite lookup_insert_ne in Hafter by congruence. contradiction.
    + (* delete_project *)
      destruct (delete_project_outcome env target db) as [Hsame | Hdeleted].
      * rewrite Hsame in Hafter. contradiction.
      * rewrite Hdeleted in Hafter. simpl in Hafter.
        destruct (decide (project_id = target)) as [-> | Hne].
        -- rewrite lookup_delete_eq in Hafter. discriminate.
        -- rewrite lookup_delete_ne in Hafter by congruence. contradiction.
    + (* update_proposal_status *)
      pose proof (update_proposal_status_outcome env proposal_id body db) as Houtcome.
      cbv zeta in Houtcome.
      destruct Houtcome
        as [(_ & Hsame & _)
           | (proposal & project & [(Hasks & Hout & _) | (_ & Hout & _)])].
      * rewrite Hsame in Hafter. contradiction.
      * rewrite Hout in Hafter. simpl in Hafter.
        destruct (decide (project_id = Proposal.project_id proposal)) as [-> | Hne].
        -- exists project. split; [ | left; exists proposal_id, body, proposal; auto].
           destruct Hasks as (u & d & _ & _ & Hproject & _). exact Hproject.
        -- rewrite lookup_insert_ne in Hafter by congruence. contradiction.
      * rewrite Hout in Hafter. contradiction.
  - rewrite (other_requests_keep_projects env request db Hwrites) in Hafter.
    contradiction.
Qed.

(** ** The status of a proposal *)

Lemma set_status_same (p : Proposal.t) : Proposal.set_status (Proposal.status p) p = p.
Proof. now destruct p. Qed.

Lemma store_after_rows (new_status : string) (target : Z) (proposal : Proposal.t)
    (project : Project.t) (db : DB) (i : Z) :
  new_status = "accepted" \/ new_status = "rejected" ->
  proposals db !! target = Some proposal ->
  proposals (store_after new_status target proposal project db) !! i
  = (fun p => Proposal.set_status
                (status_after new_status target (Proposal.project_id proposal) i p) p)
      <$> proposals db !! i.
Proof.
  intros Hnew Htarget. unfold store_after, status_after.
  destruct (accepted_store_rows target proposal project db)
    as (Hp & Hothers & Hnone & _).
  destruct (decide (new_status = "accepted")) as [-> | Hrej];
    [ | destruct Hnew as [-> | ->]; [contradiction | ] ].
  - destruct (decide (i = target)) as [-> | Hi].
    + rewrite Hp, Htarget. reflexivity.
    + destruct (proposals db !! i) as [p | ] eqn:Hrow.
      * rewrite (Hothers i p Hi Hrow). simpl.
        repeat case_decide; try reflexivity.
        -- exfalso. tauto.
        -- exfalso. tauto.
        -- now rewrite set_status_same.
      * now rewrite (Hnone i Hrow Hi).
  - unfold rejected_store. simpl.
    destruct (decide (i = target)) as [-> | Hi].
    + rewrite lookup_insert_eq, Htarget. reflexivity.
    + rewrite lookup_insert_ne by congruence.
      destruct (proposals db !! i) as [p | ]; [ | reflexivity]. simpl.
      try (case_decide; [exfalso; intuition discriminate | ]).
      now rewrite set_status_same.
Qed.

(** The owner's request goes through. *)
Lemma update_proposal_status_by_owner (env : Env) (db : DB) (target : Z)
    (body : option json) (proposal : Proposal.t) (project : Project.t)
    (new_status : string) :
  owner_asks env db target body proposal project new_status ->
  new_status = "accepted" \/ new_status = "rejected" ->
  serve env (UpdateProposalStatus target body) db
  = (status_updated new_status, store_after new_status target proposal project db).
Proof.
  intros (u & data & Hid & Hproposal & Hproject & Hown & -> & Hstatus) Hnew.
  enter. unfold update_proposal_status, store_after. step.
  rewrite Hid. simpl. rewrite Hproposal. simpl. rewrite Hproject. simpl.
  destruct (decide (Project.client_id project <> u)); [contradiction | ].
  simpl. rewrite Hstatus. simpl.
  destruct Hnew as [-> | ->]; reflexivity.
Qed.

Lemma other_requests_keep_proposals (env : Env) (r : Request) (db : DB) :
  writes_proposals r = false -> proposals (serve env r db).2 = proposals db.
Proof.
  intros Hr. apply (keeps_request proposals).
  destruct r; try discriminate Hr; simpl.
  - unfold register. keeping proposals.
  - unfold login. keeping proposals.
  - unfold get_profile. keeping proposals.
  - unfold update_profile. keeping proposals.
  - unfold change_password. keeping proposals.
  - unfold verify_token. keeping proposals.
  - unfold get_projects, project_entry. keeping proposals.
  - unfold get_project, project_entry. keeping proposals.
  - unfold create_project, create_project_body. keeping proposals.
  - unfold update_project, owner_or_admin_denied. keeping proposals.
  - unfold get_my_projects, get_my_projects_body. keeping proposals.
  - unfold get_project_proposals, owner_or_admin_denied, freelancer_entry.
    keeping proposals.
  - unfold get_my_proposals, get_my_proposals_body, my_proposal_entry.
    keeping proposals.
  - unfold get_proposal, freelancer_entry. keeping proposals.
  - unfold health_check. keeping proposals.
Qed.

(** Every outcome of [create_proposal]. *)
Lemma create_proposal_outcome (env : Env) (body : option json) (db : DB) :
  let out := serve env (CreateProposal body) db in
  out.2 = db \/
  (exists proposal,
     Proposal.status proposal = "pending" /\
     out.2 = set_proposals (insert (next_id (proposals db)) proposal) db).
Proof.
  intros out. subst out. enter.
  unfold create_proposal, role_required, jwt_required. step.
  destruct (identity env) as [current_user_id | ]; simpl; [ | now left].
  destruct (users db !! current_user_id) as [user | ]; simpl; [ | now left].
  destruct (decide (User.role user <> "freelancer")); simpl; [now left | ].
  unfold create_proposal_body, add_proposal. step.
  destruct body as [data | ]; simpl; [ | now left].
  destruct (first_missing data _) as [[field | ] | e]; simpl; [now left | | now left].
  destruct (getitem data "project_id") as [project_id | ]; simpl; [ | now left].
  destruct (db_int project_id) as [project_id' | ]; simpl; [ | now left].
  destruct (projects db !! project_id') as [project | ]; simpl; [ | now left].
  destruct (decide (Project.status project <> Some "open")); simpl; [now left | ].
  destruct (decide (existing_proposals db current_user_id project_id' >= 3)); simpl;
    [now left | ].
  destruct (getitem data "cover_letter") as [cover_letter | ]; simpl; [ | now left].
  destruct (getitem data "bid_amount") as [bid_amount | ]; simpl; [ | now left].
  destruct (py_float bid_amount) as [bid_amount' | ]; simpl; [ | now left].
  destruct (getitem data "timeline_days") as [timeline_days | ]; simpl; [ | now left].
  destruct (py_int timeline_days) as [timeline_days' | ]; simpl; [ | now left].
  destruct (db_str cover_letter) as [cover_letter' | ]; simpl; [ | now left].
  right. eexists. split; [ | reflexivity]. reflexivity.
Qed.

(** C2, as amended. The status of a proposal is pending when the proposal
    is created, and afterwards it changes only by [update_proposal_status]
    called by the client who owns the project, with accepted or rejected:
    the proposal named takes the requested status and, when that is
    accepted, every other proposal of the project becomes rejected, in both
    cases whatever the status was before, pending or not; a proposal the
    request leaves in the store is otherwise unchanged. The owner's request
    always has that effect: accepted and rejected are not terminal. *)
Theorem status_transitions (env : Env) (request : Request) (db : DB) (i : Z) :
  let out := serve env request db in
  (forall p p',
     proposals db !! i = Some p ->
     proposals out.2 !! i = Some p' ->
     p' = p \/
     exists target body proposal project new_status,
       request = UpdateProposalStatus target body /\
       owner_asks env db target body proposal project new_status /\
       (new_status = "accepted" \/ new_status = "rejected") /\
       p' = Proposal.set_status
              (status_after new_status target (Proposal.project_id proposal) i p) p) /\
  (forall p',
     proposals db !! i = None ->
     proposals out.2 !! i = Some p' ->
     Proposal.status p' = "pending") /\
  (forall target body proposal project new_status p,
     request = UpdateProposalStatus target body ->
     owner_asks env db target body proposal project new_status ->
     new_status = "accepted" \/ new_status = "rejected" ->
     proposals db !! i = Some p ->
     proposals out.2 !! i
     = Some (Proposal.set_status
               (status_after new_status target (Proposal.project_id proposal) i p) p)).
Proof.
  intros out. subst out.
  assert (Howner : forall target body proposal project new_status,
    owner_asks env db target body proposal project new_status ->
    new_status = "accepted" \/ new_status = "rejected" ->
    proposals (serve env (UpdateProposalStatus target body) db).2 !! i
    = (fun p => Proposal.set_status
                  (status_after new_status target (Proposal.project_id proposal) i p) p)
        <$> proposals db !! i).
  { intros target body proposal project new_status Hasks Hnew.
    rewrite (update_proposal_status_by_owner _ _ _ _ _ _ _ Hasks Hnew). simpl.
    apply store_after_rows; [exact Hnew | ].
    destruct Hasks as (u & d & _ & Hp & _). exact Hp. }
  split; [ | split].
  - intros p p' Hbefore Hafter.
    destruct (writes_proposals request) eqn:Hwrites.
    + destruct request as
        [ | | | | | | | | | | project_id | | body | | | target body | | ];
        try discriminate Hwrites.
      * destruct (delete_project_outcome env project_id db) as [Hsame | Hdeleted].
        -- rewrite Hsame in Hafter. left. congruence.
        -- rewrite Hdeleted in Hafter. simpl in Hafter.
           apply map_lookup_filter_Some in Hafter as [Hafter _]. left. congruence.
      * destruct (create_proposal_outcome env body db)
          as [Hsame | (proposal & _ & Hout)].
        -- rewrite Hsame in Hafter. left. congruence.
        -- rewrite Hout in Hafter. simpl in Hafter.
           rewrite lookup_insert_ne in Hafter; [left; congruence | ].
           intros <-. rewrite next_id_fresh in Hbefore. discriminate.
      * pose proof (update_proposal_status_outcome env target body db) as Houtcome.
        cbv zeta in Houtcome.
        destruct Houtcome
          as [(_ & Hsame & _)
             | (proposal & project & [(Hasks & _) | (Hasks & _)])].
        -- rewrite Hsame in Hafter. left. congruence.
        -- right. exists target, body, proposal, project, "accepted".
           rewrite (Howner _ _ _ _ _ Hasks (or_introl eq_refl)), Hbefore in Hafter.
           simpl in Hafter. repeat split; [exact Hasks | now left | congruence].
        -- right. exists target, body, proposal, project, "rejected".
           rewrite (Howner _ _ _ _ _ Hasks (or_intror eq_refl)), Hbefore in Hafter.
           simpl in Hafter. repeat split; [exact Hasks | now right | congruence].
    + rewrite (other_requests_keep_proposals env request db Hwrites) in Hafter.
      left. congruence.
  - intros p' Hbefore Hafter.
    destruct (writes_proposals request) eqn:Hwrites.
    + destruct request as
        [ | | | | | | | | | | project_id | | body | | | target body | | ];
        try discriminate Hwrites.
      * destruct (delete_project_outcome env project_id db) as [Hsame | Hdeleted].
        -- rewrite Hsame in Hafter. congruence.
        -- rewrite Hdeleted in Hafter. simpl in Hafter.
           apply map_lookup_filter_Some in Hafter as [Hafter _]. congruence.
      * destruct (create_proposal_outcome env body db)
          as [Hsame | (proposal & Hpending & Hout)].
        -- rewrite Hsame in Hafter. congruence.
        -- rewrite Hout in Hafter. simpl in Hafter.
           destruct (decide (i = next_id (proposals db))) as [-> | Hne].
           ++ rewrite lookup_insert_eq in Hafter. congruence.
           ++ rewrite lookup_insert_ne in Hafter by congruence. congruence.
      * pose proof (update_proposal_status_outcome env target body db) as Houtcome.
        cbv zeta in Houtcome.
        destruct Houtcome
          as [(_ & Hsame & _)
             | (proposal & project & [(Hasks & _) | (Hasks & _)])].
        -- rewrite Hsame in Hafter. congruence.
        -- rewrite (Howner _ _ _ _ _ Hasks (or_introl eq_refl)), Hbefore in Hafter.
           discriminate.
        -- rewrite (Howner _ _ _ _ _ Hasks (or_intror eq_refl)), Hbefore in Hafter.
           discriminate.
    + rewrite (other_requests_keep_proposals env request db Hwrites) in Hafter.
      congruence.
  - intros target body proposal project new_status p -> Hasks Hnew Hbefore.
    rewrite (Howner _ _ _ _ _ Hasks Hnew), Hbefore. reflexivity.
Qed.



(** * Further properties of the handlers *)

(** ** Tokens, reads and rows that are not there *)

(** X1. A request on a project or a proposal that does not exist is answered
    500, not 404, by the handlers that look the row up with [get_or_404]
    inside their [try]: the [NotFound] it raises is caught by their
    [except Exception]. The store is left as it was. *)
Theorem missing_row_is_500 (env : Env) (db : DB) (current_user_id i : Z) :
  identity env = Some current_user_id ->
  (projects db !! i = None ->
   forall body,
     ((serve env (GetProject i) db).1.2 = 500 /\ (serve env (GetProject i) db).2 = db) /\
     ((serve env (UpdateProject i body) db).1.2 = 500 /\
      (serve env (UpdateProject i body) db).2 = db) /\
     ((serve env (DeleteProject i) db).1.2 = 500 /\
      (serve env (DeleteProject i) db).2 = db) /\
     ((serve env (GetProjectProposals i) db).1.2 = 500 /\
      (serve env (GetProjectProposals i) db).2 = db)) /\
  (proposals db !! i = None ->
   forall body,
     ((serve env (UpdateProposalStatus i body) db).1.2 = 500 /\
      (serve env (UpdateProposalStatus i body) db).2 = db) /\
     ((serve env (GetProposal i) db).1.2 = 500 /\ (serve env (GetProposal i) db).2 = db)).
Proof.
  intros Hid. split.
  - intros Hnone body. enter.
    unfold get_project, update_project, delete_project, get_project_proposals. step.
    rewrite Hid. simpl. rewrite Hnone. simpl. repeat split; reflexivity.
  - intros Hnone body. enter. unfold update_proposal_status, get_proposal. step.
    rewrite Hid. simpl. rewrite Hnone. simpl. repeat split; reflexivity.
Qed.


Lemma reads_are_read_only (env : Env) (r : Request) :
  is_read r = true -> preserves eq (dispatch env r).
Proof.
  intros Hr. destruct r; try discriminate Hr; simpl.
  - unfold login. read_only.
  - unfold get_profile. read_only.
  - unfold verify_token. read_only.
  - unfold get_projects, project_entry. read_only.
  - unfold get_project, project_entry. read_only.
  - unfold get_my_projects, get_my_projects_body. read_only.
  - unfold get_project_proposals, owner_or_admin_denied, freelancer_entry. read_only.
  - apply get_my_proposals_read_only.
  - unfold get_proposal, freelancer_entry. read_only.
  - unfold health_check. read_only.
Qed.

(** X3. Login, the profile and token queries, the five listings and
    lookups of projects and proposals and the health check commit nothing:
    whatever they answer, also when they fail, the store after them is the
    store before. *)
Theorem reads_leave_the_store (env : Env) (r : Request) (db : DB) :
  is_read r = true ->
  (serve env r db).2 = db /\ commits_of (dispatch env r) db = [].
Proof.
  intros Hr. apply read_only_request, reads_are_read_only, Hr.
Qed.


(** ** Accounts *)

Lemma dict_get_str (data : json) (k s : string) :
  dict_get data k = inl (JStr s) ->
  py_in k data = inl true /\ getitem data k = inl (JStr s).
Proof.
  destruct data as [ | | | | | | l]; simpl; try discriminate.
  destruct (assoc k l) as [v | ]; simpl; [ | discriminate].
  intros [= ->]. split; reflexivity.
Qed.

Lemma truthy_str (s : string) : s <> "" -> truthy (JStr s) = true.
Proof. intros Hs. simpl. now apply negb_true_iff, String.eqb_neq. Qed.

Lemma first_absent_cons (data : json) (field : string) (rest : list string) :
  first_absent data (field :: rest)
    = and_then (py_in field data) (fun present : bool =>
        if present then
          and_then (getitem data field) (fun v =>
            if truthy v then first_absent data rest else inl (Some field))
        else inl (Some field)).
Proof. reflexivity. Qed.

(** A field [register] requires is in the body and truthy. *)
Lemma first_absent_none (data : json) (required_fields : list string) :
  first_absent data required_fields = inl None <->
  Forall (fun field =>
            py_in field data = inl true /\
            exists v, getitem data field = inl v /\ truthy v = true)
    required_fields.
Proof.
  induction required_fields as [ | field rest IH].
  - split; [constructor | reflexivity].
  - rewrite first_absent_cons. unfold and_then. split.
    + destruct (py_in field data) as [[ | ] | e] eqn:Hin; try discriminate.
      destruct (getitem data field) as [v | e] eqn:Hv; [ | discriminate].
      destruct (truthy v) eqn:Ht; [ | discriminate].
      intros Hrest. constructor; [eauto | now apply IH].
    + intros Hall. inversion Hall as [ | ? ? (Hin & v & Hv & Ht) Hrest]; subst.
      rewrite Hin, Hv, Ht. now apply IH.
Qed.

Lemma user_by_email_none (db : DB) (email : string) :
  user_by_email db email = None <->
  forall i u, users db !! i = Some u -> User.email u <> email.
Proof.
  unfold user_by_email. rewrite head_None. split.
  - intros Hnil i u Hu Hemail.
    assert (Hin : (i, u) ∈ filter (fun row : Z * User.t => User.email row.2 = email)
                              (map_to_list (users db))).
    { apply list_elem_of_filter. split; [exact Hemail | now apply elem_of_map_to_list]. }
    rewrite Hnil in Hin. inversion Hin.
  - intros Hnone.
    destruct (filter _ (map_to_list (users db))) as [ | [i u] l] eqn:Hl; [reflexivity | ].
    assert (Hin : (i, u) ∈ filter (fun row : Z * User.t => User.email row.2 = email)
                              (map_to_list (users db))).
    { rewrite Hl. left. }
    apply list_elem_of_filter in Hin as [Hemail Hrow].
    apply elem_of_map_to_list in Hrow. now apply Hnone in Hrow.
Qed.

Lemma user_by_email_some (db : DB) (email : string) (i : Z) (u : User.t) :
  user_by_email db email = Some (i, u) ->
  users db !! i = Some u /\ User.email u = email.
Proof.
  unfold user_by_email. intros Hhead. apply head_Some in Hhead as [l Hl].
  assert (Hin : (i, u) ∈ filter (fun row : Z * User.t => User.email row.2 = email)
                            (map_to_list (users db))).
  { rewrite Hl. left. }
  apply list_elem_of_filter in Hin as [Hemail Hrow].
  apply elem_of_map_to_list in Hrow. split; assumption.
Qed.

(** With unique emails, the query by email finds the one user who has it. *)
Lemma user_by_email_unique (db : DB) (email : string) (i : Z) (u : User.t) :
  unique_emails db ->
  users db !! i = Some u -> User.email u = email ->
  user_by_email db email = Some (i, u).
Proof.
  intros Hunique Hu Hemail.
  destruct (user_by_email db email) as [[j v] | ] eqn:Hfound.
  - apply user_by_email_some in Hfound as [Hv Hemail'].
    assert (i = j) by (eapply Hunique; eauto; congruence). subst j.
    congruence.
  - exfalso. eapply user_by_email_none; eauto.
Qed.

Lemma is_role_valid (x : json) :
  is_role x = true <-> exists role, x = JStr role /\ valid_role role.
Proof.
  unfold valid_role. split.
  - destruct x as [ | | | | s | | ]; simpl; try discriminate.
    intros Hs. exists s. split; [reflexivity | ].
    apply orb_true_iff in Hs as [Hs | Hs];
      [apply orb_true_iff in Hs as [Hs | Hs] | ];
      apply String.eqb_eq in Hs; auto.
  - intros (role & -> & [-> | [-> | ->] ]); reflexivity.
Qed.

(** Every outcome of [register]: another answer than 201 and the store as
    it was, or 201 and one more user. *)
Lemma register_outcome (env : Env) (body : option json) (db : DB) :
  let out := serve env (Register body) db in
  (out.1.2 <> 201 /\ out.2 = db) \/
  (exists data email password first_name last_name role,
     body = Some data /\
     first_absent data register_required_fields = inl None /\
     getitem data "email" = inl (JStr email) /\
     getitem data "password" = inl (JStr password) /\
     getitem data "role" = inl (JStr role) /\
     valid_role role /\
     user_by_email db email = None /\
     out = (registered (next_id (users db))
              (set_password (User.mk email "" first_name last_name role (now env))
                 password (salt env)),
            set_users
              (insert (next_id (users db))
                 (set_password (User.mk email "" first_name last_name role (now env))
                    password (salt env))) db)).
Proof.
  intros out. subst out. enter. unfold register, add_user. step.
  destruct body as [data | ]; simpl; [ | left; split; [lia | reflexivity] ].
  destruct (first_absent data _) as [[field | ] | e] eqn:Hfields; simpl;
    [left; split; [lia | reflexivity] | | left; split; [lia | reflexivity] ].
  destruct (getitem data "role") as [role | ] eqn:Hrole; simpl;
    [ | left; split; [lia | reflexivity] ].
  destruct (is_role role) eqn:Hvalid; simpl; [ | left; split; [lia | reflexivity] ].
  apply is_role_valid in Hvalid as (role' & -> & Hvalid).
  destruct (getitem data "email") as [email | ] eqn:Hemail; simpl;
    [ | left; split; [lia | reflexivity] ].
  destruct email as [ | | | | email | | ]; simpl;
    try (left; split; [lia | reflexivity]).
  destruct (user_by_email db email) as [existing | ] eqn:Hexisting; simpl;
    [left; split; [lia | reflexivity] | ].
  destruct (getitem data "first_name") as [first_name | ]; simpl;
    [ | left; split; [lia | reflexivity] ].
  destruct (getitem data "last_name") as [last_name | ]; simpl;
    [ | left; split; [lia | reflexivity] ].
  destruct (getitem data "password") as [password | ] eqn:Hpassword; simpl;
    [ | left; split; [lia | reflexivity] ].
  destruct password as [ | | | | password | | ]; simpl;
    try (left; split; [lia | reflexivity]).
  destruct first_name as [ | | | | first_name | | ]; simpl;
    try (left; split; [lia | reflexivity]).
  destruct last_name as [ | | | | last_name | | ]; simpl;
    try (left; split; [lia | reflexivity]).
  right. exists data, email, password, first_name, last_name, role'.
  repeat split; assumption.
Qed.


Lemma update_name_keeps (data : json) (field : string) (user user' : User.t)
    (set : string -> User.t -> User.t) :
  (forall v u, User.email (set v u) = User.email u /\
               User.password (set v u) = User.password u /\
               User.role (set v u) = User.role u /\
               User.created_at (set v u) = User.created_at u) ->
  update_name data field set user = inl user' ->
  User.email user' = User.email user /\
  User.password user' = User.password user /\
  User.role user' = User.role user /\
  User.created_at user' = User.created_at user.
Proof.
  intros Hset. unfold update_name, and_then.
  destruct (py_in field data) as [[ | ] | e]; try discriminate.
  - destruct (getitem data field) as [value | e]; [ | discriminate].
    destruct (db_str value) as [v | e]; [ | discriminate].
    intros [= <-]. apply Hset.
  - intros [= <-]. repeat split.
Qed.

(** Every outcome of [update_profile]: another answer than 200 and the
    store as it was, or 200 and the caller's row with the names and the
    email the body gives. *)
Lemma update_profile_outcome (env : Env) (body : option json) (db : DB) :
  let out := serve env (UpdateProfile body) db in
  (out.1.2 <> 200 /\ out.2 = db) \/
  (exists current_user_id user data user1 user2 user',
     identity env = Some current_user_id /\
     users db !! current_user_id = Some user /\
     body = Some data /\
     update_name data "first_name" User.set_first_name user = inl user1 /\
     update_name data "last_name" User.set_last_name user1 = inl user2 /\
     ((py_in "email" data = inl false /\ user' = user2) \/
      (exists email,
         py_in "email" data = inl true /\
         getitem data "email" = inl (JStr email) /\
         user' = User.set_email email user2 /\
         (user_by_email db email = None \/
          exists u, user_by_email db email = Some (current_user_id, u)))) /\
     out = ((JObj [("message", JStr "Profile updated successfully");
                   ("user", JObj (user_fields current_user_id user'))], 200),
            set_users (insert current_user_id user') db)).
Proof.
  intros out. subst out. enter. unfold update_profile. step.
  destruct (identity env) as [current_user_id | ] eqn:Hid; simpl;
    [ | left; split; [lia | reflexivity] ].
  destruct (users db !! current_user_id) as [user | ] eqn:Huser; simpl;
    [ | left; split; [lia | reflexivity] ].
  destruct body as [data | ]; simpl; [ | left; split; [lia | reflexivity] ].
  destruct (update_name data "first_name" _ user) as [user1 | ] eqn:H1; simpl;
    [ | left; split; [lia | reflexivity] ].
  destruct (update_name data "last_name" _ user1) as [user2 | ] eqn:H2; simpl;
    [ | left; split; [lia | reflexivity] ].
  destruct (py_in "email" data) as [[ | ] | ] eqn:Hin; simpl;
    [ | | left; split; [lia | reflexivity] ].
  - destruct (getitem data "email") as [email | ] eqn:Hemail; simpl;
      [ | left; split; [lia | reflexivity] ].
    destruct email as [ | | | | email | | ]; simpl;
      try (left; split; [lia | reflexivity]).
    destruct (user_by_email db email) as [[existing_id existing] | ] eqn:Hexisting;
      simpl.
    + destruct (decide (existing_id <> current_user_id)) as [Hother | Hself]; simpl;
        [left; split; [lia | reflexivity] | ].
      apply dec_stable in Hself. subst existing_id.
      right. exists current_user_id, user, data, user1, user2,
               (User.set_email email user2).
      repeat split; try assumption.
      right. exists email. repeat split; try assumption. right. now exists existing.
    + right. exists current_user_id, user, data, user1, user2,
               (User.set_email email user2).
      repeat split; try assumption.
      right. exists email. repeat split; try assumption. now left.
  - right. exists current_user_id, user, data, user1, user2, user2.
    repeat split; try assumption. now left.
Qed.

(** Every outcome of [change_password]: another answer than 200 and the
    store as it was, or 200 and the caller's row with the new hash. *)
Lemma change_password_outcome (env : Env) (body : option json) (db : DB) :
  let out := serve env (ChangePassword body) db in
  (out.1.2 <> 200 /\ out.2 = db) \/
  (exists current_user_id user data current_password new_password,
     identity env = Some current_user_id /\
     users db !! current_user_id = Some user /\
     body = Some data /\
     dict_get data "current_password" = inl (JStr current_password) /\
     dict_get data "new_password" = inl (JStr new_password) /\
     check_password user current_password = true /\
     out = ((jsonify_message "Password changed successfully", 200),
            set_users
              (insert current_user_id (set_password user new_password (salt env))) db)).
Proof.
  intros out. subst out. enter. unfold change_password. step.
  destruct (identity env) as [current_user_id | ] eqn:Hid; simpl;
    [ | left; split; [lia | reflexivity] ].
  destruct (users db !! current_user_id) as [user | ] eqn:Huser; simpl;
    [ | left; split; [lia | reflexivity] ].
  destruct body as [data | ]; simpl; [ | left; split; [lia | reflexivity] ].
  destruct (dict_get data "current_password") as [current | ] eqn:Hcurrent; simpl;
    [ | left; split; [lia | reflexivity] ].
  destruct (truthy current) eqn:Htc; simpl; [ | left; split; [lia | reflexivity] ].
  destruct (dict_get data "new_password") as [new | ] eqn:Hnew; simpl;
    [ | left; split; [lia | reflexivity] ].
  destruct (truthy new) eqn:Htn; simpl; [ | left; split; [lia | reflexivity] ].
  destruct current as [ | | | | current | | ]; simpl;
    try (left; split; [lia | reflexivity]).
  destruct (check_password user current) eqn:Hcheck; simpl;
    [ | left; split; [lia | reflexivity] ].
  destruct new as [ | | | | new | | ]; simpl;
    try (left; split; [lia | reflexivity]).
  right. exists current_user_id, user, data, current, new. repeat split; assumption.
Qed.

Lemma other_requests_keep_users (env : Env) (r : Request) (db : DB) :
  writes_users r = false -> users (serve env r db).2 = users db.
Proof.
  intros Hr. apply (keeps_request users).
  destruct r; try discriminate Hr; simpl.
  - unfold login. keeping users.
  - unfold get_profile. keeping users.
  - unfold verify_token. keeping users.
  - unfold get_projects, project_entry. keeping users.
  - unfold get_project, project_entry. keeping users.
  - unfold create_project, create_project_body. keeping users.
  - unfold update_project, owner_or_admin_denied. keeping users.
  - unfold delete_project, owner_or_admin_denied. keeping users.
  - unfold get_my_projects, get_my_projects_body. keeping users.
  - unfold create_proposal, create_proposal_body. keeping users.
  - unfold get_project_proposals, owner_or_admin_denied, freelancer_entry.
    keeping users.
  - unfold get_my_proposals, get_my_proposals_body, my_proposal_entry.
    keeping users.
  - unfold update_proposal_status. keeping users.
  - unfold get_proposal, freelancer_entry. keeping users.
  - unfold health_check. keeping users.
Qed.

(** What a request does to the row of a user who is in the store. *)
Lemma user_row_after (env : Env) (r : Request) (db : DB) (i : Z) (u : User.t) :
  users db !! i = Some u ->
  exists u',
    users (serve env r db).2 !! i = Some u' /\
    User.role u' = User.role u /\
    User.created_at u' = User.created_at u /\
    (User.email u' = User.email u \/
     exists body, r = UpdateProfile body /\ identity env = Some i /\
       (user_by_email db (User.email u') = None \/
        exists v, user_by_email db (User.email u') = Some (i, v))).
Proof.
  intros Hu.
  destruct (writes_users r) eqn:Hwrites.
  - destruct r as [body | | | body | body | | | | | | | | | | | | | ];
      try discriminate Hwrites.
    + destruct (register_outcome env body db)
        as [ [_ Hsame]
           | (data & email & password & first & last & role & _ & _ & _ & _ & _ & _ & _
              & Hout) ].
      * rewrite Hsame. exists u. repeat split; [exact Hu | now left].
      * rewrite Hout. simpl. exists u. rewrite lookup_insert_ne.
        -- repeat split; [exact Hu | now left].
        -- intros <-. rewrite next_id_fresh in Hu. discriminate.
    + destruct (update_profile_outcome env body db)
        as [ [_ Hsame]
           | (uid & user & data & user1 & user2 & user' & Hid & Huser & -> & H1 & H2
              & Hemail & Hout) ].
      * rewrite Hsame. exists u. repeat split; [exact Hu | now left].
      * rewrite Hout. simpl.
        apply update_name_keeps in H1 as (E1 & P1 & R1 & C1); [ | now intros v []].
        apply update_name_keeps in H2 as (E2 & P2 & R2 & C2); [ | now intros v []].
        destruct (decide (i = uid)) as [-> | Hne].
        -- rewrite lookup_insert_eq. exists user'.
           assert (user = u) by congruence. subst user.
           destruct Hemail as [ [_ ->] | (email & _ & _ & -> & Hfree) ].
           ++ repeat split; try congruence. left. congruence.
           ++ destruct user2. simpl in *. repeat split; try congruence.
              right. exists (Some data). repeat split; assumption.
        -- rewrite lookup_insert_ne by congruence.
           exists u. repeat split; [exact Hu | now left].
    + destruct (change_password_outcome env body db)
        as [ [_ Hsame]
           | (uid & user & data & current & new & Hid & Huser & _ & _ & _ & _ & Hout) ].
      * rewrite Hsame. exists u. repeat split; [exact Hu | now left].
      * rewrite Hout. simpl.
        destruct (decide (i = uid)) as [-> | Hne].
        -- rewrite lookup_insert_eq. eexists. split; [reflexivity | ].
           assert (user = u) by congruence. subst user.
           destruct u. simpl. repeat split. now left.
        -- rewrite lookup_insert_ne by congruence.
           exists u. repeat split; [exact Hu | now left].
  - rewrite (other_requests_keep_users env r db Hwrites).
    exists u. repeat split; [exact Hu | now left].
Qed.

(** X4. No request deletes an account or changes its role or its creation
    time: a user who is in the store is there after any request, under the
    same id and with the same role. *)
Theorem accounts_persist (env : Env) (r : Request) (db : DB) (i : Z) (u : User.t) :
  users db !! i = Some u ->
  exists u',
    users (serve env r db).2 !! i = Some u' /\
    User.role u' = User.role u /\
    User.created_at u' = User.created_at u.
Proof.
  intros Hu. destruct (user_row_after env r db i u Hu) as (u' & Hu' & Hrole & Htime & _).
  exists u'. repeat split; assumption.
Qed.


(** A row of users that a request added. *)
Lemma user_row_added (env : Env) (r : Request) (db : DB) (i : Z) (u' : User.t) :
  users db !! i = None ->
  users (serve env r db).2 !! i = Some u' ->
  i = next_id (users db) /\
  (exists body, r = Register body) /\
  user_by_email db (User.email u') = None /\
  valid_role (User.role u').
Proof.
  intros Hnone Hafter.
  destruct (writes_users r) eqn:Hwrites.
  - destruct r as [body | | | body | body | | | | | | | | | | | | | ];
      try discriminate Hwrites.
    + destruct (register_outcome env body db)
        as [ [_ Hsame]
           | (data & email & password & first & last & role & _ & _ & _ & _ & _ & Hvalid
              & Hfree & Hout) ].
      * rewrite Hsame in Hafter. congruence.
      * rewrite Hout in Hafter. simpl in Hafter.
        destruct (decide (i = next_id (users db))) as [-> | Hne].
        -- rewrite lookup_insert_eq in Hafter. injection Hafter as <-. simpl.
           repeat split; eauto.
        -- rewrite lookup_insert_ne in Hafter by congruence. congruence.
    + destruct (update_profile_outcome env body db)
        as [ [_ Hsame]
           | (uid & user & data & user1 & user2 & user' & _ & Huser & _ & _ & _ & _
              & Hout) ].
      * rewrite Hsame in Hafter. congruence.
      * rewrite Hout in Hafter. simpl in Hafter.
        destruct (decide (i = uid)) as [-> | Hne]; [congruence | ].
        rewrite lookup_insert_ne in Hafter by congruence. congruence.
    + destruct (change_password_outcome env body db)
        as [ [_ Hsame]
           | (uid & user & data & current & new & _ & Huser & _ & _ & _ & _ & Hout) ].
      * rewrite Hsame in Hafter. congruence.
      * rewrite Hout in Hafter. simpl in Hafter.
        destruct (decide (i = uid)) as [-> | Hne]; [congruence | ].
        rewrite lookup_insert_ne in Hafter by congruence. congruence.
  - rewrite (other_requests_keep_users env r db Hwrites) in Hafter. congruence.
Qed.

(** X5. Emails stay unique: when no two users of the store share an email,
    no two users share one after any request. [register] refuses an email
    that is in use and [update_profile] one that another user has. *)
Theorem emails_stay_unique (env : Env) (r : Request) (db : DB) :
  unique_emails db -> unique_emails (serve env r db).2.
Proof.
  intros Hunique i j u' v' Hi Hj Hsame.
  destruct (users db !! i) as [u | ] eqn:Hui; destruct (users db !! j) as [v | ] eqn:Hvj.
  - destruct (user_row_after env r db i u Hui) as (u1 & Hu1 & _ & _ & Hei).
    destruct (user_row_after env r db j v Hvj) as (v1 & Hv1 & _ & _ & Hej).
    assert (u1 = u') by congruence. assert (v1 = v') by congruence. subst u1 v1.
    destruct Hei as [Hei | (bi & _ & Hidi & Hfreei)];
      destruct Hej as [Hej | (bj & _ & Hidj & Hfreej)].
    + apply (Hunique i j u v Hui Hvj). congruence.
    + destruct Hfreej as [Hfree | (x & Hown)].
      * exfalso.
        apply (proj1 (user_by_email_none db (User.email v')) Hfree i u Hui).
        congruence.
      * apply user_by_email_some in Hown as [Hx Hemail].
        apply (Hunique i j u x Hui Hx). congruence.
    + destruct Hfreei as [Hfree | (x & Hown)].
      * exfalso.
        apply (proj1 (user_by_email_none db (User.email u')) Hfree j v Hvj).
        congruence.
      * apply user_by_email_some in Hown as [Hx Hemail].
        apply (Hunique i j x v Hx Hvj). congruence.
    + congruence.
  - destruct (user_row_added env r db j v' Hvj Hj) as (_ & (body & ->) & Hfree & _).
    destruct (user_row_after env (Register body) db i u Hui)
      as (u1 & Hu1 & _ & _ & [Hei | (b & Hupdate & _)]); [ | discriminate].
    assert (u1 = u') by congruence. subst u1.
    exfalso.
    apply (proj1 (user_by_email_none db (User.email v')) Hfree i u Hui). congruence.
  - destruct (user_row_added env r db i u' Hui Hi) as (_ & (body & ->) & Hfree & _).
    destruct (user_row_after env (Register body) db j v Hvj)
      as (v1 & Hv1 & _ & _ & [Hej | (b & Hupdate & _)]); [ | discriminate].
    assert (v1 = v') by congruence. subst v1.
    exfalso.
    apply (proj1 (user_by_email_none db (User.email u')) Hfree j v Hvj). congruence.
  - destruct (user_row_added env r db i u' Hui Hi) as (-> & _).
    destruct (user_row_added env r db j v' Hvj Hj) as (-> & _). reflexivity.
Qed.

(** X6. Roles stay within client, freelancer and admin: when every user of
    the store has one of the three, so has every user after any request.
    [register] refuses any other role and no handler assigns one. *)
Theorem roles_stay_valid (env : Env) (r : Request) (db : DB) :
  (forall i u, users db !! i = Some u -> valid_role (User.role u)) ->
  forall i u, users (serve env r db).2 !! i = Some u -> valid_role (User.role u).
Proof.
  intros Hvalid i u' Hafter.
  destruct (users db !! i) as [u | ] eqn:Hbefore.
  - destruct (user_row_after env r db i u Hbefore) as (u1 & Hu1 & Hrole & _).
    assert (u1 = u') by congruence. subst u1. rewrite Hrole. eapply Hvalid, Hbefore.
  - now destruct (user_row_added env r db i u' Hbefore Hafter) as (_ & _ & _ & Hrole).
Qed.



(** [login] on a body with an email and a password. *)
Lemma login_step (env : Env) (data : json) (db : DB) (email password : string) :
  credentials data email password ->
  serve env (Login (Some data)) db
  = (match user_by_email db email with
     | Some (user_id, user) =>
         if check_password user password then logged_in user_id user
         else invalid_credentials
     | None => invalid_credentials
     end, db).
Proof.
  intros (Hemail & Hne & Hpassword & Hnp).
  apply String.eqb_neq in Hne. apply String.eqb_neq in Hnp.
  enter. unfold login. step. rewrite Hemail. simpl. rewrite Hne. simpl.
  rewrite Hpassword. simpl. rewrite Hnp. simpl.
  destruct (user_by_email db email) as [[user_id user] | ]; simpl; [ | reflexivity].
  destruct (check_password user password); reflexivity.
Qed.

(** X8. [login] with an email and a password answers 200, with the token of
    the user found by the email, exactly when that user's stored hash
    matches the password. An email no user has and a wrong password get the
    same 401 answer, and the store is never changed. *)
Theorem login_checks (env : Env) (data : json) (db : DB) (email password : string) :
  credentials data email password ->
  let out := serve env (Login (Some data)) db in
  out.2 = db /\
  ((forall i u, users db !! i = Some u -> User.email u <> email) ->
   out.1 = invalid_credentials) /\
  (forall i u,
     user_by_email db email = Some (i, u) ->
     check_password u password = false ->
     out.1 = invalid_credentials) /\
  (forall i u,
     user_by_email db email = Some (i, u) ->
     check_password u password = true ->
     out.1 = logged_in i u) /\
  (out.1.2 = 200 ->
   exists i u,
     users db !! i = Some u /\ User.email u = email /\
     check_password u password = true /\ out.1 = logged_in i u).
Proof.
  intros Hdata out. subst out. rewrite (login_step env data db email password Hdata).
  simpl. split; [reflexivity | ]. split; [ | split; [ | split] ].
  - intros Hnone. apply user_by_email_none in Hnone. now rewrite Hnone.
  - intros i u -> ->. reflexivity.
  - intros i u -> ->. reflexivity.
  - destruct (user_by_email db email) as [[i u] | ] eqn:Hfound; [ | discriminate].
    destruct (check_password u password) eqn:Hcheck; [ | discriminate].
    intros _. apply user_by_email_some in Hfound as [Hu Hemail].
    exists i, u. repeat split; assumption.
Qed.

(** The body of a registration: the five fields as non-empty strings. *)
Lemma registration_fields (data : json) (email password first_name last_name role : string) :
  credentials data email password ->
  dict_get data "first_name" = inl (JStr first_name) -> first_name <> "" ->
  dict_get data "last_name" = inl (JStr last_name) -> last_name <> "" ->
  dict_get data "role" = inl (JStr role) -> role <> "" ->
  first_absent data register_required_fields = inl None.
Proof.
  intros (Hemail & Hne & Hpassword & Hnp) Hfirst Hnf Hlast Hnl Hrole Hnr.
  apply first_absent_none. unfold register_required_fields.
  repeat constructor;
    match goal with
    | |- py_in ?k data = _ =>
        match goal with
        | H : dict_get data k = inl (JStr _) |- _ => apply (dict_get_str _ _ _ H)
        end
    | |- exists v, getitem data ?k = _ /\ _ =>
        match goal with
        | H : dict_get data k = inl (JStr ?s) |- _ =>
            exists (JStr s); split;
            [apply (dict_get_str _ _ _ H) | now apply truthy_str]
        end
    end.
Qed.

(** [register] on a well-formed body. *)
Lemma register_step (env : Env) (data : json) (db : DB)
    (email password first_name last_name role : string) :
  credentials data email password ->
  dict_get data "first_name" = inl (JStr first_name) -> first_name <> "" ->
  dict_get data "last_name" = inl (JStr last_name) -> last_name <> "" ->
  dict_get data "role" = inl (JStr role) -> valid_role role ->
  serve env (Register (Some data)) db
  = if bool_decide (is_Some (user_by_email db email))
    then ((jsonify_message "User already exists with this email", 400), db)
    else (registered (next_id (users db))
            (registered_user env email password first_name last_name role),
          set_users
            (insert (next_id (users db))
               (registered_user env email password first_name last_name role)) db).
Proof.
  intros Hcred Hfirst Hnf Hlast Hnl Hrole Hvalid.
  assert (Hnr : role <> "") by (destruct Hvalid as [-> | [-> | ->] ]; discriminate).
  pose proof (registration_fields data email password first_name last_name role
                Hcred Hfirst Hnf Hlast Hnl Hrole Hnr) as Hfields.
  unfold register_required_fields in Hfields.
  destruct Hcred as (Hemail & Hne & Hpassword & Hnp).
  apply dict_get_str in Hemail as [_ Hemail].
  apply dict_get_str in Hpassword as [_ Hpassword].
  apply dict_get_str in Hfirst as [_ Hfirst].
  apply dict_get_str in Hlast as [_ Hlast].
  apply dict_get_str in Hrole as [_ Hrole].
  assert (Hisrole : is_role (JStr role) = true).
  { apply is_role_valid. now exists role. }
  enter. unfold register, add_user, registered_user. step.
  rewrite Hfields. simpl. rewrite Hrole. simpl.
  simpl in Hisrole. rewrite Hisrole. simpl.
  rewrite Hemail. simpl.
  destruct (user_by_email db email) as [existing | ]; simpl; [reflexivity | ].
  rewrite Hfirst, Hlast. simpl. rewrite Hpassword. reflexivity.
Qed.


Lemma user_by_email_added (db : DB) (email : string) (user : User.t) :
  (forall i u, users db !! i = Some u -> User.email u <> email) ->
  User.email user = email ->
  user_by_email (set_users (insert (next_id (users db)) user) db) email
  = Some (next_id (users db), user).
Proof.
  intros Hfree Hemail.
  destruct (user_by_email _ email) as [[j v] | ] eqn:Hfound.
  - apply user_by_email_some in Hfound as [Hv Hsame]. simpl in Hv.
    destruct (decide (j = next_id (users db))) as [-> | Hne].
    + rewrite lookup_insert_eq in Hv. congruence.
    + rewrite lookup_insert_ne in Hv by congruence.
      now apply Hfree in Hv.
  - exfalso.
    apply (proj1 (user_by_email_none _ email) Hfound (next_id (users db)) user);
      [ | exact Hemail].
    simpl. apply lookup_insert_eq.
Qed.

(** X9. Registration and login compose. A well-formed registration with an
    email no user has answers 201 and stores the user; when the hash made
    of the password matches it, a login with the same body then answers 200
    with the token of that user, and a second registration with the same
    body is refused with 400 and changes nothing. *)
Theorem register_then_login (env env' : Env) (data : json) (db : DB)
    (email password first_name last_name role : string) :
  credentials data email password ->
  dict_get data "first_name" = inl (JStr first_name) -> first_name <> "" ->
  dict_get data "last_name" = inl (JStr last_name) -> last_name <> "" ->
  dict_get data "role" = inl (JStr role) -> valid_role role ->
  (forall i u, users db !! i = Some u -> User.email u <> email) ->
  checkpw password (hashpw password (salt env)) = true ->
  let user := registered_user env email password first_name last_name role in
  let new_id := next_id (users db) in
  let out := serve env (Register (Some data)) db in
  out = (registered new_id user, set_users (insert new_id user) db) /\
  serve env' (Login (Some data)) out.2 = (logged_in new_id user, out.2) /\
  serve env' (Register (Some data)) out.2
  = ((jsonify_message "User already exists with this email", 400), out.2).
Proof.
  intros Hcred Hfirst Hnf Hlast Hnl Hrole Hvalid Hfree Hhash user new_id out.
  subst user new_id out.
  pose proof (user_by_email_added db email
                (registered_user env email password first_name last_name role)
                Hfree eq_refl) as Hfound.
  rewrite (register_step env data db email password first_name last_name role)
    by assumption.
  rewrite (proj2 (user_by_email_none db email) Hfree). cbn [bool_decide fst snd].
  replace (bool_decide (is_Some (@None (Z * User.t)))) with false by reflexivity.
  cbn [fst snd]. split; [reflexivity | split].
  - rewrite (login_step env' data _ email password Hcred).
    rewrite Hfound.
    unfold check_password, registered_user, set_password. simpl.
    now rewrite Hhash.
  - rewrite (register_step env' data _ email password first_name last_name role)
      by assumption.
    rewrite Hfound. reflexivity.
Qed.

(** X10. An email that is taken is refused. [register] with an email some
    user has answers 400; [update_profile] with an email another user has
    answers 400 too, and the names the same body gives are not stored
    either. In both cases the store is left as it was. *)
Theorem taken_email_is_refused (env : Env) (data : json) (db : DB)
    (email : string) (i : Z) (u : User.t) :
  dict_get data "email" = inl (JStr email) ->
  user_by_email db email = Some (i, u) ->
  (forall password first_name last_name role,
     credentials data email password ->
     dict_get data "first_name" = inl (JStr first_name) -> first_name <> "" ->
     dict_get data "last_name" = inl (JStr last_name) -> last_name <> "" ->
     dict_get data "role" = inl (JStr role) -> valid_role role ->
     serve env (Register (Some data)) db
     = ((jsonify_message "User already exists with this email", 400), db)) /\
  (forall current_user_id user user1 user2,
     identity env = Some current_user_id ->
     users db !! current_user_id = Some user ->
     i <> current_user_id ->
     update_name data "first_name" User.set_first_name user = inl user1 ->
     update_name data "last_name" User.set_last_name user1 = inl user2 ->
     serve env (UpdateProfile (Some data)) db
     = ((jsonify_message "Email already taken", 400), db) /\
     commits_of (dispatch env (UpdateProfile (Some data))) db = []).
Proof.
  intros Hemail Hfound. split.
  - intros password first_name last_name role Hcred Hfirst Hnf Hlast Hnl Hrole Hvalid.
    rewrite (register_step env data db email password first_name last_name role)
      by assumption.
    now rewrite Hfound.
  - intros current_user_id user user1 user2 Hid Huser Hother H1 H2.
    apply dict_get_str in Hemail as [Hin Hget].
    enter. unfold update_profile. step.
    rewrite Hid. simpl. rewrite Huser. simpl. rewrite H1. simpl. rewrite H2. simpl.
    rewrite Hin. simpl. rewrite Hget. simpl. rewrite Hfound. simpl.
    destruct (decide (i <> current_user_id)); [ | contradiction].
    split; reflexivity.
Qed.

(** X11. [change_password] with both passwords given compares the current
    one with the stored hash: when it does not match, the answer is 400 and
    nothing changes; when it matches, the answer is 200 and the caller's
    row, and no other, gets the hash of the new password. With unique
    emails and a hash that matches its password, a login with the new
    password then succeeds. *)
Theorem change_password_checks (env : Env) (data : json) (db : DB)
    (current_user_id : Z) (user : User.t) (current_password new_password : string) :
  identity env = Some current_user_id ->
  users db !! current_user_id = Some user ->
  dict_get data "current_password" = inl (JStr current_password) ->
  current_password <> "" ->
  dict_get data "new_password" = inl (JStr new_password) ->
  new_password <> "" ->
  let out := serve env (ChangePassword (Some data)) db in
  let user' := set_password user new_password (salt env) in
  (check_password user current_password = false ->
   out = ((jsonify_message "Current password is incorrect", 400), db)) /\
  (check_password user current_password = true ->
   out = ((jsonify_message "Password changed successfully", 200),
          set_users (insert current_user_id user') db) /\
   (forall i, i <> current_user_id -> users out.2 !! i = users db !! i) /\
   (unique_emails db ->
    checkpw new_password (hashpw new_password (salt env)) = true ->
    forall env' data',
      credentials data' (User.email user) new_password ->
      serve env' (Login (Some data')) out.2 = (logged_in current_user_id user', out.2))).
Proof.
  intros Hid Huser Hcurrent Hnc Hnew Hnn out user'.
  assert (Hout : out =
    if check_password user current_password
    then ((jsonify_message "Password changed successfully", 200),
          set_users (insert current_user_id user') db)
    else ((jsonify_message "Current password is incorrect", 400), db)).
  { subst out user'. apply String.eqb_neq in Hnc. apply String.eqb_neq in Hnn.
    enter. unfold change_password. step.
    rewrite Hid. simpl. rewrite Huser. simpl. rewrite Hcurrent. simpl.
    rewrite Hnc. simpl. rewrite Hnew. simpl. rewrite Hnn. simpl.
    destruct (check_password user current_password); reflexivity. }
  split.
  - intros Hcheck. now rewrite Hout, Hcheck.
  - intros Hcheck. rewrite Hout, Hcheck. cbn [fst snd].
    split; [reflexivity | split].
    + intros i Hi. simpl. apply lookup_insert_ne. congruence.
    + intros Hunique Hhash env' data' Hcred.
      rewrite (login_step env' data' _ (User.email user) new_password Hcred).
      assert (Hfound :
        user_by_email (set_users (insert current_user_id user') db) (User.email user)
        = Some (current_user_id, user')).
      { destruct (user_by_email _ (User.email user)) as [[j v] | ] eqn:Hfound.
        - apply user_by_email_some in Hfound as [Hv Hsame]. simpl in Hv.
          destruct (decide (j = current_user_id)) as [-> | Hne].
          + rewrite lookup_insert_eq in Hv. congruence.
          + rewrite lookup_insert_ne in Hv by congruence.
            contradiction Hne. eapply (Hunique j current_user_id v user); eauto.
        - exfalso.
          apply (proj1 (user_by_email_none _ _) Hfound current_user_id user').
          + simpl. apply lookup_insert_eq.
          + now destruct user. }
      rewrite Hfound.
      unfold check_password, user', set_password. destruct user. simpl.
      now rewrite Hhash.
Qed.


(** ** Projects *)

Lemma update_fields_cons (data : json) (field : string) (rest : list string)
    (project : Project.t) :
  update_fields data (field :: rest) project
  = and_then (py_in field data) (fun present : bool =>
      if present then
        and_then (getitem data field) (fun value =>
          and_then (setattr_project field value project) (fun project =>
            update_fields data rest project))
      else update_fields data rest project).
Proof. reflexivity. Qed.

(** One round of the loop. *)
Lemma update_fields_round (data : json) (field : string) (rest : list string)
    (project project' : Project.t) :
  update_fields data (field :: rest) project = inl project' ->
  exists project1,
    ((py_in field data = inl false /\ project1 = project) \/
     (py_in field data = inl true /\
      exists value,
        getitem data field = inl value /\
        setattr_project field value project = inl project1)) /\
    update_fields data rest project1 = inl project'.
Proof.
  rewrite update_fields_cons. unfold and_then.
  destruct (py_in field data) as [[ | ] | ]; [ | | discriminate].
  - destruct (getitem data field) as [value | ]; [ | discriminate].
    destruct (setattr_project field value project) as [project1 | ] eqn:Hset;
      [ | discriminate].
    intros Hrest. exists project1. split; [right | exact Hrest]. eauto.
  - intros Hrest. exists project. split; [now left | exact Hrest].
Qed.

(** What [update_fields] does with the five updatable fields: each column
    is as it was when the body does not have the key, and is the value the
    body gives when it has; the client and the creation time are not
    touched. *)
Lemma update_fields_effect (data : json) (project project' : Project.t) :
  update_fields data updatable_fields project = inl project' ->
  ((py_in "title" data = inl false /\ Project.title project' = Project.title project) \/
   (py_in "title" data = inl true /\
    getitem data "title" = inl (JStr (Project.title project')))) /\
  ((py_in "description" data = inl false /\
    Project.description project' = Project.description project) \/
   (py_in "description" data = inl true /\
    getitem data "description" = inl (JStr (Project.description project')))) /\
  ((py_in "budget" data = inl false /\ Project.budget project' = Project.budget project) \/
   (py_in "budget" data = inl true /\
    exists v, getitem data "budget" = inl v /\ db_float v = inl (Project.budget project'))) /\
  ((py_in "skills_required" data = inl false /\
    Project.skills_required project' = Project.skills_required project) \/
   (py_in "skills_required" data = inl true /\
    exists v, getitem data "skills_required" = inl v /\
              db_str_null v = inl (Project.skills_required project'))) /\
  ((py_in "status" data = inl false /\ Project.status project' = Project.status project) \/
   (py_in "status" data = inl true /\
    exists v, getitem data "status" = inl v /\
              db_str_null v = inl (Project.status project'))) /\
  Project.client_id project' = Project.client_id project /\
  Project.created_at project' = Project.created_at project.
Proof.
  unfold updatable_fields. intros Hupdate.
  apply update_fields_round in Hupdate as (p1 & Htitle & Hupdate).
  apply update_fields_round in Hupdate as (p2 & Hdescription & Hupdate).
  apply update_fields_round in Hupdate as (p3 & Hbudget & Hupdate).
  apply update_fields_round in Hupdate as (p4 & Hskills & Hupdate).
  apply update_fields_round in Hupdate as (p5 & Hstatus & Hupdate).
  injection Hupdate as <-.
  unfold setattr_project, and_then in *. simpl in *.
  destruct Htitle as [ [Ht ->] | (Ht & title & Hgt & Hst) ];
    [ | destruct title; simpl in Hst; try discriminate Hst; injection Hst as <-];
  (destruct Hdescription as [ [Hd ->] | (Hd & description & Hgd & Hsd) ];
    [ | destruct description; simpl in Hsd; try discriminate Hsd; injection Hsd as <-]);
  (destruct Hbudget as [ [Hb ->] | (Hb & budget & Hgb & Hsb) ];
    [ | destruct (db_float budget) as [budget' | ] eqn:Hfb; [ | discriminate Hsb];
        injection Hsb as <-]);
  (destruct Hskills as [ [Hk ->] | (Hk & skills & Hgk & Hsk) ];
    [ | destruct (db_str_null skills) as [skills' | ] eqn:Hfk; [ | discriminate Hsk];
        injection Hsk as <-]);
  (destruct Hstatus as [ [Hs ->] | (Hs & status & Hgs & Hss) ];
    [ | destruct (db_str_null status) as [status' | ] eqn:Hfs; [ | discriminate Hss];
        injection Hss as <-]);
  destruct project; simpl;
  repeat split; first [left; split; [assumption | reflexivity] | right; split; eauto].
Qed.





(** ** Rows across a request *)

(** Every outcome of [create_proposal], with the answer: another one than
    201 and the store as it was, or 201 and one more proposal, of the
    calling freelancer, on an open project where he had fewer than three. *)
Lemma create_proposal_answer (env : Env) (body : option json) (db : DB) :
  let out := serve env (CreateProposal body) db in
  (out.1.2 <> 201 /\ out.2 = db) \/
  (exists current_user_id user project_id project proposal,
     identity env = Some current_user_id /\
     users db !! current_user_id = Some user /\
     User.role user = "freelancer" /\
     projects db !! project_id = Some project /\
     Project.status project = Some "open" /\
     existing_proposals db current_user_id project_id < 3 /\
     Proposal.freelancer_id proposal = current_user_id /\
     Proposal.project_id proposal = project_id /\
     Proposal.status proposal = "pending" /\
     out = (submitted (next_id (proposals db)),
            set_proposals (insert (next_id (proposals db)) proposal) db)).
Proof.
  intros out. subst out. enter.
  unfold create_proposal, role_required, jwt_required. step.
  destruct (identity env) as [current_user_id | ] eqn:Hid; simpl;
    [ | left; split; [lia | reflexivity] ].
  destruct (users db !! current_user_id) as [user | ] eqn:Huser; simpl;
    [ | left; split; [lia | reflexivity] ].
  destruct (decide (User.role user <> "freelancer")) as [Hrole | Hrole]; simpl;
    [left; split; [lia | reflexivity] | ].
  apply dec_stable in Hrole.
  unfold create_proposal_body, add_proposal. step.
  destruct body as [data | ]; simpl; [ | left; split; [lia | reflexivity] ].
  destruct (first_missing data _) as [[field | ] | e]; simpl;
    [left; split; [lia | reflexivity] | | left; split; [lia | reflexivity] ].
  destruct (getitem data "project_id") as [project_id | ]; simpl;
    [ | left; split; [lia | reflexivity] ].
  destruct (db_int project_id) as [project_id' | ]; simpl;
    [ | left; split; [lia | reflexivity] ].
  destruct (projects db !! project_id') as [project | ] eqn:Hproject; simpl;
    [ | left; split; [lia | reflexivity] ].
  destruct (decide (Project.status project <> Some "open")) as [Hclosed | Hopen]; simpl;
    [left; split; [lia | reflexivity] | ].
  apply dec_stable in Hopen.
  destruct (decide (existing_proposals db current_user_id project_id' >= 3))
    as [Hfull | Hroom]; simpl; [left; split; [lia | reflexivity] | ].
  destruct (getitem data "cover_letter") as [cover_letter | ]; simpl;
    [ | left; split; [lia | reflexivity] ].
  destruct (getitem data "bid_amount") as [bid_amount | ]; simpl;
    [ | left; split; [lia | reflexivity] ].
  destruct (py_float bid_amount) as [bid_amount' | ]; simpl;
    [ | left; split; [lia | reflexivity] ].
  destruct (getitem data "timeline_days") as [timeline_days | ]; simpl;
    [ | left; split; [lia | reflexivity] ].
  destruct (py_int timeline_days) as [timeline_days' | ]; simpl;
    [ | left; split; [lia | reflexivity] ].
  destruct (db_str cover_letter) as [cover_letter' | ]; simpl;
    [ | left; split; [lia | reflexivity] ].
  right. exists current_user_id, user, project_id', project.
  eexists. repeat split; try eassumption; try reflexivity. lia.
Qed.

(** What a request does to a project that is in the store: it is still
    there, of the same client, or the request deleted it with its
    proposals. *)
Lemma project_row_after (env : Env) (r : Request) (db : DB) (i : Z) (p : Project.t) :
  projects db !! i = Some p ->
  (exists p',
     projects (serve env r db).2 !! i = Some p' /\
     Project.client_id p' = Project.client_id p /\
     Project.created_at p' = Project.created_at p) \/
  (r = DeleteProject i /\ (serve env r db).2 = deleted i db).
Proof.
  intros Hp.
  destruct (writes_projects r) eqn:Hwrites.
  - destruct r as
      [ | | | | | | | | body | target body | target | | | | | proposal_id body | | ];
      try discriminate Hwrites.
    + destruct (create_project_outcome env body db)
        as [ [_ Hsame]
           | (u & user & data & budget & f & title & description & skills
              & _ & _ & _ & _ & _ & _ & _ & Hout) ].
      * rewrite Hsame. left. now exists p.
      * rewrite Hout. simpl. left. exists p. rewrite lookup_insert_ne; [now repeat split | ].
        intros <-. rewrite next_id_fresh in Hp. discriminate.
    + destruct (update_project_outcome env target body db)
        as [Hsame | (u & project & data & project' & _ & Hproject & _ & _ & Hup & Hout)].
      * rewrite Hsame. left. now exists p.
      * rewrite Hout. simpl. left.
        destruct (decide (i = target)) as [-> | Hne].
        -- rewrite lookup_insert_eq. exists project'.
           assert (project = p) by congruence. subst project.
           apply update_fields_effect in Hup as (_ & _ & _ & _ & _ & Hclient & Htime).
           now repeat split.
        -- rewrite lookup_insert_ne by congruence. now exists p.
    + destruct (delete_project_outcome env target db) as [Hsame | Hdeleted].
      * rewrite Hsame. left. now exists p.
      * destruct (decide (i = target)) as [-> | Hne]; [now right | ].
        rewrite Hdeleted. simpl. left. exists p.
        rewrite lookup_delete_ne by congruence. now repeat split.
    + pose proof (update_proposal_status_outcome env proposal_id body db) as Houtcome.
      cbv zeta in Houtcome.
      destruct Houtcome
        as [(_ & Hsame & _)
           | (proposal & project & [(Hasks & Hout & _) | (_ & Hout & _)])].
      * rewrite Hsame. left. now exists p.
      * rewrite Hout. simpl. left.
        destruct Hasks as (u & d & _ & _ & Hproject & _).
        destruct (decide (i = Proposal.project_id proposal)) as [-> | Hne].
        -- rewrite lookup_insert_eq. eexists. split; [reflexivity | ].
           assert (project = p) by congruence. subst project. now destruct p.
        -- rewrite lookup_insert_ne by congruence. now exists p.
      * rewrite Hout. simpl. left. now exists p.
  - rewrite (other_requests_keep_projects env r db Hwrites). left. now exists p.
Qed.

(** A project that a request added: [create_project] made it, for the
    calling client, open. *)
Lemma project_row_added (env : Env) (r : Request) (db : DB) (i : Z) (p' : Project.t) :
  projects db !! i = None ->
  projects (serve env r db).2 !! i = Some p' ->
  exists body current_user_id user,
    r = CreateProject body /\
    identity env = Some current_user_id /\
    users db !! current_user_id = Some user /\
    User.role user = "client" /\
    Project.client_id p' = current_user_id /\
    Project.status p' = Some "open" /\
    i = next_id (projects db).
Proof.
  intros Hnone Hafter.
  destruct (writes_projects r) eqn:Hwrites.
  - destruct r as
      [ | | | | | | | | body | target body | target | | | | | proposal_id body | | ];
      try discriminate Hwrites.
    + destruct (create_project_outcome env body db)
        as [ [_ Hsame]
           | (u & user & data & budget & f & title & description & skills
              & Hid & Huser & Hrole & _ & _ & _ & _ & Hout) ].
      * rewrite Hsame in Hafter. congruence.
      * rewrite Hout in Hafter. simpl in Hafter.
        destruct (decide (i = next_id (projects db))) as [-> | Hne].
        -- rewrite lookup_insert_eq in Hafter. injection Hafter as <-.
           exists body, u, user. now repeat split.
        -- rewrite lookup_insert_ne in Hafter by congruence. congruence.
    + destruct (update_project_outcome env target body db)
        as [Hsame | (u & project & data & project' & _ & Hproject & _ & _ & _ & Hout)].
      * rewrite Hsame in Hafter. congruence.
      * rewrite Hout in Hafter. simpl in Hafter.
        destruct (decide (i = target)) as [-> | Hne]; [congruence | ].
        rewrite lookup_insert_ne in Hafter by congruence. congruence.
    + destruct (delete_project_outcome env target db) as [Hsame | Hdeleted].
      * rewrite Hsame in Hafter. congruence.
      * rewrite Hdeleted in Hafter. simpl in Hafter.
        apply lookup_delete_Some in Hafter as [_ Hafter]. congruence.
    + pose proof (update_proposal_status_outcome env proposal_id body db) as Houtcome.
      cbv zeta in Houtcome.
      destruct Houtcome
        as [(_ & Hsame & _)
           | (proposal & project & [(Hasks & Hout & _) | (_ & Hout & _)])].
      * rewrite Hsame in Hafter. congruence.
      * rewrite Hout in Hafter. simpl in Hafter.
        destruct Hasks as (u & d & _ & _ & Hproject & _).
        destruct (decide (i = Proposal.project_id proposal)) as [-> | Hne];
          [congruence | ].
        rewrite lookup_insert_ne in Hafter by congruence. congruence.
      * rewrite Hout in Hafter. simpl in Hafter. congruence.
  - rewrite (other_requests_keep_projects env r db Hwrites) in Hafter. congruence.
Qed.

(** X13. The client of a project is fixed. A project that is in the store
    before and after a request has the same client and creation time,
    whatever the request; a project that appears was created by
    [create_project], called by a user with role client who becomes its
    client, and it is open. *)
Theorem project_owner_is_fixed (env : Env) (r : Request) (db : DB) (i : Z)
    (p' : Project.t) :
  projects (serve env r db).2 !! i = Some p' ->
  (forall p,
     projects db !! i = Some p ->
     Project.client_id p' = Project.client_id p /\
     Project.created_at p' = Project.created_at p) /\
  (projects db !! i = None ->
   exists body user,
     r = CreateProject body /\
     identity env = Some (Project.client_id p') /\
     users db !! Project.client_id p' = Some user /\
     User.role user = "client" /\
     Project.status p' = Some "open").
Proof.
  intros Hafter. split.
  - intros p Hp.
    destruct (project_row_after env r db i p Hp)
      as [(p1 & Hp1 & Hclient & Htime) | [-> Hdeleted] ].
    + assert (p1 = p') by congruence. subst p1. now split.
    + rewrite Hdeleted in Hafter. simpl in Hafter.
      rewrite lookup_delete_eq in Hafter. discriminate.
  - intros Hnone.
    destruct (project_row_added env r db i p' Hnone Hafter)
      as (body & u & user & -> & Hid & Huser & Hrole & Hclient & Hopen & _).
    exists body, user. subst u. now repeat split.
Qed.


(** What a request does to a proposal that it leaves in the store: the
    freelancer and the project of the proposal are as before. *)
Lemma proposal_row_after (env : Env) (r : Request) (db : DB) (i : Z)
    (q q' : Proposal.t) :
  proposals db !! i = Some q ->
  proposals (serve env r db).2 !! i = Some q' ->
  Proposal.freelancer_id q' = Proposal.freelancer_id q /\
  Proposal.project_id q' = Proposal.project_id q.
Proof.
  intros Hq Hafter.
  destruct (writes_proposals r) eqn:Hwrites.
  - destruct r as
      [ | | | | | | | | | | project_id | | body | | | target body | | ];
      try discriminate Hwrites.
    + destruct (delete_project_outcome env project_id db) as [Hsame | Hdeleted].
      * rewrite Hsame in Hafter. split; congruence.
      * rewrite Hdeleted in Hafter. simpl in Hafter.
        apply map_lookup_filter_Some in Hafter as [Hafter _]. split; congruence.
    + destruct (create_proposal_outcome env body db)
        as [Hsame | (proposal & _ & Hout)].
      * rewrite Hsame in Hafter. split; congruence.
      * rewrite Hout in Hafter. simpl in Hafter.
        rewrite lookup_insert_ne in Hafter; [split; congruence | ].
        intros <-. rewrite next_id_fresh in Hq. discriminate.
    + pose proof (update_proposal_status_outcome env target body db) as Houtcome.
      cbv zeta in Houtcome.
      destruct Houtcome
        as [(_ & Hsame & _)
           | (proposal & project & [(Hasks & Hout & _) | (Hasks & Hout & _)])].
      * rewrite Hsame in Hafter. split; congruence.
      * rewrite Hout in Hafter. simpl fst in Hafter. simpl snd in Hafter.
        destruct Hasks as (u & d & _ & Hproposal & _).
        destruct (accepted_store_rows target proposal project db)
          as (Htarget & Hothers & _).
        destruct (decide (i = target)) as [-> | Hne].
        -- rewrite Htarget in Hafter. injection Hafter as <-.
           assert (proposal = q) by congruence. subst proposal. now destruct q.
        -- rewrite (Hothers i q Hne Hq) in Hafter. injection Hafter as <-.
           destruct (decide _); now destruct q.
      * rewrite Hout in Hafter. simpl in Hafter.
        destruct Hasks as (u & d & _ & Hproposal & _).
        destruct (decide (i = target)) as [-> | Hne].
        -- rewrite lookup_insert_eq in Hafter. injection Hafter as <-.
           assert (proposal = q) by congruence. subst proposal. now destruct q.
        -- rewrite lookup_insert_ne in Hafter by congruence. split; congruence.
  - rewrite (other_requests_keep_proposals env r db Hwrites) in Hafter.
    split; congruence.
Qed.

(** A proposal that a request added: [create_proposal] made it, pending,
    for the calling freelancer, on an open project. *)
Lemma proposal_row_added (env : Env) (r : Request) (db : DB) (i : Z) (q' : Proposal.t) :
  proposals db !! i = None ->
  proposals (serve env r db).2 !! i = Some q' ->
  exists body user project,
    r = CreateProposal body /\
    identity env = Some (Proposal.freelancer_id q') /\
    users db !! Proposal.freelancer_id q' = Some user /\
    User.role user = "freelancer" /\
    projects db !! Proposal.project_id q' = Some project /\
    Project.status project = Some "open" /\
    Proposal.status q' = "pending".
Proof.
  intros Hnone Hafter.
  destruct (writes_proposals r) eqn:Hwrites.
  - destruct r as
      [ | | | | | | | | | | project_id | | body | | | target body | | ];
      try discriminate Hwrites.
    + destruct (delete_project_outcome env project_id db) as [Hsame | Hdeleted].
      * rewrite Hsame in Hafter. congruence.
      * rewrite Hdeleted in Hafter. simpl in Hafter.
        apply map_lookup_filter_Some in Hafter as [Hafter _]. congruence.
    + destruct (create_proposal_answer env body db)
        as [ [_ Hsame]
           | (u & user & pid & project & proposal & Hid & Huser & Hrole & Hproject
              & Hopen & _ & Hf & Hp & Hpending & Hout) ].
      * rewrite Hsame in Hafter. congruence.
      * rewrite Hout in Hafter. simpl in Hafter.
        destruct (decide (i = next_id (proposals db))) as [-> | Hne].
        -- rewrite lookup_insert_eq in Hafter. injection Hafter as <-.
           exists body, user, project. subst u pid. now repeat split.
        -- rewrite lookup_insert_ne in Hafter by congruence. congruence.
    + pose proof (update_proposal_status_outcome env target body db) as Houtcome.
      cbv zeta in Houtcome.
      destruct Houtcome
        as [(_ & Hsame & _)
           | (proposal & project & [(Hasks & Hout & _) | (Hasks & Hout & _)])].
      * rewrite Hsame in Hafter. congruence.
      * rewrite Hout in Hafter. simpl fst in Hafter. simpl snd in Hafter.
        destruct Hasks as (u & d & _ & Hproposal & _).
        destruct (accepted_store_rows target proposal project db)
          as (_ & _ & Hkept & _).
        destruct (decide (i = target)) as [-> | Hne]; [congruence | ].
        rewrite (Hkept i Hnone Hne) in Hafter. discriminate.
      * rewrite Hout in Hafter. simpl in Hafter.
        destruct Hasks as (u & d & _ & Hproposal & _).
        destruct (decide (i = target)) as [-> | Hne]; [congruence | ].
        rewrite lookup_insert_ne in Hafter by congruence. congruence.
  - rewrite (other_requests_keep_proposals env r db Hwrites) in Hafter. congruence.
Qed.

(** X14. Rows keep referring to rows that exist. When every project of the
    store has its client among the users and every proposal has its
    freelancer among the users and its project among the projects, the same
    holds after any request: accounts are never deleted, and
    [delete_project] deletes the proposals of the project with it. *)
Theorem references_stay_valid (env : Env) (r : Request) (db : DB) :
  references_hold db -> references_hold (serve env r db).2.
Proof.
  intros [Hprojects Hproposals].
  assert (Husers : forall j, is_Some (users db !! j) ->
                             is_Some (users (serve env r db).2 !! j)).
  { intros j [u Hu]. destruct (user_row_after env r db j u Hu) as (u' & Hu' & _).
    now exists u'. }
  split.
  - intros i p' Hafter.
    destruct (projects db !! i) as [p | ] eqn:Hbefore.
    + destruct (project_row_after env r db i p Hbefore)
        as [(p1 & Hp1 & Hclient & _) | [-> Hdeleted] ].
      * assert (p1 = p') by congruence. subst p1. rewrite Hclient.
        apply Husers. eapply Hprojects, Hbefore.
      * rewrite Hdeleted in Hafter. simpl in Hafter.
        rewrite lookup_delete_eq in Hafter. discriminate.
    + destruct (project_row_added env r db i p' Hbefore Hafter)
        as (body & u & user & _ & _ & Huser & _ & Hclient & _).
      apply Husers. rewrite Hclient. now exists user.
  - intros i q' Hafter.
    destruct (proposals db !! i) as [q | ] eqn:Hbefore.
    + destruct (proposal_row_after env r db i q q' Hbefore Hafter) as [Hf Hp].
      destruct (Hproposals i q Hbefore) as [Hfreelancer [project Hproject] ].
      split; [rewrite Hf; now apply Husers | ].
      rewrite Hp.
      destruct (project_row_after env r db _ project Hproject)
        as [(p1 & Hp1 & _) | [-> Hdeleted] ]; [now exists p1 | ].
      rewrite Hdeleted in Hafter. simpl in Hafter.
      apply map_lookup_filter_Some in Hafter as [Hsame Hother].
      simpl in Hother. congruence.
    + destruct (proposal_row_added env r db i q' Hbefore Hafter)
        as (body & user & project & -> & _ & Huser & _ & Hproject & _).
      split; [apply Husers; now exists user | ].
      rewrite (other_requests_keep_projects env (CreateProposal body) db eq_refl).
      now exists project.
Qed.

(** Rows that differ only in what a count does not look at count the
    same. *)
Lemma count_unchanged (P : Z * Proposal.t -> Prop) `{!forall x, Decision (P x)}
    (m m' : gmap Z Proposal.t) (g : Z -> Proposal.t -> Proposal.t) :
  (forall i, m' !! i = g i <$> m !! i) ->
  (forall i x, P (i, g i x) <-> P (i, x)) ->
  size (filter P m') = size (filter P m).
Proof.
  intros Hrows Hsame.
  rewrite <- (size_dom (D := gset Z) (filter P m')).
  rewrite <- (size_dom (D := gset Z) (filter P m)).
  f_equal. apply set_eq. intros i. rewrite !elem_of_dom. unfold is_Some.
  split.
  - intros [x Hx]. apply map_lookup_filter_Some in Hx as [Hx HP].
    rewrite Hrows in Hx. destruct (m !! i) as [y | ] eqn:Hy; [ | discriminate].
    injection Hx as <-. exists y. apply map_lookup_filter_Some.
    split; [exact Hy | now apply Hsame].
  - intros [y Hy]. apply map_lookup_filter_Some in Hy as [Hy HP].
    exists (g i y). apply map_lookup_filter_Some.
    split; [now rewrite Hrows, Hy | now apply Hsame].
Qed.

Lemma store_after_counts (new_status : string) (target : Z) (proposal : Proposal.t)
    (project : Project.t) (db : DB) (freelancer_id project_id : Z) :
  new_status = "accepted" \/ new_status = "rejected" ->
  proposals db !! target = Some proposal ->
  existing_proposals (store_after new_status target proposal project db)
    freelancer_id project_id
  = existing_proposals db freelancer_id project_id.
Proof.
  intros Hnew Htarget. unfold existing_proposals. f_equal.
  apply (count_unchanged _ _ _
           (fun i p => Proposal.set_status
                         (status_after new_status target (Proposal.project_id proposal)
                            i p) p)).
  - intros i. now apply store_after_rows.
  - intros i x. now destruct x.
Qed.

(** X15. The limit of three proposals per freelancer and project is an
    invariant of the store: when no freelancer has more than three
    proposals on any project, none has after any request. *)
Theorem proposal_limit_is_kept (env : Env) (r : Request) (db : DB) :
  within_limit db -> within_limit (serve env r db).2.
Proof.
  intros Hlimit f p. specialize (Hlimit f p).
  destruct (writes_proposals r) eqn:Hwrites.
  - destruct r as
      [ | | | | | | | | | | project_id | | body | | | target body | | ];
      try discriminate Hwrites.
    + destruct (delete_project_outcome env project_id db) as [-> | ->]; [exact Hlimit | ].
      unfold existing_proposals in *. simpl.
      etransitivity; [ | exact Hlimit]. apply inj_le, map_subseteq_size.
      apply map_filter_subseteq_mono, map_filter_subseteq.
    + destruct (create_proposal_answer env body db)
        as [ [_ ->]
           | (u & user & pid & project & proposal & _ & _ & _ & _ & _ & Hroom & Hf & Hp
              & _ & ->) ]; [exact Hlimit | ].
      simpl.
      destruct (decide (f = u /\ p = pid)) as [ [-> ->] | Hother].
      * subst u pid. rewrite existing_proposals_insert. lia.
      * unfold existing_proposals in *. simpl.
        rewrite map_filter_insert_not'; [exact Hlimit | | ].
        -- simpl. intros [Hf' Hp']. apply Hother. split; congruence.
        -- intros y Hy. rewrite next_id_fresh in Hy. discriminate.
    + pose proof (update_proposal_status_outcome env target body db) as Houtcome.
      cbv zeta in Houtcome.
      destruct Houtcome
        as [(_ & -> & _)
           | (proposal & project & [(Hasks & -> & _) | (Hasks & -> & _)])];
        [exact Hlimit | | ];
        destruct Hasks as (u & d & _ & Hproposal & _); simpl.
      * rewrite <- (store_after_counts "accepted" target proposal project db f p)
          in Hlimit by auto.
        exact Hlimit.
      * rewrite <- (store_after_counts "rejected" target proposal project db f p)
          in Hlimit by auto.
        exact Hlimit.
  - unfold existing_proposals in *.
    now rewrite (other_requests_keep_proposals env r db Hwrites).
Qed.


(** ** Listings and lookups *)

#[local] Instance desc_total {A} (key : A -> Z) : Total (desc key).
Proof. intros a b. unfold desc. lia. Qed.

(** A loop whose rounds all return, in a session they leave alone,
    returns. *)
Lemma for_each_succeeds {A B} (f : A -> M B) (l : list A) (w : World) :
  (forall x, x ∈ l -> exists y, f x w = (inl y, w)) ->
  exists ys, for_each f l w = (inl ys, w).
Proof.
  induction l as [ | x l IH]; intros Hf; simpl.
  - now exists [].
  - destruct (Hf x) as [y Hy]; [left | ].
    destruct IH as [ys Hys]; [intros z Hz; apply Hf; now right | ].
    exists (y :: ys). unfold bind. rewrite Hy, Hys. reflexivity.
Qed.

(** The ownership check on a session that sees the store. *)
Lemma owner_or_admin_passes (db : DB) (project : Project.t) (current_user_id : Z)
    (w : World) :
  pending w = db ->
  owner_or_admin db project current_user_id ->
  owner_or_admin_denied project current_user_id w = (inl false, w).
Proof.
  intros Hw Hallowed. unfold owner_or_admin_denied. step.
  destruct (decide (Project.client_id project <> current_user_id)) as [Hother | _];
    [ | reflexivity].
  destruct Hallowed as [Hown | (user & Huser & Hadmin)]; [contradiction | ].
  simpl. rewrite Hw, Huser. simpl. rewrite Hadmin. reflexivity.
Qed.

Lemma owner_or_admin_refuses (db : DB) (project : Project.t) (current_user_id : Z)
    (user : User.t) (w : World) :
  pending w = db ->
  users db !! current_user_id = Some user ->
  Project.client_id project <> current_user_id ->
  User.role user <> "admin" ->
  owner_or_admin_denied project current_user_id w = (inl true, w).
Proof.
  intros Hw Huser Hother Hrole. unfold owner_or_admin_denied. step.
  destruct (decide (Project.client_id project <> current_user_id)); [ | contradiction].
  simpl. rewrite Hw, Huser. simpl.
  case_bool_decide; [reflexivity | contradiction].
Qed.

Lemma project_proposals_elem_of (db : DB) (project_id i : Z) (q : Proposal.t) :
  (i, q) ∈ project_proposals db project_id <->
  proposals db !! i = Some q /\ Proposal.project_id q = project_id.
Proof.
  unfold project_proposals.
  rewrite order_by_desc_elem_of, list_elem_of_filter, elem_of_map_to_list. simpl.
  tauto.
Qed.

Lemma freelancer_entry_returns (proposal : Proposal.t) (w : World) :
  is_Some (users (pending w) !! Proposal.freelancer_id proposal) ->
  exists entry, freelancer_entry proposal w = (inl entry, w).
Proof.
  intros [freelancer Hfreelancer]. unfold freelancer_entry. step.
  rewrite Hfreelancer. simpl. eauto.
Qed.

(** X16. [get_project_proposals] answers 403 to a user who neither owns the
    project nor is an admin. For the owning client and for an admin, a 200
    answer lists the proposals of that project, all of them and only them,
    each once, latest first, one entry each; and the answer is 200 when the
    freelancer of each of them is among the users. *)
Theorem project_proposals_listing (env : Env) (db : DB) (current_user_id project_id : Z)
    (project : Project.t) :
  identity env = Some current_user_id ->
  projects db !! project_id = Some project ->
  let out := serve env (GetProjectProposals project_id) db in
  let rows := project_proposals db project_id in
  (forall user,
     users db !! current_user_id = Some user ->
     Project.client_id project <> current_user_id ->
     User.role user <> "admin" ->
     out = (denied, db)) /\
  (forall i q,
     (i, q) ∈ rows <-> proposals db !! i = Some q /\ Proposal.project_id q = project_id) /\
  NoDup rows /\
  Sorted (desc (fun row : Z * Proposal.t => Proposal.submitted_at row.2)) rows /\
  (owner_or_admin db project current_user_id ->
   (out.1.2 = 200 ->
    exists entries,
      out.1.1 = JObj [("proposals", JArr entries)] /\
      Forall2 listed_proposal rows entries) /\
   ((forall i q, (i, q) ∈ rows -> is_Some (users db !! Proposal.freelancer_id q)) ->
    out.1.2 = 200)).
Proof.
  intros Hid Hproject out rows. subst out rows.
  split; [ | split; [ | split; [ | split] ] ].
  - intros user Huser Hother Hrole. enter. unfold get_project_proposals. step.
    rewrite Hid. simpl. rewrite Hproject. simpl.
    rewrite (owner_or_admin_refuses db project current_user_id user) by auto.
    reflexivity.
  - apply project_proposals_elem_of.
  - unfold project_proposals, order_by_desc. rewrite merge_sort_Permutation.
    apply NoDup_filter, NoDup_map_to_list.
  - unfold project_proposals, order_by_desc. apply Sorted_merge_sort. apply _.
  - intros Hallowed.
    assert (Hrun : (serve env (GetProjectProposals project_id) db).1 =
      match for_each (fun row : Z * Proposal.t =>
                        bind (freelancer_entry row.2) (fun freelancer =>
                          ret (JObj (proposal_fields row.1 row.2 ++
                                     [("freelancer", freelancer)]))))
              (project_proposals db project_id) (mkWorld db db []) with
      | (inl entries, _) => (JObj [("proposals", JArr entries)], 200)
      | (inr e, _) => (jsonify_message ("Error fetching proposals: " ++ str_exn e), 500)
      end).
    { enter. unfold get_project_proposals. step.
      rewrite Hid. simpl. rewrite Hproject. simpl.
      rewrite (owner_or_admin_passes db project current_user_id) by auto.
      simpl. unfold project_proposals.
      destruct (for_each _ _ _) as [[entries | e] w]; reflexivity. }
    rewrite Hrun. split.
    + destruct (for_each _ _ _) as [[entries | e] w] eqn:Hentries; [ | discriminate].
      intros _. exists entries. split; [reflexivity | ].
      apply for_each_returns in Hentries.
      eapply Forall2_impl; [exact Hentries | ].
      intros row entry (w1 & w2 & Hentry). unfold bind in Hentry.
      destruct (freelancer_entry row.2 w1) as [[freelancer | e] w3]; [ | discriminate].
      unfold ret in Hentry. injection Hentry as <- _. now exists freelancer.
    + intros Hfreelancers.
      destruct (for_each_succeeds
                  (fun row : Z * Proposal.t =>
                     bind (freelancer_entry row.2) (fun freelancer =>
                       ret (JObj (proposal_fields row.1 row.2 ++
                                  [("freelancer", freelancer)]))))
                  (project_proposals db project_id) (mkWorld db db []))
        as [entries Hentries].
      * intros [i q] Hrow.
        destruct (freelancer_entry_returns q (mkWorld db db [])) as [entry Hentry].
        { simpl. eapply Hfreelancers, Hrow. }
        unfold bind. simpl. rewrite Hentry. eauto.
      * rewrite Hentries. reflexivity.
Qed.


(** X17. [get_proposal] shows a proposal to its freelancer, to the client
    of its project and to an admin, and to nobody else: any other user gets
    403, a 200 answer means the caller is one of the three, and each of the
    three gets 200 when the freelancer of the proposal is among the users.
    The store is left as it was. *)
Theorem proposal_visibility (env : Env) (db : DB) (current_user_id proposal_id : Z)
    (proposal : Proposal.t) (project : Project.t) (user : User.t) :
  identity env = Some current_user_id ->
  proposals db !! proposal_id = Some proposal ->
  projects db !! Proposal.project_id proposal = Some project ->
  users db !! current_user_id = Some user ->
  let out := serve env (GetProposal proposal_id) db in
  (~ may_see proposal project user current_user_id -> out = (denied, db)) /\
  (out.1.2 = 200 -> may_see proposal project user current_user_id) /\
  (may_see proposal project user current_user_id ->
   is_Some (users db !! Proposal.freelancer_id proposal) ->
   out.1.2 = 200) /\
  out.2 = db.
Proof.
  intros Hid Hproposal Hproject Huser out. subst out.
  assert (Hrun : serve env (GetProposal proposal_id) db =
    if decide (may_see proposal project user current_user_id)
    then (match freelancer_entry proposal (mkWorld db db []) with
          | (inl freelancer, _) =>
              (JObj (proposal_fields proposal_id proposal ++
                     [("freelancer", freelancer);
                      ("project",
                       JObj [("id", JInt (Proposal.project_id proposal));
                             ("title", JStr (Project.title project));
                             ("description", JStr (Project.description project));
                             ("budget", JFloat (Project.budget project))])]), 200)
          | (inr e, _) =>
              (jsonify_message ("Error fetching proposal: " ++ str_exn e), 500)
          end, db)
    else (denied, db)).
  { unfold may_see. enter. unfold get_proposal, freelancer_entry. step.
    rewrite Hid. simpl. rewrite Hproposal. simpl. rewrite Huser, Hproject.
    destruct (decide (Proposal.freelancer_id proposal = current_user_id)) as [Hf | Hf];
      simpl.
    - destruct (decide _) as [_ | Hno]; [ | contradiction Hno; now left].
      destruct (users db !! Proposal.freelancer_id proposal); reflexivity.
    - destruct (decide (Project.client_id project = current_user_id)) as [Hc | Hc];
        simpl.
      + destruct (decide _) as [_ | Hno]; [ | contradiction Hno; right; now left].
        destruct (users db !! Proposal.freelancer_id proposal); reflexivity.
      + case_bool_decide as Hadmin; simpl.
        * destruct (decide _) as [_ | Hno]; [ | contradiction Hno; right; now right].
          destruct (users db !! Proposal.freelancer_id proposal); reflexivity.
        * destruct (decide _) as [ [? | [? | ?] ] | _]; try contradiction.
          reflexivity. }
  rewrite Hrun. split; [ | split; [ | split] ].
  - intros Hno. destruct (decide _); [contradiction | reflexivity].
  - destruct (decide _) as [Hyes | Hno]; [intros _; exact Hyes | discriminate].
  - intros Hyes Hfreelancer. destruct (decide _) as [_ | Hno]; [ | contradiction].
    destruct (freelancer_entry_returns proposal (mkWorld db db []) Hfreelancer)
      as [entry ->].
    reflexivity.
  - destruct (decide _); [ | reflexivity].
    destruct (freelancer_entry proposal _) as [[? | ?] ?]; reflexivity.
Qed.

Lemma listed_projects_elem_of (db : DB) (args : Args) (i : Z) (p : Project.t) :
  (i, p) ∈ listed_projects db args ->
  projects db !! i = Some p /\
  (status_filter args <> "" -> Project.status p = Some (status_filter args)).
Proof.
  unfold listed_projects. intros Hin.
  apply paginate_elem_of, order_by_desc_elem_of in Hin.
  destruct (String.eqb_spec (status_filter args) "") as [Hall | Hsome].
  - apply elem_of_map_to_list in Hin. split; [exact Hin | contradiction].
  - apply list_elem_of_filter in Hin as [Hstatus Hin].
    apply elem_of_map_to_list in Hin. split; [exact Hin | intros _; exact Hstatus].
Qed.

Lemma project_entry_returns (row : Z * Project.t) (w w' : World) (entry : json) :
  project_entry row w = (inl entry, w') -> listed_project row entry.
Proof.
  destruct row as [i p]. unfold project_entry. step.
  destruct (users (pending w) !! _) as [client | ]; simpl; [ | discriminate].
  intros Heq. inversion Heq; subst. eexists. reflexivity.
Qed.

(** X18. [get_projects] lists, unless the query string says otherwise, open
    projects only: every row of the page is a project of the store whose
    status is the one asked for, [open] by default, and an empty status
    lifts the filter. A 200 answer has one entry for each row of the page,
    and the store is left as it was. *)
Theorem projects_listing_filter (env : Env) (args : Args) (db : DB)
    (current_user_id : Z) :
  identity env = Some current_user_id ->
  let out := serve env (GetProjects args) db in
  let page := listed_projects db args in
  (forall i p,
     (i, p) ∈ page ->
     projects db !! i = Some p /\
     (status_filter args <> "" -> Project.status p = Some (status_filter args))) /\
  (arg_status args = None ->
   forall i p, (i, p) ∈ page -> Project.status p = Some "open") /\
  (out.1.2 = 200 ->
   exists entries total,
     out.1.1 = paginated_payload "projects" entries total
                 (default 1 (arg_page args)) (default 10 (arg_per_page args)) /\
     Forall2 listed_project page entries) /\
  out.2 = db.
Proof.
  intros Hid out page. subst out page. split; [ | split; [ | split] ].
  - intros i p. apply listed_projects_elem_of.
  - intros Hdefault i p Hin.
    apply listed_projects_elem_of in Hin as [_ Hstatus].
    unfold status_filter in Hstatus. rewrite Hdefault in Hstatus. simpl in Hstatus.
    now apply Hstatus.
  - enter. unfold get_projects, listed_projects, status_filter. step.
    rewrite Hid. simpl.
    destruct (String.eqb (default "open" (arg_status args)) "");
      (destruct (for_each project_entry _ _) as [[entries | e] w] eqn:Hentries;
         simpl; [ | discriminate];
       intros _; eexists _, _; split; [reflexivity | ];
       apply for_each_returns in Hentries;
       eapply Forall2_impl; [exact Hentries | ];
       intros row entry (w1 & w2 & Hentry);
       eapply project_entry_returns; exact Hentry).
  - apply read_only_request, reads_are_read_only. reflexivity.
Qed.





(** ** More on proposals *)



(** X21. Rejecting has no cascade: when the owning client rejects a
    proposal, that proposal becomes rejected and nothing else changes, no
    other proposal, no project, no user. *)
Theorem reject_has_no_cascade (env : Env) (db : DB) (target : Z) (body : option json)
    (proposal : Proposal.t) (project : Project.t) :
  owner_asks env db target body proposal project "rejected" ->
  let out := serve env (UpdateProposalStatus target body) db in
  out.1 = status_updated "rejected" /\
  proposals out.2 !! target = Some (Proposal.set_status "rejected" proposal) /\
  (forall i, i <> target -> proposals out.2 !! i = proposals db !! i) /\
  projects out.2 = projects db /\
  users out.2 = users db.
Proof.
  intros Hasks out. subst out.
  rewrite (update_proposal_status_by_owner env db target body proposal project
             "rejected" Hasks (or_intror eq_refl)).
  cbn [fst snd]. unfold store_after, rejected_store. simpl.
  repeat split.
  - apply lookup_insert_eq.
  - intros i Hi. apply lookup_insert_ne. congruence.
Qed.

(** X22. [update_proposal_status] takes accepted and rejected and nothing
    else: for any other value of [status] in the body, a missing one
    included, the owning client is answered 400 and nothing changes; a
    proposal cannot be set back to pending. *)
Theorem other_status_is_refused (env : Env) (db : DB) (current_user_id proposal_id : Z)
    (data : json) (proposal : Proposal.t) (project : Project.t) (new_status : json) :
  identity env = Some current_user_id ->
  proposals db !! proposal_id = Some proposal ->
  projects db !! Proposal.project_id proposal = Some project ->
  Project.client_id project = current_user_id ->
  dict_get data "status" = inl new_status ->
  new_status <> JStr "accepted" ->
  new_status <> JStr "rejected" ->
  serve env (UpdateProposalStatus proposal_id (Some data)) db
  = ((jsonify_message invalid_status_message, 400), db) /\
  commits_of (dispatch env (UpdateProposalStatus proposal_id (Some data))) db = [].
Proof.
  intros Hid Hproposal Hproject Hown Hstatus Hna Hnr.
  enter. unfold update_proposal_status. step.
  rewrite Hid. simpl. rewrite Hproposal. simpl. rewrite Hproject. simpl.
  destruct (decide (Project.client_id project <> current_user_id)); [contradiction | ].
  simpl. rewrite Hstatus. simpl.
  destruct new_status as [ | | | | s | | ]; try (split; reflexivity).
  destruct (String.eqb_spec s "accepted") as [-> | _]; [contradiction | ].
  destruct (String.eqb_spec s "rejected") as [-> | _]; [contradiction | ].
  split; reflexivity.
Qed.

Lemma first_missing_names (data : json) (pre post : list string) (field : string)
    (v : json) :
  Forall (present data) pre ->
  dict_get data field = inl v ->
  truthy v = false ->
  first_missing data (pre ++ field :: post) = inl (Some field).
Proof.
  intros Hpre Hv Hfalsy. induction Hpre as [ | f pre (x & Hx & Ht) _ IH]; simpl.
  - rewrite first_missing_cons. unfold and_then. now rewrite Hv, Hfalsy.
  - rewrite first_missing_cons. unfold and_then. now rewrite Hx, Ht.
Qed.

(** X23. The required fields are checked in their order, before anything is
    looked up, and a falsy value (an absent key, null, zero, an empty
    string) counts as missing: [create_project] and [create_proposal]
    answer 400 naming the first required field that is not there and
    truthy, and store nothing. *)
Theorem missing_field_is_named (env : Env) (db : DB) (data : json)
    (pre post : list string) (field : string) (v : json) :
  Forall (present data) pre ->
  dict_get data field = inl v ->
  truthy v = false ->
  (caller_has_role env db "client" ->
   project_required_fields = (pre ++ field :: post)%list ->
   serve env (CreateProject (Some data)) db
   = ((jsonify_message (field ++ " is required"), 400), db)) /\
  (caller_has_role env db "freelancer" ->
   proposal_required_fields = (pre ++ field :: post)%list ->
   serve env (CreateProposal (Some data)) db
   = ((jsonify_message (field ++ " is required"), 400), db)).
Proof.
  intros Hpre Hv Hfalsy.
  pose proof (first_missing_names data pre post field v Hpre Hv Hfalsy) as Hmissing.
  split.
  - intros (u & user & Hid & Huser & Hrole) Hfields.
    rewrite <- Hfields in Hmissing. unfold project_required_fields in Hmissing.
    enter. unfold create_project, jwt_required. rewrite Hid.
    rewrite (role_required_admits "client" _ env _ u user) by assumption.
    unfold create_project_body. step. rewrite Hmissing. reflexivity.
  - intros (u & user & Hid & Huser & Hrole) Hfields.
    rewrite <- Hfields in Hmissing. unfold proposal_required_fields in Hmissing.
    enter. unfold create_proposal, jwt_required. rewrite Hid.
    rewrite (role_required_admits "freelancer" _ env _ u user) by assumption.
    unfold create_proposal_body. step. rewrite Hmissing. reflexivity.
Qed.


(** ** Who may write what *)

(** X24. [update_profile] writes to the caller's own row only, and there to
    the names and the email only: the row of any other user is as before,
    the caller's password hash, role and creation time are as before, and
    projects and proposals are untouched. *)
Theorem profile_update_is_own (env : Env) (body : option json) (db : DB)
    (current_user_id : Z) (user : User.t) :
  identity env = Some current_user_id ->
  users db !! current_user_id = Some user ->
  let out := serve env (UpdateProfile body) db in
  (forall i, i <> current_user_id -> users out.2 !! i = users db !! i) /\
  (exists user',
     users out.2 !! current_user_id = Some user' /\
     User.password user' = User.password user /\
     User.role user' = User.role user /\
     User.created_at user' = User.created_at user) /\
  projects out.2 = projects db /\
  proposals out.2 = proposals db.
Proof.
  intros Hid Huser out. subst out.
  destruct (update_profile_outcome env body db)
    as [ [_ Hsame]
       | (uid & user0 & data & user1 & user2 & user' & Hid' & Huser' & _ & H1 & H2
          & Hemail & Hout) ].
  - rewrite Hsame. repeat split. now exists user.
  - assert (uid = current_user_id) by congruence. subst uid.
    assert (user0 = user) by congruence. subst user0.
    rewrite Hout. simpl.
    apply update_name_keeps in H1 as (E1 & P1 & R1 & C1); [ | now intros v []].
    apply update_name_keeps in H2 as (E2 & P2 & R2 & C2); [ | now intros v []].
    repeat split.
    + intros i Hi. apply lookup_insert_ne. congruence.
    + exists user'. rewrite lookup_insert_eq.
      destruct Hemail as [ [_ ->] | (email & _ & _ & -> & _) ].
      * repeat split; congruence.
      * destruct user2. simpl in *. repeat split; congruence.
Qed.

(** X25. A user who neither owns a project nor is an admin cannot write to
    it: [update_project] and [delete_project] answer him 403 and leave the
    store as it was, whatever the body. *)
Theorem project_writes_need_owner (env : Env) (db : DB) (current_user_id project_id : Z)
    (project : Project.t) (user : User.t) (body : option json) :
  identity env = Some current_user_id ->
  projects db !! project_id = Some project ->
  users db !! current_user_id = Some user ->
  Project.client_id project <> current_user_id ->
  User.role user <> "admin" ->
  serve env (UpdateProject project_id body) db = (denied, db) /\
  serve env (DeleteProject project_id) db = (denied, db) /\
  commits_of (dispatch env (UpdateProject project_id body)) db = [] /\
  commits_of (dispatch env (DeleteProject project_id)) db = [].
Proof.
  intros Hid Hproject Huser Hother Hrole.
  enter. unfold update_project, delete_project. step.
  rewrite Hid. simpl. rewrite Hproject. simpl.
  rewrite (owner_or_admin_refuses db project current_user_id user) by auto.
  repeat split; reflexivity.
Qed.

End Properties.

#[local] Existing Instance Demo.runtime.

(** The admin of the demo store is refused the creation of a project. *)
Lemma role_required_exact_witness :
  serve (Demo.as_user 3) (CreateProject (Demo.project_body (JInt 500))) Demo.fresh
    = (access_denied "client", Demo.fresh).
Proof.
  refine (proj1 (proj1 (proj2 (role_required_exact "client" (fun _ => health_check)
                                 (Demo.as_user 3) Demo.fresh 3 Demo.admin _ _ _))
                   eq_refl (Demo.project_body (JInt 500)) (mkArgs None None None))).
  - reflexivity.
  - vm_compute. reflexivity.
  - vm_compute. discriminate.
Defined.

(** The client of the demo store, who owns project 1, accepts proposal 1. *)
Lemma accept_is_atomic_witness :
  let out :=
    serve (Demo.as_user 1) (UpdateProposalStatus 1 (Demo.status_body "accepted"))
      Demo.bidding in
  out.1 = status_updated "accepted" /\
  Proposal.status <$> proposals out.2 !! 1 = Some "accepted" /\
  Project.status <$> projects out.2 !! 1 = Some (Some "in_progress").
Proof.
  pose proof (accept_is_atomic (Demo.as_user 1) Demo.bidding 1 1
                (JObj [("status", JStr "accepted")])
                (Demo.bid "pending" 2 11) Demo.build_api
                eq_refl eq_refl eq_refl eq_refl eq_refl) as Hwitness.
  cbv zeta in Hwitness. destruct Hwitness as (Hanswer & Hp & _ & Hx & _).
  cbv zeta. repeat split; assumption.
Defined.

(** Accepted and rejected are left again: after proposal 1 was accepted and
    proposals 2 and 3 rejected with it, the owner accepts proposal 2, which
    turns the rejected proposal 2 into an accepted one and the accepted
    proposal 1 into a rejected one. *)
Lemma decided_status_changes_again :
  let first :=
    serve (Demo.as_user 1) (UpdateProposalStatus 1 (Demo.status_body "accepted"))
      Demo.bidding in
  let second :=
    serve (Demo.as_user 1) (UpdateProposalStatus 2 (Demo.status_body "accepted"))
      first.2 in
  (Proposal.status <$> proposals first.2 !! 1 = Some "accepted" /\
   Proposal.status <$> proposals first.2 !! 2 = Some "rejected") /\
  second.1.2 = 200 /\
  (Proposal.status <$> proposals second.2 !! 1 = Some "rejected" /\
   Proposal.status <$> proposals second.2 !! 2 = Some "accepted").
Proof. vm_compute. repeat split; reflexivity. Qed.

(** The second request of the trace above, on the store the first left. *)
Lemma status_transitions_witness :
  let db :=
    (serve (Demo.as_user 1) (UpdateProposalStatus 1 (Demo.status_body "accepted"))
       Demo.bidding).2 in
  let out :=
    serve (Demo.as_user 1) (UpdateProposalStatus 2 (Demo.status_body "accepted")) db in
  proposals out.2 !! 1 = Some (Demo.bid "rejected" 2 11).
Proof.
  cbv zeta.
  rewrite (proj2 (proj2 (status_transitions (Demo.as_user 1)
             (UpdateProposalStatus 2 (Demo.status_body "accepted"))
             (serve (Demo.as_user 1)
                (UpdateProposalStatus 1 (Demo.status_body "accepted")) Demo.bidding).2 1))
           2 (Demo.status_body "accepted") (Demo.bid "rejected" 2 12)
           (Project.set_status (Some "in_progress") Demo.build_api) "accepted"
           (Demo.bid "accepted" 2 11) eq_refl).
  - vm_compute. reflexivity.
  - exists 1, (JObj [("status", JStr "accepted")]). vm_compute. repeat split; reflexivity.
  - left. reflexivity.
  - vm_compute. reflexivity.
Defined.

(** The owner of project 1 sets it in progress with [update_project], in a
    store without any proposal. *)
Lemma update_project_sets_in_progress :
  let request := UpdateProject 1 (Some (JObj [("status", JStr "in_progress")])) in
  let out := serve (Demo.as_user 1) request Demo.fresh in
  proposals Demo.fresh = ∅ /\
  Project.status <$> projects Demo.fresh !! 1 = Some (Some "open") /\
  out.1.2 = 200 /\
  Project.status <$> projects out.2 !! 1 = Some (Some "in_progress").
Proof. vm_compute. repeat split; reflexivity. Qed.

(** The same request, of which the theorem says it can only be one of the
    two: here the update. *)
Lemma in_progress_sources_witness :
  exists project,
    projects Demo.fresh !! 1 = Some project /\
    ((exists proposal_id body proposal,
        UpdateProject 1 (Some (JObj [("status", JStr "in_progress")]))
        = UpdateProposalStatus proposal_id body /\
        Proposal.project_id proposal = 1 /\
        owner_asks (Demo.as_user 1) Demo.fresh proposal_id body proposal project
          "accepted") \/
     (exists current_user_id data,
        UpdateProject 1 (Some (JObj [("status", JStr "in_progress")]))
        = UpdateProject 1 (Some data) /\
        identity (Demo.as_user 1) = Some current_user_id /\
        owner_or_admin Demo.fresh project current_user_id /\
        py_in "status" data = inl true /\
        getitem data "status" = inl (JStr "in_progress"))).
Proof.
  apply (in_progress_sources (Demo.as_user 1)
           (UpdateProject 1 (Some (JObj [("status", JStr "in_progress")])))
           Demo.fresh 1).
  - vm_compute. discriminate.
  - vm_compute. reflexivity.
Defined.



(** The admin, who does not own project 1, asks to accept proposal 1. *)
Lemma set_status_owner_only_witness :
  serve (Demo.as_user 3) (UpdateProposalStatus 1 (Demo.status_body "accepted"))
    Demo.bidding
  = (denied, Demo.bidding).
Proof.
  refine (proj1 (set_status_owner_only (Demo.as_user 3) Demo.bidding 3 1
                   (Demo.status_body "accepted") (Demo.bid "pending" 2 11)
                   Demo.build_api eq_refl _ _ _)).
  - vm_compute. reflexivity.
  - vm_compute. reflexivity.
  - vm_compute. discriminate.
Defined.



(** The admin deletes project 1 and its three proposals. *)
Lemma delete_project_cascades_witness :
  let out := serve (Demo.as_user 3) (DeleteProject 1) Demo.bidding in
  projects out.2 !! 1 = None /\ proposal_count out.2 1 = 0.
Proof.
  pose proof (delete_project_cascades (Demo.as_user 3) Demo.bidding 3 1
                Demo.build_api eq_refl) as Hwitness.
  cbv zeta in Hwitness.
  destruct Hwitness as (_ & _ & Hgone & _ & Hcount & _).
  - vm_compute. reflexivity.
  - right. exists Demo.admin. split; vm_compute; reflexivity.
  - cbv zeta. split; assumption.
Defined.

(** Freelancer 2 lists his proposals: proposal 3, of freelancer 4, is not on
    the page. *)
Lemma my_proposals_isolated_witness :
  (3, Demo.bid "pending" 4 13) ∉ my_proposals_page Demo.bidding 2 Demo.no_args.
Proof.
  pose proof (my_proposals_isolated (Demo.as_user 2) Demo.no_args Demo.bidding 2
                Demo.freelancer eq_refl) as Hwitness.
  cbv zeta in Hwitness.
  destruct Hwitness as (_ & Hnot & _).
  - vm_compute. reflexivity.
  - vm_compute. reflexivity.
  - apply Hnot.
    + vm_compute. reflexivity.
    + vm_compute. discriminate.
Defined.

(** * The further properties on the demo store *)

(** Lookups in the tables of the demo stores, key by key. *)
Ltac demo_row H :=
  repeat (apply lookup_insert_Some in H as [[<- <-] | [? H] ]);
  try (rewrite lookup_empty in H; discriminate H).

Lemma demo_emails_unique : unique_emails Demo.fresh.
Proof.
  intros i j u v Hu Hv Hsame. simpl in Hu, Hv. unfold Demo.people in *.
  demo_row Hu; demo_row Hv; try reflexivity; discriminate Hsame.
Qed.

Lemma demo_references_hold : references_hold Demo.bidding.
Proof.
  split.
  - intros i project Hi. simpl in Hi. demo_row Hi. vm_compute. eauto.
  - intros i proposal Hi. simpl in Hi. demo_row Hi; vm_compute; eauto.
Qed.

Lemma demo_within_limit : within_limit Demo.bidding.
Proof.
  intros f p. unfold existing_proposals.
  etransitivity; [apply inj_le, map_subseteq_size, map_filter_subseteq | ].
  vm_compute. discriminate.
Qed.

(** Project 9 and proposal 9 do not exist. *)
Lemma missing_row_is_500_witness :
  (serve (Demo.as_user 1) (DeleteProject 9) Demo.bidding).1.2 = 500 /\
  (serve (Demo.as_user 1) (DeleteProject 9) Demo.bidding).2 = Demo.bidding.
Proof.
  pose proof (missing_row_is_500 (Demo.as_user 1) Demo.bidding 1 9 eq_refl)
    as [Hprojects _].
  destruct (Hprojects eq_refl None) as (_ & _ & Hdelete & _). exact Hdelete.
Defined.


(** The admin looks at proposal 1. *)
Lemma reads_leave_the_store_witness :
  (serve (Demo.as_user 3) (GetProposal 1) Demo.bidding).2 = Demo.bidding.
Proof.
  exact (proj1 (reads_leave_the_store (Demo.as_user 3) (GetProposal 1)
                  Demo.bidding eq_refl)).
Defined.

(** The client's account after the client changed the password. *)
Lemma accounts_persist_witness :
  exists u',
    users (serve (Demo.as_user 1) (ChangePassword (Some Demo.password_body))
             Demo.fresh).2 !! 1 = Some u' /\
    User.role u' = "client" /\
    User.created_at u' = 0.
Proof.
  apply (accounts_persist (Demo.as_user 1) (ChangePassword (Some Demo.password_body))
           Demo.fresh 1 Demo.client).
  vm_compute. reflexivity.
Defined.

(** The store after a registration. *)
Lemma emails_stay_unique_witness :
  unique_emails (serve Demo.anonymous (Register (Some Demo.registration)) Demo.fresh).2.
Proof.
  apply (emails_stay_unique Demo.anonymous (Register (Some Demo.registration))
           Demo.fresh).
  exact demo_emails_unique.
Defined.

(** The user the registration added has one of the three roles. *)
Lemma roles_stay_valid_witness :
  valid_role
    (User.role
       (registered_user Demo.anonymous "zoe@example.com" "secret" "Zoe" "Ney"
          "freelancer")).
Proof.
  refine (roles_stay_valid Demo.anonymous (Register (Some Demo.registration))
            Demo.fresh _ 5 _ _).
  - intros i u Hu. simpl in Hu. unfold Demo.people in Hu.
    demo_row Hu; vm_compute; auto.
  - vm_compute. reflexivity.
Defined.


(** The freelancer of the demo store logs in with the password h2. *)
Lemma login_checks_witness :
  (serve Demo.anonymous
     (Login (Some (JObj [("email", JStr "bob@example.com"); ("password", JStr "h2")])))
     Demo.fresh).1
  = logged_in 2 Demo.freelancer.
Proof.
  refine (proj1 (proj2 (proj2 (proj2 (login_checks Demo.anonymous
            (JObj [("email", JStr "bob@example.com"); ("password", JStr "h2")])
            Demo.fresh "bob@example.com" "h2" _))))
            2 Demo.freelancer _ _).
  - repeat split; try reflexivity; discriminate.
  - vm_compute. reflexivity.
  - vm_compute. reflexivity.
Defined.

(** Zoe registers and then logs in. *)
Lemma register_then_login_witness :
  exists user,
    serve Demo.anonymous (Login (Some Demo.registration))
      (serve Demo.anonymous (Register (Some Demo.registration)) Demo.fresh).2
    = (logged_in (next_id (users Demo.fresh)) user,
       (serve Demo.anonymous (Register (Some Demo.registration)) Demo.fresh).2).
Proof.
  eexists.
  refine (proj1 (proj2 (register_then_login Demo.anonymous Demo.anonymous
            Demo.registration Demo.fresh "zoe@example.com" "secret" "Zoe" "Ney"
            "freelancer" _ eq_refl _ eq_refl _ eq_refl _ _ _))).
  - repeat split; try reflexivity; discriminate.
  - discriminate.
  - discriminate.
  - right. left. reflexivity.
  - intros i u Hu. simpl in Hu. unfold Demo.people in Hu.
    demo_row Hu; discriminate.
  - vm_compute. reflexivity.
Defined.

(** The client asks for the email of user 2. *)
Lemma taken_email_is_refused_witness :
  serve (Demo.as_user 1) (UpdateProfile (Some Demo.profile_body)) Demo.fresh
  = ((jsonify_message "Email already taken", 400), Demo.fresh).
Proof.
  refine (proj1 (proj2 (taken_email_is_refused (Demo.as_user 1) Demo.profile_body
            Demo.fresh "bob@example.com" 2 Demo.freelancer eq_refl _)
            1 Demo.client (User.set_first_name "Anna" Demo.client)
            (User.set_first_name "Anna" Demo.client) eq_refl _ _ eq_refl eq_refl)).
  - vm_compute. reflexivity.
  - vm_compute. reflexivity.
  - discriminate.
Defined.

(** The client changes the password and the row has the new hash. *)
Lemma change_password_checks_witness :
  serve (Demo.as_user 1) (ChangePassword (Some Demo.password_body)) Demo.fresh
  = ((jsonify_message "Password changed successfully", 200),
     set_users (insert 1 (set_password Demo.client "h9" "salt")) Demo.fresh).
Proof.
  refine (proj1 (proj2 (change_password_checks (Demo.as_user 1) Demo.password_body
            Demo.fresh 1 Demo.client "h1" "h9" eq_refl _ eq_refl _ eq_refl _) _)).
  - vm_compute. reflexivity.
  - discriminate.
  - discriminate.
  - vm_compute. reflexivity.
Defined.


Lemma project_owner_is_fixed_witness :
  Project.client_id (Project.set_title "New" Demo.build_api)
  = Project.client_id Demo.build_api /\
  Project.created_at (Project.set_title "New" Demo.build_api)
  = Project.created_at Demo.build_api.
Proof.
  refine (proj1 (project_owner_is_fixed (Demo.as_user 3)
            (UpdateProject 1 (Some (JObj [("title", JStr "New")]))) Demo.fresh 1
            (Project.set_title "New" Demo.build_api) _) Demo.build_api _).
  - vm_compute. reflexivity.
  - vm_compute. reflexivity.
Defined.

(** The store after the admin deleted project 1. *)
Lemma references_stay_valid_witness :
  references_hold (serve (Demo.as_user 3) (DeleteProject 1) Demo.bidding).2.
Proof.
  apply (references_stay_valid (Demo.as_user 3) (DeleteProject 1) Demo.bidding).
  exact demo_references_hold.
Defined.

(** The store after freelancer 2 submitted a third proposal. *)
Lemma proposal_limit_is_kept_witness :
  within_limit
    (serve (Demo.as_user 2) (CreateProposal (Some Demo.proposal_data)) Demo.bidding).2.
Proof.
  apply (proposal_limit_is_kept (Demo.as_user 2)
           (CreateProposal (Some Demo.proposal_data)) Demo.bidding).
  exact demo_within_limit.
Defined.

(** The owner of project 1 lists its three proposals. *)
Lemma project_proposals_listing_witness :
  (serve (Demo.as_user 1) (GetProjectProposals 1) Demo.bidding).1.2 = 200.
Proof.
  pose proof (project_proposals_listing (Demo.as_user 1) Demo.bidding 1 1
                Demo.build_api eq_refl eq_refl) as Hwitness.
  cbv zeta in Hwitness. destruct Hwitness as (_ & Hrows & _ & _ & Hlist).
  apply Hlist; [left; reflexivity | ].
  intros i q Hiq. apply Hrows in Hiq as [Hi _]. simpl in Hi.
  demo_row Hi; vm_compute; eauto.
Defined.

(** Freelancer 4 asks for proposal 1, which freelancer 2 submitted. *)
Lemma proposal_visibility_witness :
  serve (Demo.as_user 4) (GetProposal 1) Demo.bidding = (denied, Demo.bidding).
Proof.
  pose proof (proposal_visibility (Demo.as_user 4) Demo.bidding 4 1
                (Demo.bid "pending" 2 11) Demo.build_api Demo.other_freelancer
                eq_refl eq_refl eq_refl eq_refl) as Hwitness.
  cbv zeta in Hwitness. destruct Hwitness as (Hdenied & _).
  apply Hdenied. intros [Hsee | [Hsee | Hsee] ]; discriminate Hsee.
Defined.

(** Freelancer 2 lists the open projects: one entry for each row of the
    page. *)
Lemma projects_listing_filter_witness :
  exists entries total,
    (serve (Demo.as_user 2) (GetProjects Demo.no_args) Demo.fresh).1.1
    = paginated_payload "projects" entries total 1 10 /\
    Forall2 listed_project (listed_projects Demo.fresh Demo.no_args) entries.
Proof.
  pose proof (projects_listing_filter (Demo.as_user 2) Demo.no_args Demo.fresh 2
                eq_refl) as Hwitness.
  cbv zeta in Hwitness. destruct Hwitness as (_ & _ & Hpage & _).
  apply Hpage. vm_compute. reflexivity.
Defined.


Lemma demo_owner_asks (new_status : string) :
  owner_asks (Demo.as_user 1) Demo.bidding 1 (Demo.status_body new_status)
    (Demo.bid "pending" 2 11) Demo.build_api new_status.
Proof.
  exists 1, (JObj [("status", JStr new_status)]). repeat split; reflexivity.
Qed.



(** Proposal 1 is rejected: proposals 2 and 3 and project 1 are as before. *)
Lemma reject_has_no_cascade_witness :
  let out :=
    serve (Demo.as_user 1) (UpdateProposalStatus 1 (Demo.status_body "rejected"))
      Demo.bidding in
  proposals out.2 !! 1 = Some (Demo.bid "rejected" 2 11) /\
  proposals out.2 !! 2 = Some (Demo.bid "pending" 2 12) /\
  projects out.2 = projects Demo.bidding.
Proof.
  pose proof (reject_has_no_cascade (Demo.as_user 1) Demo.bidding 1
                (Demo.status_body "rejected") (Demo.bid "pending" 2 11)
                Demo.build_api (demo_owner_asks "rejected")) as Hwitness.
  cbv zeta in Hwitness. destruct Hwitness as (_ & Htarget & Hothers & Hprojects & _).
  cbv zeta. split; [ | split].
  - exact Htarget.
  - rewrite (Hothers 2); [reflexivity | discriminate].
  - exact Hprojects.
Defined.

(** The owner tries to set proposal 1 back to pending. *)
Lemma other_status_is_refused_witness :
  serve (Demo.as_user 1) (UpdateProposalStatus 1 (Demo.status_body "pending"))
    Demo.bidding
  = ((jsonify_message invalid_status_message, 400), Demo.bidding).
Proof.
  refine (proj1 (other_status_is_refused (Demo.as_user 1) Demo.bidding 1 1
            (JObj [("status", JStr "pending")]) (Demo.bid "pending" 2 11)
            Demo.build_api (JStr "pending") eq_refl eq_refl eq_refl eq_refl eq_refl
            _ _)); discriminate.
Defined.

(** A budget of zero counts as missing. *)
Lemma missing_field_is_named_witness :
  serve (Demo.as_user 1) (CreateProject (Some Demo.free_project)) Demo.fresh
  = ((jsonify_message "budget is required", 400), Demo.fresh).
Proof.
  refine (proj1 (missing_field_is_named (Demo.as_user 1) Demo.fresh Demo.free_project
            ["title"; "description"] ["skills_required"] "budget" (JInt 0)
            _ eq_refl eq_refl) _ eq_refl).
  - repeat (constructor; [eexists; split; reflexivity | ]). constructor.
  - exists 1, Demo.client. repeat split; reflexivity.
Defined.

(** The client updates the profile; user 2 is as before and so are the
    client's hash and role. *)
Lemma profile_update_is_own_witness :
  let out := serve (Demo.as_user 1) (UpdateProfile (Some Demo.profile_body)) Demo.fresh in
  users out.2 !! 2 = Some Demo.freelancer /\
  exists user',
    users out.2 !! 1 = Some user' /\
    User.password user' = "h1" /\
    User.role user' = "client".
Proof.
  pose proof (profile_update_is_own (Demo.as_user 1) (Some Demo.profile_body)
                Demo.fresh 1 Demo.client eq_refl eq_refl) as Hwitness.
  cbv zeta in Hwitness. destruct Hwitness as (Hothers & (user' & Hrow & Hhash & Hrole & _) & _).
  cbv zeta. split.
  - rewrite (Hothers 2); [reflexivity | discriminate].
  - exists user'. repeat split; assumption.
Defined.

(** Freelancer 2 tries to delete project 1 of client 1. *)
Lemma project_writes_need_owner_witness :
  serve (Demo.as_user 2) (DeleteProject 1) Demo.bidding = (denied, Demo.bidding).
Proof.
  refine (proj1 (proj2 (project_writes_need_owner (Demo.as_user 2) Demo.bidding 2 1
            Demo.build_api Demo.freelancer None eq_refl eq_refl eq_refl _ _)));
    discriminate.
Defined.
